(** * ssh-chat: the per-connection client engine ([client.go])

    A shallow embedding of [client.go] and the properties of its command
    interpreter ([handleShell]) and channel-request dispatcher
    ([handleChannels]).

    Conventions of the embedding:
    - a Go [string] is a byte sequence: Rocq's [string] (a list of 8-bit
      [ascii]); Go's [len] is [String.length];
    - a [*Client] is a key into a store of clients ([gmap nat Client]), so
      that the issuer of a command and its target may alias;
    - a [time.Time] is an integer number of nanoseconds since the zero
      [Time]; a [time.Duration] is an integer number of nanoseconds;
    - a nil dereference or an index out of range is a panic: the
      computation yields [None];
    - calls into collaborators that live outside [client.go] (the [Server]
      registry, the ssh channel, the logger, goroutine starts) are appended
      to a trace of events, in program order. *)

From Stdlib Require Import ZArith String Ascii List Lia Strings.Byte DecimalString.
From Stdlib Require Import Floats.SpecFloat.
From stdpp Require Import base option gmap strings list.

Open Scope Z_scope.

(** ** Go's [strings] package, as far as [client.go] calls it *)

Module GoStrings.

(** [strings.HasPrefix(s, prefix)]. *)
Definition HasPrefix (s prefix : string) : bool := String.prefix prefix s.

(** The first occurrence of the one-byte separator [sep] cuts [s] into
    the text before it and the text after it ([strings.Index] followed by
    the two slicings of [genSplit]). *)
Fixpoint cut (sep : ascii) (s : string) : option (string * string) :=
  match s with
  | EmptyString => None
  | String a s' =>
      if Ascii.eqb a sep then Some (EmptyString, s')
      else match cut sep s' with
           | Some (b, r) => Some (String a b, r)
           | None => None
           end
  end.

(** The loop of [strings.genSplit]: at most [n] cuts, then the rest of the
    string unsplit. *)
Fixpoint genSplit (sep : ascii) (n : nat) (s : string) : list string :=
  match n with
  | O => [s]
  | S n' =>
      match cut sep s with
      | None => [s]
      | Some (b, r) => b :: genSplit sep n' r
      end
  end.

(** [strings.SplitN(s, sep, n)] for a one-byte [sep]: [n = 0] gives nil,
    [n < 0] every substring, [n > 0] at most [n] substrings, the last one
    being the remainder. *)
Definition SplitN (s : string) (sep : ascii) (n : Z) : list string :=
  if n =? 0 then []
  else if n <? 0 then genSplit sep (String.length s) s
  else genSplit sep (Z.to_nat (n - 1)) s.

(** [strings.Split(s, sep)] is [SplitN] with [n = -1]. *)
Definition Split (s : string) (sep : ascii) : list string := SplitN s sep (-1).

Fixpoint contains (cutset : string) (a : ascii) : bool :=
  match cutset with
  | EmptyString => false
  | String b cutset' => Ascii.eqb a b || contains cutset' a
  end.

(** [strings.TrimLeft(s, cutset)] for an ASCII [cutset]: leading bytes
    that belong to the set are dropped. *)
Fixpoint TrimLeft (s cutset : string) : string :=
  match s with
  | EmptyString => EmptyString
  | String a s' => if contains cutset a then TrimLeft s' cutset else s
  end.

(** [strings.Join(a, sep)]. *)
Fixpoint Join (a : list string) (sep : string) : string :=
  match a with
  | [] => EmptyString
  | [x] => x
  | x :: rest => x +:+ sep +:+ Join rest sep
  end.

End GoStrings.

Arguments GoStrings.HasPrefix : simpl never.

(** The verb [%d] of [fmt.Sprintf] on a non-negative [int]. *)
Definition fmt_d (n : Z) : string := NilZero.string_of_int (Z.to_int n).

(** ** Time

    [time.Time] and [time.Duration] are both integers counting
    nanoseconds; the zero [Time] is [0]. *)

Abbreviation Time := Z.
Abbreviation Duration := Z.

Definition Second : Duration := 1000000000.
Definition Minute : Duration := 60 * Second.

(** [t.After(u)]: strictly later. *)
Definition Time_After (t u : Time) : bool := u <? t.

(** [t.Add(d)]. *)
Definition Time_Add (t : Time) (d : Duration) : Time := t + d.

(** ** Collaborators outside [client.go]

    The terminal of [golang.org/x/crypto/ssh/terminal], the parts of Go's
    [time] package that read text, and the two payload parsers of the
    repository's pty file are interfaces here: every theorem holds for all
    their implementations. *)

Class TerminalOps (Terminal : Type) := {
  (** [terminal.NewTerminal(channel, prompt)] *)
  NewTerminal : nat -> string -> Terminal;
  (** [t.Write(buf)]; the caller drops its results *)
  term_Write : Terminal -> string -> Terminal;
  (** [t.SetSize(width, height)]; the boolean says [err == nil] *)
  term_SetSize : Terminal -> Z -> Z -> Terminal * bool;
  (** [t.SetPrompt(prompt)] *)
  term_SetPrompt : Terminal -> string -> Terminal
}.

Class TimeOps := {
  (** [time.ParseDuration(s)]; [None] when [err != nil] *)
  ParseDuration : string -> option Duration;
  (** [d.String()], what the verb [%s] prints for a [Duration] *)
  Duration_String : Duration -> string
}.

Class PtyOps := {
  (** [parsePtyRequest(payload)]: width, height, ok *)
  parsePtyRequest : list byte -> Z * Z * bool;
  (** [parseWinchRequest(payload)]: width, height, ok *)
  parseWinchRequest : list byte -> Z * Z * bool
}.

(** What the [Server] answers when the command loop asks it, during the
    handling of one line. [Who] returns a [*Client]: a key of the store. *)
Record ServerView := mkServerView {
  IsOp : nat -> bool;
  Who : string -> option nat;
  List_ : list string
}.

(** Calls that leave [client.go], in program order. A call is recorded
    and no more: what the server does with it is not in [client.go]. In
    particular [Server_Broadcast] and [Server_Rename] leave the store
    alone here, where the server goes on to fill mailboxes and to change
    a name and a prompt; after such a call the store is the store as the
    code of [client.go] has left it. *)
Inductive Event : Type :=
| Server_Add (c : nat)
| Server_Remove (c : nat)
| Server_Broadcast (msg : string) (except : option nat)
| Server_Rename (c : nat) (name : string)
| Server_Ban (fingerprint : string)
| Server_Op (fingerprint : string)
| Channel_Close (channel : nat)
| Channel_Reject (message : string)
| Request_Reply (ok : bool)
| Logger_Errorf (message : string)
| Go_handleShell (c channel : nat)
| Go_waitThenRemove (c : nat)
| Go_pump (c : nat).

Definition MSG_BUFFER : Z := 10.

Definition LF : ascii := "010"%char.
Definition CRLF : string := String "013"%char (String "010"%char EmptyString).

Definition HELP_TEXT : string := "-> Available commands:
   /about
   /exit
   /help
   /list
   /nick $NAME
   /whois $NAME
".

Definition ABOUT_TEXT : string := "-> ssh-chat is made by @shazow.

   It is a custom ssh server built in Go to serve a chat experience
   instead of a shell.

   Source: https://github.com/shazow/ssh-chat

   For more, visit shazow.net or follow at twitter.com/shazow
".

(** ** The client and the world it lives in *)

(** The fields of [ssh.ServerConn] that [client.go] reads or changes.
    [Permissions] is a pointer and may be nil. *)
Record ServerConn := mkServerConn {
  User : string;
  ClientVersion : string;
  Permissions : option (gmap string string);
  Closed : bool
}.

Section Model.
Context {Terminal : Type} `{!TerminalOps Terminal} `{!TimeOps} `{!PtyOps}.

(** The [Client] struct. [Server] is seen through [ServerView] and the
    trace; [Msg] holds the values sent on the channel, oldest first (a
    send that finds [MSG_BUFFER] values pending waits for the output pump
    to take one: the wait is a matter of scheduling and is not modelled);
    [ready] is not used in [client.go] beyond its creation; [term] is a
    pointer and is nil until a channel is accepted. *)
Record Client := mkClient {
  Conn : ServerConn;
  Msg : list string;
  Name : string;
  Op : bool;
  term : option Terminal;
  termWidth : Z;
  termHeight : Z;
  silencedUntil : Time
}.

Definition set_Msg (m : list string) (c : Client) : Client :=
  mkClient (Conn c) m (Name c) (Op c) (term c) (termWidth c) (termHeight c) (silencedUntil c).
Definition set_Name (n : string) (c : Client) : Client :=
  mkClient (Conn c) (Msg c) n (Op c) (term c) (termWidth c) (termHeight c) (silencedUntil c).
Definition set_term (t : option Terminal) (c : Client) : Client :=
  mkClient (Conn c) (Msg c) (Name c) (Op c) t (termWidth c) (termHeight c) (silencedUntil c).
Definition set_size (w h : Z) (c : Client) : Client :=
  mkClient (Conn c) (Msg c) (Name c) (Op c) (term c) w h (silencedUntil c).
Definition set_silencedUntil (t : Time) (c : Client) : Client :=
  mkClient (Conn c) (Msg c) (Name c) (Op c) (term c) (termWidth c) (termHeight c) t.
Definition set_Closed (c : Client) : Client :=
  mkClient (mkServerConn (User (Conn c)) (ClientVersion (Conn c)) (Permissions (Conn c)) true)
           (Msg c) (Name c) (Op c) (term c) (termWidth c) (termHeight c) (silencedUntil c).

(** [NewClient(server, conn)]. *)
Definition NewClient (conn : ServerConn) : Client :=
  mkClient conn [] (User conn) false None 0 0 0.

Record World := mkWorld {
  clients : gmap nat Client;
  trace : list Event
}.

(** Computations that read and change the world and may panic. *)
Definition M (A : Type) : Type := World -> option (A * World).

#[export] Instance M_ret : MRet M := fun A a w => Some (a, w).
#[export] Instance M_bind : MBind M := fun A B f m w =>
  match m w with
  | Some (a, w') => f a w'
  | None => None
  end.

Definition panic {A} : M A := fun _ => None.

Definition emit (e : Event) : M unit :=
  fun w => Some (tt, mkWorld (clients w) (trace w ++ [e])).

(** Dereference of a [*Client]. *)
Definition load (c : nat) : M Client :=
  fun w => match clients w !! c with
           | Some cl => Some (cl, w)
           | None => None
           end.

Definition store (c : nat) (cl : Client) : M unit :=
  fun w => Some (tt, mkWorld (<[c := cl]> (clients w)) (trace w)).

(** [a[i]] on a slice. *)
Definition index {A} (a : list A) (i : nat) : M A :=
  match a !! i with
  | Some x => mret x
  | None => panic
  end.

(** Dereference of a pointer that may be nil. *)
Definition deref {A} (p : option A) : M A :=
  match p with
  | Some x => mret x
  | None => panic
  end.

(** [c.Msg <- msg]. *)
Definition send (c : nat) (msg : string) : M unit :=
  cl ← load c; store c (set_Msg (Msg cl ++ [msg]) cl).

(** [func (c *Client) Write(msg string)] *)
Definition Write (c : nat) (msg : string) : M unit :=
  cl ← load c;
  t ← deref (term cl);
  store c (set_term (Some (term_Write t (msg +:+ CRLF))) cl).

(** [func (c *Client) WriteLines(msg []string)] *)
Fixpoint WriteLines (c : nat) (msg : list string) : M unit :=
  match msg with
  | [] => mret tt
  | line :: rest => Write c line ;; WriteLines c rest
  end.

(** [func (c *Client) IsSilenced() bool], [now] being what [time.Now()]
    returns. *)
Definition IsSilenced (c : nat) (now : Time) : M bool :=
  cl ← load c; mret (Time_After (silencedUntil cl) now).

(** [func (c *Client) Silence(d time.Duration)] *)
Definition Silence (c : nat) (d : Duration) (now : Time) : M unit :=
  cl ← load c; store c (set_silencedUntil (Time_Add now d) cl).

(** [func (c *Client) Resize(width int, height int) error]; the result
    says [err == nil]. *)
Definition Resize (c : nat) (width height : Z) : M bool :=
  cl ← load c;
  t ← deref (term cl);
  let '(t', ok) := term_SetSize t width height in
  if ok then
    store c (set_size width height (set_term (Some t') cl)) ;; mret true
  else
    store c (set_term (Some t') cl) ;;
    emit (Logger_Errorf ("Resize failed: " +:+ fmt_d width +:+ "x" +:+ fmt_d height)) ;;
    mret false.

(** [func (c *Client) Rename(name string)] *)
Definition Rename (c : nat) (name : string) : M unit :=
  cl ← load c;
  store c (set_Name name cl) ;;
  cl ← load c;
  t ← deref (term cl);
  store c (set_term (Some (term_SetPrompt t ("[" +:+ name +:+ "] "))) cl).

(** [func (c *Client) Fingerprint() string] *)
Definition Fingerprint (c : nat) : M string :=
  cl ← load c;
  p ← deref (Permissions (Conn cl));
  mret (default EmptyString (p !! "fingerprint"%string)).

(** *** [handleShell]: the command loop *)

(** The rejection gate shared by chat and [/me]:
    [c.IsSilenced() || len(msg) > 1000]. *)
Definition rejected (c : nat) (now : Time) (msg : string) : M bool :=
  silenced ← IsSilenced c now;
  mret (silenced || (1000 <? Z.of_nat (String.length msg))).

(** The body of the [for] loop of [handleShell], after [ReadLine] has
    returned [line] without error. [srv] is what [c.Server] answers and
    [now] what [time.Now()] returns while the line is handled. *)
Definition handleShell_line (c channel : nat) (srv : ServerView) (now : Time)
    (line : string) : M unit :=
  let parts := GoStrings.SplitN line " " 3 in
  verb ← index parts 0;
  let isCmd := GoStrings.HasPrefix verb "/" in
  if isCmd then
    if String.eqb verb "/exit" then
      emit (Channel_Close channel)
    else if String.eqb verb "/help" then
      WriteLines c (GoStrings.Split HELP_TEXT LF)
    else if String.eqb verb "/about" then
      WriteLines c (GoStrings.Split ABOUT_TEXT LF)
    else if String.eqb verb "/me" then
      let me := GoStrings.TrimLeft line "/me" in
      let me := if String.eqb me "" then " is at a loss for words."%string else me in
      cl ← load c;
      let msg := "** " +:+ Name cl +:+ me in
      reject ← rejected c now msg;
      if (reject : bool) then send c "-> Message rejected."
      else emit (Server_Broadcast msg None)
    else if String.eqb verb "/nick" then
      if Nat.eqb (length parts) 2 then
        name ← index parts 1;
        emit (Server_Rename c name)
      else send c "-> Missing $NAME from: /nick $NAME"
    else if String.eqb verb "/whois" then
      if Nat.eqb (length parts) 2 then
        name ← index parts 1;
        match Who srv name with
        | Some client =>
            target ← load client;
            let version := ClientVersion (Conn target) in
            let version :=
              if 100 <? Z.of_nat (String.length version)
              then "Evil Jerk with a superlong string"%string else version in
            fingerprint ← Fingerprint client;
            send c ("-> " +:+ Name target +:+ " is " +:+ fingerprint +:+ " via " +:+ version)
        | None => send c ("-> No such name: " +:+ name)
        end
      else send c "-> Missing $NAME from: /whois $NAME"
    else if String.eqb verb "/list" then
      let names := List_ srv in
      send c ("-> " +:+ fmt_d (Z.of_nat (length names)) +:+ " connected: "
              +:+ GoStrings.Join names ", ")
    else if String.eqb verb "/ban" then
      if negb (IsOp srv c) then send c "-> You're not an admin."
      else if negb (Nat.eqb (length parts) 2) then
        send c "-> Missing $NAME from: /ban $NAME"
      else
        name ← index parts 1;
        match Who srv name with
        | None => send c ("-> No such name: " +:+ name)
        | Some client =>
            fingerprint ← Fingerprint client;
            cl ← load c;
            Write client ("-> Banned by " +:+ Name cl +:+ ".") ;;
            emit (Server_Ban fingerprint) ;;
            target ← load client;
            store client (set_Closed target) ;;
            cl ← load c;
            emit (Server_Broadcast ("* " +:+ name +:+ " was banned by " +:+ Name cl) None)
        end
    else if String.eqb verb "/op" then
      if negb (IsOp srv c) then send c "-> You're not an admin."
      else if negb (Nat.eqb (length parts) 2) then
        send c "-> Missing $NAME from: /op $NAME"
      else
        name ← index parts 1;
        match Who srv name with
        | None => send c ("-> No such name: " +:+ name)
        | Some client =>
            fingerprint ← Fingerprint client;
            cl ← load c;
            Write client ("-> Made op by " +:+ Name cl +:+ ".") ;;
            emit (Server_Op fingerprint)
        end
    else if String.eqb verb "/silence" then
      if negb (IsOp srv c) then send c "-> You're not an admin."
      else if Nat.ltb (length parts) 2 then
        send c "-> Missing $NAME from: /silence $NAME"
      else
        let duration := 5 * Minute in
        duration ←
          (if Nat.leb 3 (length parts) then
             token ← index parts 2;
             match ParseDuration token with
             | Some parsedDuration => mret parsedDuration
             | None => mret duration
             end
           else mret duration);
        name ← index parts 1;
        match Who srv name with
        | None => send c ("-> No such name: " +:+ name)
        | Some client =>
            Silence client duration now ;;
            cl ← load c;
            Write client ("-> Silenced for " +:+ Duration_String duration
                          +:+ " by " +:+ Name cl +:+ ".")
        end
    else send c ("-> Invalid command: " +:+ line)
  else
    cl ← load c;
    let msg := Name cl +:+ ": " +:+ line in
    reject ← rejected c now msg;
    if (reject : bool) then send c "-> Message rejected."
    else emit (Server_Broadcast msg (Some c)).

(** One turn of the command loop: what the other goroutines and sessions
    did to the world since the previous line ([elsewhere]), the answers
    of the server, the clock, and the line that [ReadLine] returns. *)
Record Turn := mkTurn {
  elsewhere : World -> World;
  answers : ServerView;
  clock : Time;
  input : string
}.

Fixpoint handleShell_loop (c channel : nat) (turns : list Turn) : M unit :=
  match turns with
  | [] => mret tt
  | t :: rest =>
      (fun w => Some (tt, elsewhere t w)) ;;
      handleShell_line c channel (answers t) (clock t) (input t) ;;
      handleShell_loop c channel rest
  end.

(** [func (c *Client) handleShell(channel ssh.Channel)]: [turns] are the
    lines read before [ReadLine] fails. The two goroutines it starts are
    events; the deferred [channel.Close()] runs last. *)
Definition handleShell (c channel : nat) (turns : list Turn) : M unit :=
  emit (Server_Add c) ;;
  emit (Go_waitThenRemove c) ;;
  emit (Go_pump c) ;;
  handleShell_loop c channel turns ;;
  emit (Channel_Close channel).

(** *** [handleChannels]: the channel-request dispatcher *)

(** An [*ssh.Request]. *)
Record Request := mkRequest {
  Type_ : string;
  WantReply : bool;
  Payload : list byte
}.

(** An [ssh.NewChannel]: its type and what [Accept] returns, an error or
    the channel with the requests that arrive on it until it closes. *)
Record NewChannel := mkNewChannel {
  ChannelType : string;
  Accept : string + (nat * list Request)
}.

Definition notnil {A} (p : option A) : bool :=
  match p with Some _ => true | None => false end.

(** The body of [for req := range requests]; [hasShell] is the local
    variable of [handleChannels], passed in and returned. *)
Definition handleRequest (c channel : nat) (hasShell : bool) (req : Request) : M bool :=
  r ← (if String.eqb (Type_ req) "shell" then
         cl ← load c;
         if notnil (term cl) && negb hasShell then
           emit (Go_handleShell c channel) ;; mret (true, true)
         else mret (false, hasShell)
       else if String.eqb (Type_ req) "pty-req" then
         let '(width, height, ok) := parsePtyRequest (Payload req) in
         if ok then
           resized ← Resize c width height; mret (resized, hasShell)
         else mret (false, hasShell)
       else if String.eqb (Type_ req) "window-change" then
         let '(width, height, ok) := parseWinchRequest (Payload req) in
         if ok then
           resized ← Resize c width height; mret (resized, hasShell)
         else mret (false, hasShell)
       else mret (false, hasShell));
  (if WantReply req then emit (Request_Reply (fst (r : bool * bool))) else mret tt) ;;
  mret (snd r).

Fixpoint handleRequests (c channel : nat) (hasShell : bool) (requests : list Request)
    : M bool :=
  match requests with
  | [] => mret hasShell
  | req :: rest =>
      hasShell' ← handleRequest c channel hasShell req;
      handleRequests c channel hasShell' rest
  end.

(** The body of [for ch := range channels]. It returns [hasShell] and,
    when the channel was accepted, the channel whose [Close] is
    deferred. *)
Definition handleChannel (c : nat) (prompt : string) (hasShell : bool) (ch : NewChannel)
    : M (bool * option nat) :=
  let t := ChannelType ch in
  if negb (String.eqb t "session") then
    emit (Channel_Reject ("unknown channel type: " +:+ t)) ;;
    mret (hasShell, None)
  else
    match Accept ch with
    | inl err =>
        emit (Logger_Errorf ("Could not accept channel: " +:+ err)) ;;
        mret (hasShell, None)
    | inr (channel, requests) =>
        cl ← load c;
        store c (set_term (Some (NewTerminal channel prompt)) cl) ;;
        hasShell' ← handleRequests c channel hasShell requests;
        mret (hasShell', Some channel)
    end.

(** The loop over the channels; [deferred] are the channels to close
    when the function returns, the latest first. *)
Fixpoint handleChannels_loop (c : nat) (prompt : string) (hasShell : bool)
    (deferred : list nat) (channels : list NewChannel) : M (bool * list nat) :=
  match channels with
  | [] => mret (hasShell, deferred)
  | ch :: rest =>
      r ← handleChannel c prompt hasShell ch;
      let deferred' :=
        match snd (r : bool * option nat) with
        | Some channel => channel :: deferred
        | None => deferred
        end in
      handleChannels_loop c prompt (fst r) deferred' rest
  end.

Fixpoint closeAll (deferred : list nat) : M unit :=
  match deferred with
  | [] => mret tt
  | channel :: rest => emit (Channel_Close channel) ;; closeAll rest
  end.

(** [func (c *Client) handleChannels(channels <-chan ssh.NewChannel)] *)
Definition handleChannels (c : nat) (channels : list NewChannel) : M unit :=
  cl ← load c;
  let prompt := "[" +:+ Name cl +:+ "] " in
  let hasShell := false in
  r ← handleChannels_loop c prompt hasShell [] channels;
  closeAll (snd (r : bool * list nat)).

End Model.

Arguments Client : clear implicits.
Arguments World : clear implicits.
Arguments M : clear implicits.

Arguments load : simpl never.
Arguments store : simpl never.
Arguments emit : simpl never.
Arguments send : simpl never.
Arguments Write : simpl never.
Arguments WriteLines : simpl never.
Arguments IsSilenced : simpl never.
Arguments Silence : simpl never.
Arguments Resize : simpl never.
Arguments Fingerprint : simpl never.
Arguments rejected : simpl never.

(** ** Go's [time] package: reading and printing a [Duration]

    [time.ParseDuration] and [Duration.String] of the Go library, the
    implementation of [TimeOps] that the program runs with. *)

Module GoTime.

Definition code (c : ascii) : Z := Z.of_N (N_of_ascii c).
Definition isDigit (c : ascii) : bool := (48 <=? code c) && (code c <=? 57).

Definition Microsecond : Duration := 1000.
Definition Millisecond : Duration := 1000000.
Definition Hour : Duration := 60 * Minute.

(** The micro sign U+00B5 and the Greek letter mu U+03BC, in UTF-8. *)
Definition micro : string := String "194"%char (String "181"%char EmptyString).
Definition mu : string := String "206"%char (String "188"%char EmptyString).

Definition unitMap (u : string) : option Z :=
  if String.eqb u "ns" then Some 1
  else if String.eqb u "us" then Some Microsecond
  else if String.eqb u (micro +:+ "s") then Some Microsecond
  else if String.eqb u (mu +:+ "s") then Some Microsecond
  else if String.eqb u "ms" then Some Millisecond
  else if String.eqb u "s" then Some Second
  else if String.eqb u "m" then Some Minute
  else if String.eqb u "h" then Some Hour
  else None.

(** [leadingInt]: the leading digits as a [uint64]; [None] on overflow. *)
Fixpoint leadingInt (x : Z) (s : string) : option (Z * string) :=
  match s with
  | EmptyString => Some (x, EmptyString)
  | String c s' =>
      if isDigit c then
        if 2 ^ 63 / 10 <? x then None
        else
          let x := x * 10 + code c - 48 in
          if 2 ^ 63 <? x then None else leadingInt x s'
      else Some (x, s)
  end.

Definition float64 (z : Z) : spec_float := binary_normalize 53 1024 z 0 false.

(** [uint64(x)] for a finite non-negative [float64]: truncation. *)
Definition uint64_of_float (x : spec_float) : Z :=
  match x with
  | S754_finite false m e =>
      if 0 <=? e then Z.pos m * 2 ^ e else Z.pos m / 2 ^ (- e)
  | _ => 0
  end.

(** [leadingFraction]: the digits after the point as [x] and the power
    of ten [scale] that they are over; digits past the overflow point
    are skipped. *)
Fixpoint leadingFraction (x : Z) (scale : spec_float) (overflow : bool) (s : string)
    : Z * spec_float * string :=
  match s with
  | EmptyString => (x, scale, EmptyString)
  | String c s' =>
      if isDigit c then
        if overflow then leadingFraction x scale true s'
        else if (2 ^ 63 - 1) / 10 <? x then leadingFraction x scale true s'
        else
          let y := x * 10 + code c - 48 in
          if 2 ^ 63 <? y then leadingFraction x scale true s'
          else leadingFraction y (SFmul 53 1024 scale (float64 10)) false s'
      else (x, scale, s)
  end.

(** The unit: the bytes up to the next digit or point. *)
Fixpoint unitOf (s : string) : string * string :=
  match s with
  | EmptyString => (EmptyString, EmptyString)
  | String c s' =>
      if Ascii.eqb c "."%char || isDigit c then (EmptyString, s)
      else let '(u, r) := unitOf s' in (String c u, r)
  end.

(** One round of the loop of [ParseDuration]: a number and its unit are
    taken off [s] and added to [d]. *)
Definition element (d : Z) (s : string) : option (Z * string) :=
  match s with
  | EmptyString => None
  | String c0 _ =>
      if negb (Ascii.eqb c0 "."%char || isDigit c0) then None
      else
        match leadingInt 0 s with
        | None => None
        | Some (v, s1) =>
            let pre := negb (Nat.eqb (String.length s) (String.length s1)) in
            let '(f, scale, s2, post) :=
              match s1 with
              | String "."%char s1' =>
                  let '(f, scale, s2) := leadingFraction 0 (float64 1) false s1' in
                  (f, scale, s2, negb (Nat.eqb (String.length s1') (String.length s2)))
              | _ => (0, float64 1, s1, false)
              end in
            if negb pre && negb post then None
            else
              let '(u, s3) := unitOf s2 in
              if String.eqb u "" then None
              else
                match unitMap u with
                | None => None
                | Some unit =>
                    if 2 ^ 63 / unit <? v then None
                    else
                      let v := v * unit in
                      let v :=
                        if 0 <? f then
                          v + uint64_of_float
                                (SFmul 53 1024 (float64 f) (SFdiv 53 1024 (float64 unit) scale))
                        else v in
                      if (0 <? f) && (2 ^ 63 <? v) then None
                      else
                        let d := (d + v) mod 2 ^ 64 in
                        if 2 ^ 63 <? d then None else Some (d, s3)
                end
        end
  end.

Fixpoint elements (fuel : nat) (d : Z) (s : string) : option Z :=
  match s with
  | EmptyString => Some d
  | _ =>
      match fuel with
      | O => None
      | S fuel' =>
          match element d s with
          | None => None
          | Some (d', s') => elements fuel' d' s'
          end
      end
  end.

(** [func ParseDuration(s string) (Duration, error)] *)
Definition ParseDuration (s : string) : option Duration :=
  let '(neg, s) :=
    match s with
    | String "-"%char s' => (true, s')
    | String "+"%char s' => (false, s')
    | _ => (false, s)
    end in
  if String.eqb s "0" then Some 0
  else if String.eqb s "" then None
  else
    match elements (String.length s) 0 s with
    | None => None
    | Some d =>
        if neg then Some (- d)
        else if 2 ^ 63 - 1 <? d then None
        else Some d
    end.

(** [fmtFrac]: the fraction of [v / 10^prec] put in front of [buf],
    without trailing zeros. *)
Fixpoint fmtFrac_loop (prec : nat) (buf : string) (v : Z) (print : bool)
    : string * Z * bool :=
  match prec with
  | O => (buf, v, print)
  | S prec' =>
      let digit := v mod 10 in
      let print := print || negb (digit =? 0) in
      let buf := if print then String (ascii_of_N (Z.to_N (digit + 48))) buf else buf in
      fmtFrac_loop prec' buf (v / 10) print
  end.

Definition fmtFrac (buf : string) (v : Z) (prec : nat) : string * Z :=
  let '(buf, v, print) := fmtFrac_loop prec buf v false in
  (if print then String "."%char buf else buf, v).

Fixpoint fmtInt_loop (fuel : nat) (buf : string) (v : Z) : string :=
  match fuel with
  | O => buf
  | S fuel' =>
      if 0 <? v
      then fmtInt_loop fuel' (String (ascii_of_N (Z.to_N (v mod 10 + 48))) buf) (v / 10)
      else buf
  end.

(** [fmtInt]: [v] in decimal put in front of [buf]; a [uint64] has at
    most 20 digits. *)
Definition fmtInt (buf : string) (v : Z) : string :=
  if v =? 0 then String "0"%char buf else fmtInt_loop 20 buf v.

(** [func (d Duration) String() string] *)
Definition String_ (d : Duration) : string :=
  let neg := d <? 0 in
  let u := if neg then - d else d in
  let body :=
    if u <? Second then
      if u =? 0 then "0s"%string
      else
        let '(buf, prec) :=
          if u <? Microsecond then ("ns"%string, 0%nat)
          else if u <? Millisecond then (micro +:+ "s", 3%nat)
          else ("ms"%string, 6%nat) in
        let '(buf, u) := fmtFrac buf u prec in
        fmtInt buf u
    else
      let '(buf, u) := fmtFrac "s" u 9 in
      let buf := fmtInt buf (u mod 60) in
      let u := u / 60 in
      if 0 <? u then
        let buf := fmtInt (String "m"%char buf) (u mod 60) in
        let u := u / 60 in
        if 0 <? u then fmtInt (String "h"%char buf) u else buf
      else buf in
  if neg && negb (u =? 0) then String "-"%char body else body.

End GoTime.

Definition GoTime_ops : TimeOps :=
  {| ParseDuration := GoTime.ParseDuration; Duration_String := GoTime.String_ |}.

(** ** The payload parsers *)

(** Modelled from the spec: [parsePtyRequest] and [parseWinchRequest] are
    defined in another file of the repository. The payload follows the
    standard fixed binary layout, of which only width and height are
    consumed: a [pty-req] starts with the terminal name, a string behind
    its 32-bit big-endian length, then width and height as 32-bit
    big-endian integers; a [window-change] starts with width and height. *)
Module Pty.

Definition b2z (b : byte) : Z := Z.of_N (Byte.to_N b).

Definition parseUint32 (s : list byte) : option (Z * list byte) :=
  match s with
  | b0 :: b1 :: b2 :: b3 :: rest =>
      Some (b2z b0 * 2 ^ 24 + b2z b1 * 2 ^ 16 + b2z b2 * 2 ^ 8 + b2z b3, rest)
  | _ => None
  end.

Definition parseString (s : list byte) : option (list byte * list byte) :=
  match parseUint32 s with
  | Some (n, rest) =>
      if n <=? Z.of_nat (length rest)
      then Some (firstn (Z.to_nat n) rest, skipn (Z.to_nat n) rest)
      else None
  | None => None
  end.

Definition parseSize (s : list byte) : Z * Z * bool :=
  match parseUint32 s with
  | None => (0, 0, false)
  | Some (width, s) =>
      match parseUint32 s with
      | None => (width, 0, false)
      | Some (height, _) => (width, height, true)
      end
  end.

Definition parsePtyRequest (s : list byte) : Z * Z * bool :=
  match parseString s with
  | None => (0, 0, false)
  | Some (_, s) => parseSize s
  end.

Definition parseWinchRequest (s : list byte) : Z * Z * bool := parseSize s.

End Pty.

Definition Pty_ops : PtyOps :=
  {| parsePtyRequest := Pty.parsePtyRequest; parseWinchRequest := Pty.parseWinchRequest |}.

(** ** A terminal to run the model on

    It records what it is given. Its [SetSize] fails on channel [0], whose
    peer is gone, and succeeds on every other channel. *)
Record SimTerminal := mkSimTerminal {
  sim_channel : nat;
  sim_prompt : string;
  sim_size : Z * Z;
  sim_written : list string
}.

Definition SimTerminal_ops : TerminalOps SimTerminal :=
  {| NewTerminal channel prompt := mkSimTerminal channel prompt (0, 0) [];
     term_Write t buf :=
       mkSimTerminal (sim_channel t) (sim_prompt t) (sim_size t) (sim_written t ++ [buf]);
     term_SetSize t width height :=
       if Nat.eqb (sim_channel t) 0 then (t, false)
       else (mkSimTerminal (sim_channel t) (sim_prompt t) (width, height) (sim_written t), true);
     term_SetPrompt t prompt :=
       mkSimTerminal (sim_channel t) prompt (sim_size t) (sim_written t) |}.

(** ** Vocabulary of the statements *)

(** The characters of a string that is valid UTF-8: its bytes that do not
    continue a character (the bytes [10xxxxxx]). Go's [len] counts the
    bytes instead. *)
Definition continuation (a : ascii) : bool :=
  (128 <=? N_of_ascii a)%N && (N_of_ascii a <? 192)%N.

Fixpoint characters (s : string) : nat :=
  match s with
  | EmptyString => 0%nat
  | String a s' => ((if continuation a then 0 else 1) + characters s')%nat
  end.

Section Vocabulary.
Context {Terminal : Type} `{!TerminalOps Terminal}.

(** The world after the one notice [msg] was sent on the [Msg] of client
    [c], whose record was [cl]: nothing else differs. *)
Definition notified (c : nat) (cl : Client Terminal) (msg : string) (w : World Terminal)
    : World Terminal :=
  mkWorld (<[c := set_Msg (Msg cl ++ [msg]) cl]> (clients w)) (trace w).

(** The terminal after [lines] were written to it through [Write], each
    with its line terminator. *)
Definition written (t : Terminal) (lines : list string) : Terminal :=
  fold_left (fun t line => term_Write t (line +:+ CRLF)) lines t.

(** The replies to requests that a trace holds. *)
Fixpoint replies (tr : list Event) : list bool :=
  match tr with
  | [] => []
  | Request_Reply ok :: tr' => ok :: replies tr'
  | _ :: tr' => replies tr'
  end.

(** The number of command loops that a trace starts. *)
Fixpoint spawns (tr : list Event) : nat :=
  match tr with
  | [] => 0%nat
  | Go_handleShell _ _ :: tr' => S (spawns tr')
  | _ :: tr' => spawns tr'
  end.

(** Every client of the store has a terminal and permissions: what a
    session has once its channel was accepted after a public-key login. *)
Definition equipped (w : World Terminal) : Prop :=
  forall c cl, clients w !! c = Some cl ->
    is_Some (term cl) /\ is_Some (Permissions (Conn cl)).

(** The server names only clients of the store. *)
Definition knows (srv : ServerView) (w : World Terminal) : Prop :=
  forall name target, Who srv name = Some target -> is_Some (clients w !! target).

(** What the handling of a line leaves of a client: its name, its flag,
    the stored size of its terminal, the identity of its connection, and
    the terminal it has. *)
Definition kept (cl0 cl' : Client Terminal) : Prop :=
  Name cl' = Name cl0 /\ Op cl' = Op cl0
  /\ termWidth cl' = termWidth cl0 /\ termHeight cl' = termHeight cl0
  /\ User (Conn cl') = User (Conn cl0)
  /\ ClientVersion (Conn cl') = ClientVersion (Conn cl0)
  /\ Permissions (Conn cl') = Permissions (Conn cl0)
  /\ (is_Some (term cl0) -> is_Some (term cl')).

(** What a line of client [c] may do to the store: no client comes or
    goes, every client keeps what [kept] lists, the mailbox of another
    client is untouched and the mailbox of [c] gets one notice at most. *)
Definition line_frame (c : nat) (w w' : World Terminal) : Prop :=
  (forall c', clients w !! c' = None -> clients w' !! c' = None)
  /\ (forall c' cl0, clients w !! c' = Some cl0 ->
       exists cl', clients w' !! c' = Some cl'
                   /\ kept cl0 cl'
                   /\ (c' <> c -> Msg cl' = Msg cl0)
                   /\ (Msg cl' = Msg cl0 \/ exists notice, Msg cl' = Msg cl0 ++ [notice])).

(** The channels that a trace closes, in order. *)
Fixpoint closes (tr : list Event) : list nat :=
  match tr with
  | [] => []
  | Channel_Close channel :: tr' => channel :: closes tr'
  | _ :: tr' => closes tr'
  end.

(** The rejections that a trace holds, in order. *)
Fixpoint rejections (tr : list Event) : list string :=
  match tr with
  | [] => []
  | Channel_Reject message :: tr' => message :: rejections tr'
  | _ :: tr' => rejections tr'
  end.

(** What a new channel brings when it is a session and is accepted. *)
Definition accepts (ch : NewChannel) : option (nat * list Request) :=
  if String.eqb (ChannelType ch) "session" then
    match Accept ch with
    | inr accepted => Some accepted
    | inl _ => None
    end
  else None.

(** A channel that brings no [shell] request: it is not accepted, or none
    of its requests is one. *)
Definition brings_no_shell (ch : NewChannel) : Prop :=
  match accepts ch with
  | Some (_, requests) => Forall (fun req => Type_ req <> "shell"%string) requests
  | None => True
  end.

(** The channels that are accepted, in order of arrival. *)
Fixpoint accepted (channels : list NewChannel) : list nat :=
  match channels with
  | [] => []
  | ch :: rest =>
      match accepts ch with
      | Some (channel, _) => channel :: accepted rest
      | None => accepted rest
      end
  end.

(** The rejections that channels of other types than [session] get. *)
Fixpoint refused (channels : list NewChannel) : list string :=
  match channels with
  | [] => []
  | ch :: rest =>
      if String.eqb (ChannelType ch) "session" then refused rest
      else ("unknown channel type: " +:+ ChannelType ch) :: refused rest
  end.

(** The requests that want a reply. *)
Fixpoint wanted (requests : list Request) : nat :=
  match requests with
  | [] => 0%nat
  | req :: rest => ((if WantReply req then 1 else 0) + wanted rest)%nat
  end.

(** The requests that want a reply, on all the accepted channels. *)
Fixpoint wanted_all (channels : list NewChannel) : nat :=
  match channels with
  | [] => 0%nat
  | ch :: rest =>
      match accepts ch with
      | Some (_, requests) => (wanted requests + wanted_all rest)%nat
      | None => wanted_all rest
      end
  end.

(** What the dispatcher leaves of the session: all but its terminal and
    the stored size of it. *)
Definition session_kept (cl0 cl' : Client Terminal) : Prop :=
  Conn cl' = Conn cl0 /\ Msg cl' = Msg cl0 /\ Name cl' = Name cl0
  /\ Op cl' = Op cl0 /\ silencedUntil cl' = silencedUntil cl0.

(** The calls that change the registry of the server: ban and op. *)
Fixpoint moderations (tr : list Event) : list Event :=
  match tr with
  | [] => []
  | Server_Ban f :: tr' => Server_Ban f :: moderations tr'
  | Server_Op f :: tr' => Server_Op f :: moderations tr'
  | _ :: tr' => moderations tr'
  end.

(** An event that is no such call. *)
Definition plain (e : Event) : Prop :=
  match e with
  | Server_Ban _ | Server_Op _ => False
  | _ => True
  end.

(** Nobody was moderated between [w] and [w']: no ban and no op was
    asked for, and every client is silenced until when it was. *)
Definition unmoderated (w w' : World Terminal) : Prop :=
  moderations (trace w') = moderations (trace w)
  /\ forall c' cl0, clients w !! c' = Some cl0 ->
       exists cl', clients w' !! c' = Some cl'
                   /\ silencedUntil cl' = silencedUntil cl0.

(** An event that hands no message and no name to the server: any but a
    broadcast and a rename, which the server turns into changes of
    mailboxes and names that the store of this model does not show. *)
Definition stays (e : Event) : Prop :=
  match e with
  | Server_Broadcast _ _ | Server_Rename _ _ => False
  | _ => True
  end.

(** What [c] found in its mailbox between [w] and [w']: nothing, or one
    notice that starts with the arrow. *)
Definition answered (c : nat) (w w' : World Terminal) : Prop :=
  forall cl0, clients w !! c = Some cl0 ->
    exists cl', clients w' !! c = Some cl'
                /\ (Msg cl' = Msg cl0
                    \/ exists notice, Msg cl' = Msg cl0 ++ [notice]
                                      /\ GoStrings.HasPrefix notice "-> " = true).

End Vocabulary.

(** ** A sample world

    Two sessions on simulated terminals: alice, client [1], an operator on
    channel [7], and bob, client [2], on channel [8]; and the answers of a
    server that knows both. *)
Module Sample.

Definition conn (user fingerprint : string) : ServerConn :=
  mkServerConn user "SSH-2.0-OpenSSH_6.6"
               (Some {[ "fingerprint"%string := fingerprint ]}) false.

Definition session (user fingerprint : string) (channel : nat) (until : Time)
    : Client SimTerminal :=
  mkClient (conn user fingerprint) [] user false
           (Some (mkSimTerminal channel ("[" +:+ user +:+ "] ") (80, 24) []))
           80 24 until.

(** The terminal of bob before anything is written to it. *)
Definition bob_term : SimTerminal := mkSimTerminal 8 "[bob] " (80, 24) [].

Definition alice : Client SimTerminal := session "alice" "aa:aa" 7 0.
Definition bob : Client SimTerminal := session "bob" "bb:bb" 8 0.

(** Bob under a silence that lasts until the instant [9000]. *)
Definition bob_silenced : Client SimTerminal := session "bob" "bb:bb" 8 9000.

Definition world : World SimTerminal :=
  mkWorld (<[1%nat := alice]> (<[2%nat := bob]> ∅)) [].

Definition world_silenced : World SimTerminal :=
  mkWorld (<[1%nat := alice]> (<[2%nat := bob_silenced]> ∅)) [].

Definition server : ServerView :=
  mkServerView (fun c => Nat.eqb c 1)
               (fun name => if String.eqb name "alice" then Some 1%nat
                            else if String.eqb name "bob" then Some 2%nat
                            else None)
               ["alice"; "bob"]%string.

(** A [shell] request that wants a reply. *)
Definition shell : Request := mkRequest "shell" true [].

(** A [window-change] to 100 columns and 40 rows, and a [pty-req] whose
    payload stops in the middle of the terminal name. *)
Definition winch : Request :=
  mkRequest "window-change" true
            [x00; x00; x00; x64; x00; x00; x00; x28; x00; x00; x00; x00; x00; x00; x00; x00].
Definition truncated : Request :=
  mkRequest "pty-req" true [x00; x00; x00; x05; x78; x74].

(** Two session channels, [7] and [9], each with one [shell] request. *)
Definition two_channels : list NewChannel :=
  [mkNewChannel "session" (inr (7%nat, [shell]));
   mkNewChannel "session" (inr (9%nat, [shell]))].

(** Eve, client [3], whose client announces itself with 101 bytes; the
    world with her in it and a server that knows her too. *)
Definition long_version : string := string_of_list_ascii (repeat "x"%char 101).

Definition eve : Client SimTerminal :=
  mkClient (mkServerConn "eve" long_version (Some ∅) false) [] "eve" false
           (Some (mkSimTerminal 9 "[eve] " (80, 24) [])) 80 24 0.

Definition world_eve : World SimTerminal :=
  mkWorld (<[3%nat := eve]> (clients world)) [].

Definition server_eve : ServerView :=
  mkServerView (fun c => Nat.eqb c 1)
               (fun name => if String.eqb name "eve" then Some 3%nat else Who server name)
               ["alice"; "bob"; "eve"]%string.

(** A server that knows bob alone. *)
Definition server_bob : ServerView :=
  mkServerView (fun _ => false)
               (fun name => if String.eqb name "bob" then Some 2%nat else None)
               ["bob"]%string.

(** Three lines that bob types, nothing happening elsewhere. *)
Definition bob_turns : list (Turn (Terminal := SimTerminal)) :=
  [mkTurn (fun w => w) server_bob 1000 "hello";
   mkTurn (fun w => w) server_bob 1001 "/whois bob";
   mkTurn (fun w => w) server_bob 1002 "/exit"].

(** An [env] request, which the dispatcher does not know. *)
Definition env : Request := mkRequest "env" true [x00; x00; x00; x00].

(** A connection that opens an [x11] channel, a session channel whose
    accept fails, and a session channel [7] on which a shell, a window
    change, an [env] request and a second shell are asked for. *)
Definition mixed_channels : list NewChannel :=
  [mkNewChannel "x11" (inr (4%nat, [shell]));
   mkNewChannel "session" (inl "EOF"%string);
   mkNewChannel "session" (inr (7%nat, [shell; winch; env; shell]))].

(** Carol, client [5], fresh from [NewClient]. *)
Definition carol : Client SimTerminal := NewClient (conn "carol" "cc:cc").

Definition world_carol : World SimTerminal := mkWorld {[ 5%nat := carol ]} [].

(** The euro sign, three bytes in UTF-8, and a line of 333 of them; a
    line of [n] letters. *)
Definition euro : string :=
  String "226"%char (String "130"%char (String "172"%char EmptyString)).
Definition euros : string := String.concat "" (repeat euro 333).
Definition letters (n : nat) : string := string_of_list_ascii (repeat "x"%char n).

End Sample.

(** * Properties *)

(** ** The library models on known values *)

Example SplitN_command :
  GoStrings.SplitN "/silence bob 10s now" " " 3 = ["/silence"; "bob"; "10s now"]%string.
Proof. reflexivity. Qed.

Example SplitN_empty_line : GoStrings.SplitN "" " " 3 = [""]%string.
Proof. reflexivity. Qed.

Example SplitN_double_space :
  GoStrings.SplitN "/nick  bob" " " 3 = ["/nick"; ""; "bob"]%string.
Proof. reflexivity. Qed.

Example TrimLeft_me : GoStrings.TrimLeft "/me meets you" "/me" = " meets you"%string.
Proof. reflexivity. Qed.

Example HELP_TEXT_lines :
  GoStrings.Split HELP_TEXT LF =
  ["-> Available commands:"; "   /about"; "   /exit"; "   /help"; "   /list";
   "   /nick $NAME"; "   /whois $NAME"; ""]%string.
Proof. reflexivity. Qed.

Example ParseDuration_values :
  map GoTime.ParseDuration ["10s"; "-5m"; "1h30m"; "1.5s"; ".5m"; "-0"; "+2us"]%string =
  [Some 10000000000; Some (-300000000000); Some 5400000000000; Some 1500000000;
   Some 30000000000; Some 0; Some 2000].
Proof. vm_compute. reflexivity. Qed.

Example ParseDuration_errors :
  map GoTime.ParseDuration ["abc123"; ""; "5"; "-"; "1.5"; "3 s"; "1d"; "."]%string =
  [None; None; None; None; None; None; None; None].
Proof. vm_compute. reflexivity. Qed.

Example Duration_String_values :
  map GoTime.String_ [300000000000; 10000000000; 0; 5400000000000; 1500000000;
                      -300000000000; 999; 1000000] =
  ["5m0s"; "10s"; "0s"; "1h30m0s"; "1.5s"; "-5m0s"; "999ns"; "1ms"]%string.
Proof. vm_compute. reflexivity. Qed.

Example five_minutes : 5 * Minute = 300000000000.
Proof. reflexivity. Qed.

(** ** Splitting a line into its parts *)

Section Splitting.
Import GoStrings.

Lemma prefix_empty (s : string) : String.prefix "" s = true.
Proof. destruct s; reflexivity. Qed.

Lemma cut_absent (sep : ascii) (s : string) :
  contains s sep = false -> cut sep s = None.
Proof.
  induction s as [|a s IH]; simpl; [reflexivity|].
  rewrite Ascii.eqb_sym.
  destruct (Ascii.eqb a sep); simpl; [discriminate|].
  intros H. rewrite (IH H). reflexivity.
Qed.

Lemma append_cons (a : ascii) (s t : string) :
  String a s +:+ t = String a (s +:+ t).
Proof. reflexivity. Qed.

Lemma cut_first (sep : ascii) (a b : string) :
  contains a sep = false ->
  cut sep (a +:+ String sep EmptyString +:+ b) = Some (a, b).
Proof.
  induction a as [|x a IH].
  - intros _. change (cut sep (String sep b) = Some (EmptyString, b)).
    simpl. rewrite Ascii.eqb_refl. reflexivity.
  - rewrite append_cons. simpl. rewrite Ascii.eqb_sym.
    destruct (Ascii.eqb x sep); simpl; [discriminate|].
    intros H. rewrite (IH H). reflexivity.
Qed.

(** A line of one word has one part. *)
Lemma SplitN_one (a : string) :
  contains a " " = false -> SplitN a " " 3 = [a].
Proof.
  intros Ha. unfold SplitN. simpl. rewrite (cut_absent _ _ Ha). reflexivity.
Qed.

(** A line of two words has two parts. *)
Lemma SplitN_two (a b : string) :
  contains a " " = false -> contains b " " = false ->
  SplitN (a +:+ " " +:+ b) " " 3 = [a; b].
Proof.
  intros Ha Hb. unfold SplitN. simpl.
  rewrite (cut_first " " a b Ha). rewrite (cut_absent _ _ Hb). reflexivity.
Qed.

(** After two words, the rest of the line is the third part, spaces
    included. *)
Lemma SplitN_three (a b r : string) :
  contains a " " = false -> contains b " " = false ->
  SplitN (a +:+ " " +:+ b +:+ " " +:+ r) " " 3 = [a; b; r].
Proof.
  intros Ha Hb. unfold SplitN. simpl.
  rewrite (cut_first " " a (b +:+ " " +:+ r) Ha).
  rewrite (cut_first " " b r Hb). reflexivity.
Qed.

(** [SplitN] with a positive count never returns an empty slice, and its
    first part starts with the sigil exactly when the line does. *)
Lemma SplitN_verb (line : string) :
  exists verb rest,
    SplitN line " " 3 = verb :: rest /\ HasPrefix verb "/" = HasPrefix line "/".
Proof.
  unfold SplitN, HasPrefix. simpl.
  destruct (cut " " line) as [[b r]|] eqn:E.
  - exists b. eexists. split; [reflexivity|].
    destruct line as [|x line]; simpl in E; [discriminate|].
    destruct (Ascii.eqb x " ") eqn:Ex.
    + apply Ascii.eqb_eq in Ex. subst x. inversion E; subst. reflexivity.
    + destruct (cut " " line) as [[b' r']|]; [|discriminate].
      inversion E; subst. simpl. rewrite !prefix_empty. reflexivity.
  - exists line, []. split; reflexivity.
Qed.

(** A line that is [/me] alone or [/me] and a space before the text has
    the verb [/me], and trimming the bytes of ["/me"] on its left leaves
    the text with its space. *)
Lemma SplitN_me (rest : string) :
  (rest = "" \/ exists r, rest = " " +:+ r)%string ->
  SplitN ("/me" +:+ rest) " " 3 !! 0%nat = Some "/me"%string /\
  TrimLeft ("/me" +:+ rest) "/me" = rest.
Proof.
  intros [->|[r ->]].
  - split; reflexivity.
  - split; [|reflexivity].
    unfold SplitN. simpl.
    destruct (cut " " r) as [[b q]|]; reflexivity.
Qed.

End Splitting.

(** ** Splitting loses nothing *)

Section SplitJoin.
Import GoStrings.

Lemma cut_spec (sep : ascii) (s b r : string) :
  cut sep s = Some (b, r) ->
  s = b +:+ String sep EmptyString +:+ r /\ contains b sep = false.
Proof.
  revert b r. induction s as [|a s IH]; intros b r Hcut; simpl in Hcut; [discriminate|].
  destruct (Ascii.eqb a sep) eqn:Ea.
  - apply Ascii.eqb_eq in Ea. subst a. inversion Hcut; subst. split; reflexivity.
  - destruct (cut sep s) as [[b' r']|]; [|discriminate].
    inversion Hcut; subst. destruct (IH b' r eq_refl) as [Hs Hb].
    split.
    + rewrite append_cons. f_equal. exact Hs.
    + simpl. rewrite Ascii.eqb_sym in Ea. rewrite Ea. exact Hb.
Qed.

Lemma genSplit_cons (sep : ascii) (n : nat) (s : string) :
  exists x l, genSplit sep n s = x :: l.
Proof.
  destruct n as [|n]; simpl; [eauto|].
  destruct (cut sep s) as [[b r]|]; eauto.
Qed.

Lemma genSplit_join (sep : ascii) (n : nat) :
  forall s, Join (genSplit sep n s) (String sep EmptyString) = s.
Proof.
  induction n as [|n IH]; intros s; simpl; [reflexivity|].
  destruct (cut sep s) as [[b r]|] eqn:Hcut; [|reflexivity].
  destruct (cut_spec sep s b r Hcut) as [Hs _].
  destruct (genSplit_cons sep n r) as (x & l & Hl).
  pose proof (IH r) as Hr. rewrite Hl in *.
  change (Join (b :: x :: l) (String sep EmptyString))
    with (b +:+ String sep EmptyString +:+ Join (x :: l) (String sep EmptyString)).
  rewrite Hr. symmetry. exact Hs.
Qed.

Lemma genSplit_length (sep : ascii) (n : nat) :
  forall s, (1 <= length (genSplit sep n s) <= S n)%nat.
Proof.
  induction n as [|n IH]; intros s; simpl; [lia|].
  destruct (cut sep s) as [[b r]|]; simpl; [|lia].
  specialize (IH r). lia.
Qed.

Lemma genSplit_inner (sep : ascii) (n : nat) :
  forall s (i : nat) part,
    genSplit sep n s !! i = Some part ->
    (S i < length (genSplit sep n s))%nat ->
    contains part sep = false.
Proof.
  induction n as [|n IH]; intros s i part Hi Hlen; simpl in *; [lia|].
  destruct (cut sep s) as [[b r]|] eqn:Hcut; simpl in *; [|lia].
  destruct i as [|i]; simpl in Hi.
  - inversion Hi; subst. apply (cut_spec sep s part r Hcut).
  - apply (IH r i part Hi). lia.
Qed.

(** X20. The split of a line at its first two spaces loses nothing:
    there are one to three parts, the parts joined by single spaces are
    the line again, and no part but the last holds a space. So the verb
    and the name are single words, and all that follows the second space,
    its own spaces included, is the third part. *)
Theorem SplitN_roundtrip (line : string) :
  let parts := SplitN line " " 3 in
  Join parts " " = line
  /\ (1 <= length parts <= 3)%nat
  /\ forall (i : nat) part,
       parts !! i = Some part -> (S i < length parts)%nat -> contains part " " = false.
Proof.
  unfold SplitN. simpl Z.eqb. simpl Z.ltb. cbv iota.
  change (Z.to_nat (3 - 1)) with 2%nat.
  split; [apply genSplit_join|]. split; [apply genSplit_length|].
  apply genSplit_inner.
Qed.

End SplitJoin.

(** ** The command loop *)

Section Shell.
Context {Terminal : Type} `{!TerminalOps Terminal} `{!TimeOps} `{!PtyOps}.
Implicit Types (w : World Terminal) (cl : Client Terminal).

Lemma bind_some {A B} (m : M Terminal A) (f : A -> M Terminal B) w a w' :
  m w = Some (a, w') -> (m ≫= f) w = f a w'.
Proof. intros E. unfold mbind, M_bind. rewrite E. reflexivity. Qed.

Lemma bind_ret {A B} (a : A) (f : A -> M Terminal B) : (mret a ≫= f) = f a.
Proof. reflexivity. Qed.

Lemma load_some c w cl : clients w !! c = Some cl -> load c w = Some (cl, w).
Proof. intros E. unfold load. rewrite E. reflexivity. Qed.

Lemma send_some c msg w cl :
  clients w !! c = Some cl -> send c msg w = Some (tt, notified c cl msg w).
Proof. intros E. unfold send. rewrite (bind_some _ _ _ _ _ (load_some _ _ _ E)). reflexivity. Qed.

Lemma rejected_some c now msg w cl :
  clients w !! c = Some cl ->
  rejected c now msg w =
    Some (Time_After (silencedUntil cl) now || (1000 <? Z.of_nat (String.length msg)), w).
Proof.
  intros E. unfold rejected, IsSilenced.
  unfold mbind at 1. unfold M_bind.
  rewrite (bind_some _ _ _ _ _ (load_some _ _ _ E)). reflexivity.
Qed.

(** C1, as the code has it. A line without the sigil is chat: the
    message is [name: line]; when the sender is silenced or the message is
    longer than 1000 bytes, which is what Go's [len] counts, nothing is
    broadcast (the trace is unchanged) and the one notice
    [-> Message rejected.] is sent on the sender's own [Msg]; otherwise
    the one thing done is the call of [Server.Broadcast] with the message
    and the sender as the excluded client. *)
Theorem chat_line_gate (c channel : nat) (srv : ServerView) (now : Time)
    (line : string) w cl :
  GoStrings.HasPrefix line "/" = false ->
  clients w !! c = Some cl ->
  let msg := Name cl +:+ ": " +:+ line in
  handleShell_line c channel srv now line w =
    if Time_After (silencedUntil cl) now || (1000 <? Z.of_nat (String.length msg))
    then Some (tt, notified c cl "-> Message rejected." w)
    else Some (tt, mkWorld (clients w) (trace w ++ [Server_Broadcast msg (Some c)])).
Proof.
  intros Hsigil Hc msg.
  destruct (SplitN_verb line) as (verb & rest & Hparts & Hverb).
  unfold handleShell_line. rewrite Hparts. unfold index. simpl.
  rewrite bind_ret, Hverb, Hsigil.
  rewrite (bind_some _ _ _ _ _ (load_some _ _ _ Hc)).
  rewrite (bind_some _ _ _ _ _ (rejected_some _ now _ _ _ Hc)).
  fold msg.
  destruct (Time_After (silencedUntil cl) now || (1000 <? Z.of_nat (String.length msg))).
  - apply send_some, Hc.
  - reflexivity.
Qed.

Lemma Write_some c msg w cl t :
  clients w !! c = Some cl -> term cl = Some t ->
  Write c msg w =
    Some (tt, mkWorld (<[c := set_term (Some (term_Write t (msg +:+ CRLF))) cl]> (clients w))
                      (trace w)).
Proof.
  intros E Et. unfold Write.
  rewrite (bind_some _ _ _ _ _ (load_some _ _ _ E)).
  rewrite Et. reflexivity.
Qed.

Lemma set_term_same cl t : term cl = Some t -> set_term (Some t) cl = cl.
Proof. destruct cl; simpl; intros ->; reflexivity. Qed.

Lemma WriteLines_some c lines : forall w cl t,
  clients w !! c = Some cl -> term cl = Some t ->
  WriteLines c lines w =
    Some (tt, mkWorld (<[c := set_term (Some (written t lines)) cl]> (clients w)) (trace w)).
Proof.
  induction lines as [|line lines IH]; intros w cl t E Et.
  - unfold WriteLines, written. simpl.
    rewrite (set_term_same _ _ Et), (insert_id _ _ _ E).
    destruct w; reflexivity.
  - change (WriteLines c (line :: lines)) with (Write c line ;; WriteLines c lines).
    rewrite (bind_some _ _ _ _ _ (Write_some _ line _ _ _ E Et)).
    erewrite IH; [|apply lookup_insert_eq|reflexivity].
    simpl. rewrite insert_insert_eq. reflexivity.
Qed.

(** C9. [/me], alone or followed by a space and text: the action line
    is [** name] and the rest of the input line, or [** name is at a loss
    for words.] when nothing follows the verb. It passes the gate of
    chat: silenced or longer than 1000 bytes, it is not broadcast and the
    sender gets the notice of rejection; otherwise it is broadcast with
    no client excluded. *)
Theorem me_action_line (c channel : nat) (srv : ServerView) (now : Time)
    (rest : string) w cl :
  (rest = "" \/ exists r, rest = " " +:+ r)%string ->
  clients w !! c = Some cl ->
  let text := if String.eqb rest "" then " is at a loss for words."%string else rest in
  let msg := "** " +:+ Name cl +:+ text in
  handleShell_line c channel srv now ("/me" +:+ rest) w =
    if Time_After (silencedUntil cl) now || (1000 <? Z.of_nat (String.length msg))
    then Some (tt, notified c cl "-> Message rejected." w)
    else Some (tt, mkWorld (clients w) (trace w ++ [Server_Broadcast msg None])).
Proof.
  intros Hrest Hc text msg.
  destruct (SplitN_me rest Hrest) as [Hverb Htrim].
  unfold handleShell_line, index. rewrite Hverb, bind_ret, Htrim.
  change (GoStrings.HasPrefix "/me" "/") with true. simpl.
  rewrite (bind_some _ _ _ _ _ (load_some _ _ _ Hc)).
  rewrite (bind_some _ _ _ _ _ (rejected_some _ now _ _ _ Hc)).
  unfold msg, text. simpl.
  match goal with |- _ = (if ?b then _ else _) => destruct b end.
  - apply send_some, Hc.
  - reflexivity.
Qed.

(** C4, as the code has it. [/help] and [/about] write the fixed text
    to the session's own terminal, line by line, each line of the text
    split at its newlines and followed by a carriage return and a
    newline. Nothing is sent on the mailbox and nothing leaves the
    client. *)
Theorem help_about_written (c channel : nat) (srv : ServerView) (now : Time)
    (line verb text : string) w cl (t : Terminal) :
  (verb = "/help" /\ text = HELP_TEXT \/ verb = "/about" /\ text = ABOUT_TEXT)%string ->
  GoStrings.SplitN line " " 3 !! 0%nat = Some verb ->
  clients w !! c = Some cl ->
  term cl = Some t ->
  let cl' := set_term (Some (written t (GoStrings.Split text LF))) cl in
  handleShell_line c channel srv now line w =
    Some (tt, mkWorld (<[c := cl']> (clients w)) (trace w))
  /\ Msg cl' = Msg cl.
Proof.
  intros Hverb Hparts Hc Ht cl'. split; [|reflexivity].
  unfold handleShell_line, index. rewrite Hparts, bind_ret.
  destruct Hverb as [[-> ->]|[-> ->]].
  - change (GoStrings.HasPrefix "/help" "/") with true. simpl.
    apply (WriteLines_some c (GoStrings.Split HELP_TEXT LF) w cl t Hc Ht).
  - change (GoStrings.HasPrefix "/about" "/") with true. simpl.
    apply (WriteLines_some c (GoStrings.Split ABOUT_TEXT LF) w cl t Hc Ht).
Qed.

(** C5. The checks of [/ban], [/op] and [/silence] run in the order
    operator, number of arguments, target. A client who is not an
    operator gets [-> You're not an admin.] whatever the arguments and
    the target; an operator with the wrong number of arguments gets the
    notice of the missing name whatever the target; an operator naming
    nobody gets [-> No such name]. In the three cases the one notice on
    the issuer's own [Msg] is all that happens: the trace is unchanged
    (no [Ban], no [Op]) and no other client changes (no [Silence]). The
    three notices differ. *)
Theorem moderation_check_order (c channel : nat) (srv : ServerView) (now : Time)
    (line verb : string) w cl :
  In verb ["/ban"; "/op"; "/silence"]%string ->
  let parts := GoStrings.SplitN line " " 3 in
  parts !! 0%nat = Some verb ->
  clients w !! c = Some cl ->
  let run := handleShell_line c channel srv now line w in
  let wrongCount :=
    if String.eqb verb "/silence" then Nat.ltb (length parts) 2
    else negb (Nat.eqb (length parts) 2) in
  let denied := "-> You're not an admin."%string in
  let missing := "-> Missing $NAME from: " +:+ verb +:+ " $NAME" in
  let unknown := fun name => "-> No such name: " +:+ name in
  (IsOp srv c = false -> run = Some (tt, notified c cl denied w)) /\
  (IsOp srv c = true -> wrongCount = true -> run = Some (tt, notified c cl missing w)) /\
  (IsOp srv c = true -> wrongCount = false ->
   forall name, parts !! 1%nat = Some name -> Who srv name = None ->
   run = Some (tt, notified c cl (unknown name) w)) /\
  (forall name, denied <> missing /\ denied <> unknown name /\ missing <> unknown name).
Proof.
  intros Hverb parts Hparts Hc run wrongCount denied missing unknown.
  assert (Hrun : run = handleShell_line c channel srv now line w) by reflexivity.
  unfold handleShell_line, index in Hrun. fold parts in Hrun.
  rewrite Hparts, bind_ret in Hrun.
  destruct Hverb as [<-|[<-|[<-|[]]]];
    change (GoStrings.HasPrefix _ "/") with true in Hrun;
    simpl in Hrun; simpl in wrongCount; repeat split.
  all: try (intros E; cbv in E; discriminate E).
  all: try (intros Hop; rewrite Hrun, Hop; simpl; apply send_some, Hc).
  all: try (intros Hop Hcount; rewrite Hrun, Hop; unfold wrongCount in Hcount;
            rewrite Hcount; simpl; apply send_some, Hc).
  all: intros Hop Hcount name Hname Hwho; rewrite Hrun, Hop;
    unfold wrongCount in Hcount; rewrite Hcount; simpl.
  - rewrite Hname, bind_ret, Hwho. apply send_some, Hc.
  - rewrite Hname, bind_ret, Hwho. apply send_some, Hc.
  - destruct (length parts) as [|[|[|n]]] eqn:Elen; try discriminate Hcount.
    + rewrite bind_ret, Hname, bind_ret, Hwho. apply send_some, Hc.
    + destruct (lookup_lt_is_Some_2 parts 2 ltac:(lia)) as [token Htoken].
      rewrite Htoken, bind_ret.
      destruct (ParseDuration token);
        rewrite bind_ret, Hname, bind_ret, Hwho; apply send_some, Hc.
Qed.

(** *** Silence *)

Lemma Silence_some c d now w cl :
  clients w !! c = Some cl ->
  Silence c d now w =
    Some (tt, mkWorld (<[c := set_silencedUntil (now + d) cl]> (clients w)) (trace w)).
Proof.
  intros E. unfold Silence.
  rewrite (bind_some _ _ _ _ _ (load_some _ _ _ E)). reflexivity.
Qed.

Lemma IsSilenced_some c now w cl :
  clients w !! c = Some cl ->
  IsSilenced c now w = Some (Time_After (silencedUntil cl) now, w).
Proof.
  intros E. unfold IsSilenced.
  rewrite (bind_some _ _ _ _ _ (load_some _ _ _ E)). reflexivity.
Qed.

(** The target is silenced, then told so on its terminal. *)
Lemma silence_then_tell (op target : nat) (d : Duration) (now : Time) w
    (ocl tcl : Client Terminal) (tm : Terminal) :
  clients w !! op = Some ocl ->
  clients w !! target = Some tcl ->
  term tcl = Some tm ->
  (Silence target d now ;;
   cl ← load op;
   Write target ("-> Silenced for " +:+ Duration_String d +:+ " by " +:+ Name cl +:+ ".")) w =
    Some (tt, mkWorld
                (<[target := set_term
                     (Some (term_Write tm
                              (("-> Silenced for " +:+ Duration_String d +:+ " by "
                                +:+ Name ocl +:+ ".") +:+ CRLF)))
                     (set_silencedUntil (now + d) tcl)]> (clients w))
                (trace w)).
Proof.
  intros Hocl Htcl Htm.
  rewrite (bind_some _ _ _ _ _ (Silence_some _ d now _ _ Htcl)).
  set (tcl1 := set_silencedUntil (now + d) tcl).
  set (w1 := mkWorld (<[target := tcl1]> (clients w)) (trace w)).
  assert (Hop1 : exists ocl1, clients w1 !! op = Some ocl1 /\ Name ocl1 = Name ocl).
  { unfold w1. simpl. destruct (decide (target = op)) as [->|Hne].
    - rewrite lookup_insert_eq. exists tcl1. split; [reflexivity|].
      rewrite Hocl in Htcl. inversion Htcl. reflexivity.
    - rewrite lookup_insert_ne by exact Hne. exists ocl. split; [exact Hocl|reflexivity]. }
  destruct Hop1 as (ocl1 & Hocl1 & Hname).
  rewrite (bind_some _ _ _ _ _ (load_some _ _ _ Hocl1)).
  rewrite Hname.
  assert (Htcl1 : clients w1 !! target = Some tcl1) by apply lookup_insert_eq.
  rewrite (Write_some target _ w1 tcl1 tm Htcl1 Htm).
  unfold w1. simpl. rewrite insert_insert_eq. reflexivity.
Qed.

(** The duration that [/silence] applies: five minutes, or what the
    third part of the line parses to. *)
Lemma silence_applied (op channel : nat) (srv : ServerView) (now : Time)
    (line name : string) (tokens : list string) (target : nat) w
    (ocl tcl : Client Terminal) (tm : Terminal) :
  GoStrings.SplitN line " " 3 = "/silence"%string :: name :: tokens ->
  IsOp srv op = true ->
  Who srv name = Some target ->
  clients w !! op = Some ocl ->
  clients w !! target = Some tcl ->
  term tcl = Some tm ->
  let d := match tokens with
           | token :: _ => default (5 * Minute) (ParseDuration token)
           | [] => 5 * Minute
           end in
  let notice := "-> Silenced for " +:+ Duration_String d +:+ " by " +:+ Name ocl +:+ "." in
  handleShell_line op channel srv now line w =
    Some (tt, mkWorld
                (<[target := set_term (Some (term_Write tm (notice +:+ CRLF)))
                                      (set_silencedUntil (now + d) tcl)]> (clients w))
                (trace w)).
Proof.
  intros Hparts Hop Hwho Hocl Htcl Htm d notice.
  unfold handleShell_line, index. rewrite Hparts. simpl.
  rewrite bind_ret.
  change (GoStrings.HasPrefix "/silence" "/") with true. simpl.
  rewrite Hop. simpl.
  destruct tokens as [|token tokens']; simpl.
  - rewrite !bind_ret, Hwho.
    apply (silence_then_tell op target d now w ocl tcl tm Hocl Htcl Htm).
  - rewrite bind_ret. unfold notice, d. simpl.
    destruct (ParseDuration token) as [parsed|]; simpl;
      rewrite !bind_ret, Hwho;
      apply (silence_then_tell op target _ now w ocl tcl tm Hocl Htcl Htm).
Qed.

(** C3, as the code has it. An operator issues [/silence] on an
    existing target with a duration token that parses to [d]: the
    target's [silencedUntil] becomes [now + d], and the one notice
    [-> Silenced for <d> by <operator>.] is written to the target's
    terminal through [Write], with its line terminator. The target's
    mailbox [Msg] is not touched, nor is anything else. *)
Theorem silence_command_effect (op channel : nat) (srv : ServerView) (now : Time)
    (line name token : string) (d : Duration) (target : nat) w
    (ocl tcl : Client Terminal) (tm : Terminal) :
  GoStrings.SplitN line " " 3 = ["/silence"; name; token]%string ->
  ParseDuration token = Some d ->
  IsOp srv op = true ->
  Who srv name = Some target ->
  clients w !! op = Some ocl ->
  clients w !! target = Some tcl ->
  term tcl = Some tm ->
  let notice := "-> Silenced for " +:+ Duration_String d +:+ " by " +:+ Name ocl +:+ "." in
  let tcl' := set_term (Some (term_Write tm (notice +:+ CRLF)))
                       (set_silencedUntil (now + d) tcl) in
  handleShell_line op channel srv now line w =
    Some (tt, mkWorld (<[target := tcl']> (clients w)) (trace w))
  /\ silencedUntil tcl' = now + d
  /\ Msg tcl' = Msg tcl.
Proof.
  intros Hparts Hparse Hop Hwho Hocl Htcl Htm notice tcl'.
  split; [|split; reflexivity].
  pose proof (silence_applied op channel srv now line name [token] target w ocl tcl tm
                Hparts Hop Hwho Hocl Htcl Htm) as Hrun.
  simpl in Hrun. rewrite Hparse in Hrun. exact Hrun.
Qed.

(** C8. A duration token that does not parse is no error: the line
    [/silence NAME TOKEN] is handled exactly as [/silence NAME], in every
    world and whoever issues it; and when the issuer is an operator and
    the target exists, what both apply is the window of five minutes:
    [silencedUntil] becomes [now + 5 * Minute]. *)
Theorem silence_unparsable_is_default (op channel : nat) (srv : ServerView) (now : Time)
    (name token : string) w :
  GoStrings.contains name " " = false ->
  ParseDuration token = None ->
  let withToken := "/silence" +:+ " " +:+ name +:+ " " +:+ token in
  let without := "/silence" +:+ " " +:+ name in
  handleShell_line op channel srv now withToken w = handleShell_line op channel srv now without w
  /\ forall (target : nat) (ocl tcl : Client Terminal) (tm : Terminal),
       IsOp srv op = true ->
       Who srv name = Some target ->
       clients w !! op = Some ocl ->
       clients w !! target = Some tcl ->
       term tcl = Some tm ->
       let notice := "-> Silenced for " +:+ Duration_String (5 * Minute)
                     +:+ " by " +:+ Name ocl +:+ "." in
       handleShell_line op channel srv now without w =
         Some (tt, mkWorld
                     (<[target := set_term (Some (term_Write tm (notice +:+ CRLF)))
                                           (set_silencedUntil (now + 5 * Minute) tcl)]>
                        (clients w))
                     (trace w)).
Proof.
  intros Hname Hparse withToken without.
  assert (H3 : GoStrings.SplitN withToken " " 3 = ["/silence"; name; token]%string)
    by (apply SplitN_three; [reflexivity|exact Hname]).
  assert (H2 : GoStrings.SplitN without " " 3 = ["/silence"; name]%string)
    by (apply SplitN_two; [reflexivity|exact Hname]).
  split.
  - unfold handleShell_line, index. rewrite H3, H2. simpl.
    rewrite !bind_ret.
    change (GoStrings.HasPrefix "/silence" "/") with true. simpl.
    rewrite Hparse. reflexivity.
  - intros target ocl tcl tm Hop Hwho Hocl Htcl Htm notice.
    apply (silence_applied op channel srv now without name [] target w ocl tcl tm
             H2 Hop Hwho Hocl Htcl Htm).
Qed.

(** C7. [Silence(d)] sets [silencedUntil] to [now + d] whatever it was:
    a second call overwrites the first instead of adding to it, so the
    two calls in a row leave the world that the second call alone
    leaves, and from [now2 + d2] on the client is not silenced, however
    long the first window was. *)
Theorem Silence_overwrites (c : nat) (d1 d2 : Duration) (now1 now2 : Time) w cl :
  clients w !! c = Some cl ->
  let w2 := mkWorld (<[c := set_silencedUntil (now2 + d2) cl]> (clients w)) (trace w) in
  Silence c d2 now2 w = Some (tt, w2)
  /\ (Silence c d1 now1 ;; Silence c d2 now2) w = Some (tt, w2)
  /\ forall t : Time, now2 + d2 <= t -> IsSilenced c t w2 = Some (false, w2).
Proof.
  intros Hc w2. split; [|split].
  - apply Silence_some, Hc.
  - rewrite (bind_some _ _ _ _ _ (Silence_some _ d1 now1 _ _ Hc)).
    erewrite Silence_some by apply lookup_insert_eq.
    simpl. rewrite insert_insert_eq. reflexivity.
  - intros t Ht.
    erewrite IsSilenced_some by apply lookup_insert_eq.
    simpl. unfold Time_After.
    destruct (Z.ltb_spec t (now2 + d2)); [lia|reflexivity].
Qed.

(** C10. After [Silence(d)] with [d <= 0], [IsSilenced()] is false at
    once and from then on. A duration token that parses to such a [d]
    therefore lets an operator end the silence of a target through
    [/silence]: after the command the target is not silenced, whatever
    window it was under. *)
Theorem nonpositive_silence_lifts (c : nat) (d : Duration) (now t : Time) w cl :
  d <= 0 ->
  now <= t ->
  clients w !! c = Some cl ->
  (exists w', Silence c d now w = Some (tt, w') /\ IsSilenced c t w' = Some (false, w'))
  /\ forall (op channel : nat) (srv : ServerView) (line name token : string)
            (ocl : Client Terminal) (tm : Terminal),
       GoStrings.SplitN line " " 3 = ["/silence"; name; token]%string ->
       ParseDuration token = Some d ->
       IsOp srv op = true ->
       Who srv name = Some c ->
       clients w !! op = Some ocl ->
       term cl = Some tm ->
       exists w', handleShell_line op channel srv now line w = Some (tt, w')
                  /\ IsSilenced c t w' = Some (false, w').
Proof.
  intros Hd Ht Hc.
  assert (Hafter : Time_After (now + d) t = false).
  { unfold Time_After. destruct (Z.ltb_spec t (now + d)); [lia|reflexivity]. }
  split.
  - eexists. split; [apply Silence_some, Hc|].
    erewrite IsSilenced_some by apply lookup_insert_eq.
    simpl. rewrite Hafter. reflexivity.
  - intros op channel srv line name token ocl tm Hparts Hparse Hop Hwho Hocl Htm.
    pose proof (silence_applied op channel srv now line name [token] c w ocl cl tm
                  Hparts Hop Hwho Hocl Hc Htm) as Hrun.
    simpl in Hrun. rewrite Hparse in Hrun. simpl in Hrun.
    eexists. split; [exact Hrun|].
    erewrite IsSilenced_some by apply lookup_insert_eq.
    simpl. rewrite Hafter. reflexivity.
Qed.

End Shell.

(** ** The channel-request dispatcher *)

Section Channels.
Context {Terminal : Type} `{!TerminalOps Terminal} `{!TimeOps} `{!PtyOps}.
Implicit Types (w : World Terminal) (cl : Client Terminal).

Lemma replies_app (a b : list Event) : replies (a ++ b) = replies a ++ replies b.
Proof.
  induction a as [|e a IH]; [reflexivity|].
  destruct e; simpl; rewrite IH; reflexivity.
Qed.

Lemma spawns_app (a b : list Event) : spawns (a ++ b) = (spawns a + spawns b)%nat.
Proof.
  induction a as [|e a IH]; [reflexivity|].
  destruct e; simpl; rewrite IH; reflexivity.
Qed.

Lemma Resize_some c width height w cl (t : Terminal) :
  clients w !! c = Some cl ->
  term cl = Some t ->
  Resize c width height w =
    if snd (term_SetSize t width height)
    then Some (true,
               mkWorld (<[c := set_size width height
                                 (set_term (Some (fst (term_SetSize t width height))) cl)]>
                          (clients w))
                       (trace w))
    else Some (false,
               mkWorld (<[c := set_term (Some (fst (term_SetSize t width height))) cl]>
                          (clients w))
                       (trace w ++ [Logger_Errorf ("Resize failed: " +:+ fmt_d width
                                                   +:+ "x" +:+ fmt_d height)])).
Proof.
  intros Hc Ht. unfold Resize.
  rewrite (bind_some _ _ _ _ _ (load_some _ _ _ Hc)).
  rewrite Ht. unfold deref. rewrite bind_ret.
  destruct (term_SetSize t width height) as [t' ok]. simpl.
  destruct ok; reflexivity.
Qed.

(** What a request that resizes does, after its payload was parsed. *)
Lemma resize_outcome c (width height : Z) (hasShell wantReply : bool) w cl (t : Terminal) :
  clients w !! c = Some cl ->
  term cl = Some t ->
  let sized := snd (term_SetSize t width height) in
  exists w' cl',
    ((resized ← Resize c width height; mret (resized, hasShell)) ≫=
     (fun r : bool * bool =>
        (if wantReply then emit (Request_Reply (fst r)) else mret tt) ;; mret (snd r))) w
    = Some (hasShell, w')
    /\ clients w' !! c = Some cl'
    /\ is_Some (term cl')
    /\ replies (trace w') = replies (trace w) ++ (if wantReply then [sized] else [])
    /\ spawns (trace w') = spawns (trace w)
    /\ (termWidth cl', termHeight cl') =
         (if sized then (width, height) else (termWidth cl, termHeight cl)).
Proof.
  intros Hc Ht sized.
  pose proof (Resize_some c width height w cl t Hc Ht) as HR.
  fold sized in HR. unfold mbind, M_bind, mret, M_ret. rewrite HR.
  destruct sized; destruct wantReply; unfold emit; simpl;
    eexists; eexists;
    (split; [reflexivity|]);
    (split; [apply lookup_insert_eq|]);
    simpl; rewrite ?replies_app, ?spawns_app; simpl;
    rewrite ?app_nil_r, ?Nat.add_0_r; eauto.
Qed.

(** C6. A [pty-req] or [window-change] request: with [parsed] what the
    parser says of the payload and [sized] what [SetSize] says of the
    parsed size, the reply, sent when the request wants one, is
    [parsed && sized]: negative for a payload that does not parse,
    positive exactly when both steps succeed. The stored width and
    height become the parsed ones when both succeed and otherwise stay
    what they were. *)
Theorem resize_request_reply (c channel : nat) (hasShell : bool) (req : Request)
    (parse : list byte -> Z * Z * bool) w cl (t : Terminal) :
  (Type_ req = "pty-req" /\ parse = parsePtyRequest \/
   Type_ req = "window-change" /\ parse = parseWinchRequest)%string ->
  clients w !! c = Some cl ->
  term cl = Some t ->
  let width := fst (fst (parse (Payload req))) in
  let height := snd (fst (parse (Payload req))) in
  let parsed := snd (parse (Payload req)) in
  let sized := snd (term_SetSize t width height) in
  let ok := parsed && sized in
  exists w' cl',
    handleRequest c channel hasShell req w = Some (hasShell, w')
    /\ clients w' !! c = Some cl'
    /\ replies (trace w') = replies (trace w) ++ (if WantReply req then [ok] else [])
    /\ (termWidth cl', termHeight cl') =
         (if ok then (width, height) else (termWidth cl, termHeight cl)).
Proof.
  intros Hkind Hc Ht width height parsed sized ok.
  assert (Hrun : handleRequest c channel hasShell req w =
                 ((if parsed
                   then resized ← Resize c width height; mret (resized, hasShell)
                   else mret (false, hasShell)) ≫=
                  (fun r : bool * bool =>
                     (if WantReply req then emit (Request_Reply (fst r)) else mret tt) ;;
                     mret (snd r))) w).
  { unfold handleRequest, parsed, width, height.
    destruct Hkind as [[-> ->]|[-> ->]]; simpl.
    - destruct (parsePtyRequest (Payload req)) as [[wd ht] p]. reflexivity.
    - destruct (parseWinchRequest (Payload req)) as [[wd ht] p]. reflexivity. }
  rewrite Hrun. unfold ok. destruct parsed; simpl.
  - destruct (resize_outcome c width height hasShell (WantReply req) w cl t Hc Ht)
      as (w' & cl' & Hw' & Hcl' & _ & Hrep & _ & Hsize).
    exists w', cl'. fold sized in Hrep, Hsize. auto.
  - rewrite bind_ret. simpl.
    destruct (WantReply req); unfold mbind, M_bind, emit, mret, M_ret; simpl;
      eexists; exists cl; (split; [reflexivity|]); simpl;
      rewrite ?replies_app, ?app_nil_r; auto.
Qed.

(** *** The guard of the shell *)

Lemma handleRequest_guard (c channel : nat) (hasShell : bool) (req : Request)
    w cl (t : Terminal) :
  clients w !! c = Some cl ->
  term cl = Some t ->
  exists hasShell' w' cl',
    handleRequest c channel hasShell req w = Some (hasShell', w')
    /\ clients w' !! c = Some cl'
    /\ is_Some (term cl')
    /\ (hasShell = true -> hasShell' = true)
    /\ (spawns (trace w') + (if hasShell then 1 else 0)
        = spawns (trace w) + (if hasShell' then 1 else 0))%nat.
Proof.
  intros Hc Ht. unfold handleRequest.
  destruct (String.eqb (Type_ req) "shell").
  - unfold mbind, M_bind, load. rewrite Hc, Ht. simpl.
    destruct hasShell, (WantReply req); unfold emit, mret, M_ret; simpl;
      eexists; eexists; exists cl; (split; [reflexivity|]); simpl;
      rewrite ?spawns_app; simpl; rewrite Ht; repeat split; eauto; lia.
  - assert (Hother : forall wantReply : bool, exists w',
              (mret (M := M Terminal) (false, hasShell) ≫=
               (fun r : bool * bool =>
                  (if wantReply then emit (Request_Reply (fst r)) else mret tt) ;;
                  mret (snd r))) w = Some (hasShell, w')
              /\ clients w' !! c = Some cl
              /\ spawns (trace w') = spawns (trace w)).
    { intros []; unfold mbind, M_bind, emit, mret, M_ret; simpl;
        eexists; (split; [reflexivity|]); simpl; rewrite ?spawns_app; simpl;
        split; auto; lia. }
    assert (Hresize : forall width height : Z, exists w' cl',
              ((resized ← Resize c width height; mret (resized, hasShell)) ≫=
               (fun r : bool * bool =>
                  (if WantReply req then emit (Request_Reply (fst r)) else mret tt) ;;
                  mret (snd r))) w = Some (hasShell, w')
              /\ clients w' !! c = Some cl'
              /\ is_Some (term cl')
              /\ spawns (trace w') = spawns (trace w)).
    { intros width height.
      destruct (resize_outcome c width height hasShell (WantReply req) w cl t Hc Ht)
        as (w' & cl' & Hw' & Hcl' & Hterm & _ & Hsp & _).
      exists w', cl'. auto. }
    destruct (String.eqb (Type_ req) "pty-req");
      [|destruct (String.eqb (Type_ req) "window-change")].
    + destruct (parsePtyRequest (Payload req)) as [[width height] [|]].
      * destruct (Hresize width height) as (w' & cl' & Hw' & Hcl' & Hterm & Hsp).
        exists hasShell, w', cl'. rewrite Hsp. auto.
      * destruct (Hother (WantReply req)) as (w' & Hw' & Hcl' & Hsp).
        exists hasShell, w', cl. rewrite Hsp, Ht. eauto 10.
    + destruct (parseWinchRequest (Payload req)) as [[width height] [|]].
      * destruct (Hresize width height) as (w' & cl' & Hw' & Hcl' & Hterm & Hsp).
        exists hasShell, w', cl'. rewrite Hsp. auto.
      * destruct (Hother (WantReply req)) as (w' & Hw' & Hcl' & Hsp).
        exists hasShell, w', cl. rewrite Hsp, Ht. eauto 10.
    + destruct (Hother (WantReply req)) as (w' & Hw' & Hcl' & Hsp).
      exists hasShell, w', cl. rewrite Hsp, Ht. eauto 10.
Qed.

Lemma handleRequests_guard (c channel : nat) (requests : list Request) :
  forall (hasShell : bool) w cl (t : Terminal),
  clients w !! c = Some cl ->
  term cl = Some t ->
  exists hasShell' w' cl',
    handleRequests c channel hasShell requests w = Some (hasShell', w')
    /\ clients w' !! c = Some cl'
    /\ (hasShell = true -> hasShell' = true)
    /\ (spawns (trace w') + (if hasShell then 1 else 0)
        = spawns (trace w) + (if hasShell' then 1 else 0))%nat.
Proof.
  induction requests as [|req requests IH]; intros hasShell w cl t Hc Ht.
  - exists hasShell, w, cl. repeat split; auto.
  - destruct (handleRequest_guard c channel hasShell req w cl t Hc Ht)
      as (hs1 & w1 & cl1 & Hrun1 & Hc1 & [t1 Ht1] & Hmono1 & Hsp1).
    destruct (IH hs1 w1 cl1 t1 Hc1 Ht1) as (hs2 & w2 & cl2 & Hrun2 & Hc2 & Hmono2 & Hsp2).
    exists hs2, w2, cl2. split; [|split; [exact Hc2|split; [auto|lia]]].
    change (handleRequests c channel hasShell (req :: requests))
      with (hasShell' ← handleRequest c channel hasShell req;
            handleRequests c channel hasShell' requests).
    rewrite (bind_some _ _ _ _ _ Hrun1). exact Hrun2.
Qed.

Lemma handleChannel_guard (c : nat) (prompt : string) (hasShell : bool) (ch : NewChannel)
    w cl :
  clients w !! c = Some cl ->
  exists r w' cl',
    handleChannel c prompt hasShell ch w = Some (r, w')
    /\ clients w' !! c = Some cl'
    /\ (hasShell = true -> fst r = true)
    /\ (spawns (trace w') + (if hasShell then 1 else 0)
        = spawns (trace w) + (if fst r then 1 else 0))%nat.
Proof.
  intros Hc. unfold handleChannel.
  destruct (negb (String.eqb (ChannelType ch) "session")).
  - eexists; eexists; exists cl. split; [reflexivity|]. simpl.
    rewrite spawns_app. simpl. repeat split; auto; lia.
  - destruct (Accept ch) as [err|[channel requests]].
    + eexists; eexists; exists cl. split; [reflexivity|]. simpl.
      rewrite spawns_app. simpl. repeat split; auto; lia.
    + rewrite (bind_some _ _ _ _ _ (load_some _ _ _ Hc)).
      set (cl0 := set_term (Some (NewTerminal channel prompt)) cl).
      set (w0 := mkWorld (<[c := cl0]> (clients w)) (trace w)).
      assert (Hc0 : clients w0 !! c = Some cl0) by apply lookup_insert_eq.
      destruct (handleRequests_guard c channel requests hasShell w0 cl0 _ Hc0 eq_refl)
        as (hs' & w' & cl' & Hrun & Hc' & Hmono & Hsp).
      exists (hs', Some channel), w', cl'.
      split; [|repeat split; auto].
      assert (Hstore : store c cl0 w = Some (tt, w0)) by reflexivity.
      rewrite (bind_some _ _ _ _ _ Hstore).
      rewrite (bind_some _ _ _ _ _ Hrun). reflexivity.
Qed.

Lemma handleChannels_loop_guard (c : nat) (prompt : string) (channels : list NewChannel) :
  forall (hasShell : bool) (deferred : list nat) w cl,
  clients w !! c = Some cl ->
  exists r w',
    handleChannels_loop c prompt hasShell deferred channels w = Some (r, w')
    /\ (hasShell = true -> fst r = true)
    /\ (spawns (trace w') + (if hasShell then 1 else 0)
        = spawns (trace w) + (if fst r then 1 else 0))%nat.
Proof.
  induction channels as [|ch channels IH]; intros hasShell deferred w cl Hc.
  - exists (hasShell, deferred), w. repeat split; auto.
  - destruct (handleChannel_guard c prompt hasShell ch w cl Hc)
      as (r1 & w1 & cl1 & Hrun1 & Hc1 & Hmono1 & Hsp1).
    destruct (IH (fst r1)
                 (match snd r1 with Some channel => channel :: deferred | None => deferred end)
                 w1 cl1 Hc1) as (r2 & w2 & Hrun2 & Hmono2 & Hsp2).
    exists r2, w2. split; [|split; [auto|lia]].
    simpl. rewrite (bind_some _ _ _ _ _ Hrun1). exact Hrun2.
Qed.

Lemma closeAll_some (deferred : list nat) :
  forall w, exists w', closeAll (Terminal := Terminal) deferred w = Some (tt, w')
                       /\ spawns (trace w') = spawns (trace w).
Proof.
  induction deferred as [|channel deferred IH]; intros w.
  - exists w. split; reflexivity.
  - destruct (IH (mkWorld (clients w) (trace w ++ [Channel_Close channel])))
      as (w' & Hrun & Hsp).
    exists w'. split; [exact Hrun|].
    rewrite Hsp. simpl. rewrite spawns_app. simpl. lia.
Qed.

End Channels.

(** ** The other commands *)

Section Commands.
Context {Terminal : Type} `{!TerminalOps Terminal} `{!TimeOps}.
Implicit Types (w : World Terminal) (cl : Client Terminal).

Lemma emit_some (e : Event) w :
  emit e w = Some (tt, mkWorld (clients w) (trace w ++ [e])).
Proof. reflexivity. Qed.

Lemma Fingerprint_some c w cl (p : gmap string string) :
  clients w !! c = Some cl ->
  Permissions (Conn cl) = Some p ->
  Fingerprint c w = Some (default EmptyString (p !! "fingerprint"%string), w).
Proof.
  intros Hc Hp. unfold Fingerprint.
  rewrite (bind_some _ _ _ _ _ (load_some _ _ _ Hc)).
  rewrite Hp. reflexivity.
Qed.

(** X1. [/exit] closes the channel of the session and does nothing else:
    no notice, no call to the server, whatever follows the verb on the
    line. *)
Theorem exit_closes_channel (c channel : nat) (srv : ServerView) (now : Time)
    (line : string) w :
  GoStrings.SplitN line " " 3 !! 0%nat = Some "/exit"%string ->
  handleShell_line c channel srv now line w =
    Some (tt, mkWorld (clients w) (trace w ++ [Channel_Close channel])).
Proof.
  intros Hverb. unfold handleShell_line, index. rewrite Hverb, bind_ret.
  reflexivity.
Qed.

(** X2. [/nick]: with exactly one word after the verb, the one call
    that leaves [client.go] is [Server.Rename] of the session to that
    word, which is not checked and may be empty; the renaming itself is
    the server's. With no word, or with more text after the name, no call
    is made and the issuer gets the notice of the missing name. *)
Theorem nick_delegates (c channel : nat) (srv : ServerView) (now : Time)
    (line : string) w :
  let parts := GoStrings.SplitN line " " 3 in
  parts !! 0%nat = Some "/nick"%string ->
  (forall name, parts = ["/nick"; name]%string ->
     exists w', handleShell_line c channel srv now line w = Some (tt, w')
                /\ trace w' = trace w ++ [Server_Rename c name])
  /\ (length parts <> 2%nat ->
      forall cl, clients w !! c = Some cl ->
        handleShell_line c channel srv now line w =
          Some (tt, notified c cl "-> Missing $NAME from: /nick $NAME" w)).
Proof.
  intros parts Hverb. split.
  - intros name Hparts. unfold handleShell_line, index. fold parts.
    rewrite Hparts. eexists. split; reflexivity.
  - intros Hlen cl Hc. unfold handleShell_line, index. fold parts.
    rewrite Hverb, bind_ret.
    change (GoStrings.HasPrefix "/nick" "/") with true. simpl.
    destruct (Nat.eqb_spec (length parts) 2) as [E|_]; [contradiction|].
    apply send_some, Hc.
Qed.

(** X3. [/list] answers on the issuer's own [Msg] with the number of
    names that the server lists and the names joined by a comma and a
    space. *)
Theorem list_reply (c channel : nat) (srv : ServerView) (now : Time)
    (line : string) w cl :
  GoStrings.SplitN line " " 3 !! 0%nat = Some "/list"%string ->
  clients w !! c = Some cl ->
  handleShell_line c channel srv now line w =
    Some (tt, notified c cl
                ("-> " +:+ fmt_d (Z.of_nat (length (List_ srv))) +:+ " connected: "
                 +:+ GoStrings.Join (List_ srv) ", ") w).
Proof.
  intros Hverb Hc. unfold handleShell_line, index. rewrite Hverb, bind_ret.
  change (GoStrings.HasPrefix "/list" "/") with true. simpl.
  apply send_some, Hc.
Qed.

(** X4. A line whose first part starts with the sigil and is none of the
    ten verbs, which are matched whole and with their case, is answered
    with [-> Invalid command:] and the line as it was typed, on the
    issuer's own [Msg]; nothing else happens. *)
Theorem unknown_command_echoed (c channel : nat) (srv : ServerView) (now : Time)
    (line verb : string) w cl :
  GoStrings.SplitN line " " 3 !! 0%nat = Some verb ->
  GoStrings.HasPrefix verb "/" = true ->
  ~ In verb ["/exit"; "/help"; "/about"; "/me"; "/nick"; "/whois"; "/list";
             "/ban"; "/op"; "/silence"]%string ->
  clients w !! c = Some cl ->
  handleShell_line c channel srv now line w =
    Some (tt, notified c cl ("-> Invalid command: " +:+ line) w).
Proof.
  intros Hverb Hsigil Hnot Hc.
  unfold handleShell_line, index. rewrite Hverb, bind_ret, Hsigil.
  repeat match goal with
  | |- context [String.eqb verb ?v] =>
      destruct (String.eqb_spec verb v) as [E|_];
        [exfalso; apply Hnot; rewrite E; simpl; tauto|]
  end.
  apply send_some, Hc.
Qed.

(** X5. [/whois NAME]: when the server knows the name, the issuer is
    told the target's name, its fingerprint (empty when the connection
    has none) and its client version; a version longer than 100 bytes is
    never shown, a fixed text stands for it. When the server does not know
    the name the issuer is told so, and when the line does not have
    exactly one word after the verb the issuer gets the notice of the
    missing name. The answer goes on the issuer's own [Msg] and nothing
    else changes. *)
Theorem whois_reply (c channel : nat) (srv : ServerView) (now : Time)
    (line : string) w cl :
  let parts := GoStrings.SplitN line " " 3 in
  parts !! 0%nat = Some "/whois"%string ->
  clients w !! c = Some cl ->
  let run := handleShell_line c channel srv now line w in
  (forall name target (tcl : Client Terminal) (p : gmap string string),
     parts = ["/whois"; name]%string ->
     Who srv name = Some target ->
     clients w !! target = Some tcl ->
     Permissions (Conn tcl) = Some p ->
     let version := ClientVersion (Conn tcl) in
     let shown := if 100 <? Z.of_nat (String.length version)
                  then "Evil Jerk with a superlong string"%string else version in
     run = Some (tt, notified c cl
                       ("-> " +:+ Name tcl +:+ " is "
                        +:+ default EmptyString (p !! "fingerprint"%string)
                        +:+ " via " +:+ shown) w))
  /\ (forall name,
        parts = ["/whois"; name]%string ->
        Who srv name = None ->
        run = Some (tt, notified c cl ("-> No such name: " +:+ name) w))
  /\ (length parts <> 2%nat ->
      run = Some (tt, notified c cl "-> Missing $NAME from: /whois $NAME" w)).
Proof.
  intros parts Hverb Hc run.
  assert (Hrun : run = handleShell_line c channel srv now line w) by reflexivity.
  unfold handleShell_line, index in Hrun. fold parts in Hrun.
  rewrite Hverb, bind_ret in Hrun.
  change (GoStrings.HasPrefix "/whois" "/") with true in Hrun. simpl in Hrun.
  split; [|split].
  - intros name target tcl p Hparts Hwho Htcl Hp version shown.
    rewrite Hrun, Hparts. simpl. rewrite bind_ret, Hwho.
    rewrite (bind_some _ _ _ _ _ (load_some _ _ _ Htcl)).
    rewrite (bind_some _ _ _ _ _ (Fingerprint_some _ _ _ _ Htcl Hp)).
    apply send_some, Hc.
  - intros name Hparts Hwho.
    rewrite Hrun, Hparts. simpl. rewrite bind_ret, Hwho.
    apply send_some, Hc.
  - intros Hlen. rewrite Hrun.
    destruct (Nat.eqb_spec (length parts) 2) as [E|_]; [contradiction|].
    apply send_some, Hc.
Qed.

(** The issuer read again after the target was changed: the same name. *)
Lemma issuer_after_target (op target : nat) w (ocl tcl tcl' : Client Terminal) :
  clients w !! op = Some ocl ->
  clients w !! target = Some tcl ->
  Name tcl' = Name tcl ->
  exists ocl', <[target := tcl']> (clients w) !! op = Some ocl' /\ Name ocl' = Name ocl.
Proof.
  intros Hocl Htcl Hname. destruct (decide (target = op)) as [->|Hne].
  - rewrite lookup_insert_eq. exists tcl'. split; [reflexivity|].
    rewrite Hocl in Htcl. inversion Htcl. exact Hname.
  - rewrite lookup_insert_ne by exact Hne. exists ocl. split; [exact Hocl|reflexivity].
Qed.

(** The tail of [/ban], once the target is found. *)
Lemma ban_then_announce (op target : nat) (name : string) w
    (ocl tcl : Client Terminal) (tm : Terminal) (p : gmap string string) :
  clients w !! op = Some ocl ->
  clients w !! target = Some tcl ->
  term tcl = Some tm ->
  Permissions (Conn tcl) = Some p ->
  (fingerprint ← Fingerprint target;
   cl ← load op;
   Write target ("-> Banned by " +:+ Name cl +:+ ".") ;;
   emit (Server_Ban fingerprint) ;;
   found ← load target;
   store target (set_Closed found) ;;
   cl ← load op;
   emit (Server_Broadcast ("* " +:+ name +:+ " was banned by " +:+ Name cl) None)) w =
    Some (tt, mkWorld
                (<[target := set_Closed
                     (set_term (Some (term_Write tm (("-> Banned by " +:+ Name ocl +:+ ".")
                                                     +:+ CRLF))) tcl)]> (clients w))
                (trace w ++ [Server_Ban (default EmptyString (p !! "fingerprint"%string));
                             Server_Broadcast
                               ("* " +:+ name +:+ " was banned by " +:+ Name ocl) None])).
Proof.
  intros Hocl Htcl Htm Hp.
  rewrite (bind_some _ _ _ _ _ (Fingerprint_some _ _ _ _ Htcl Hp)).
  rewrite (bind_some _ _ _ _ _ (load_some _ _ _ Hocl)).
  rewrite (bind_some _ _ _ _ _ (Write_some target _ w tcl tm Htcl Htm)).
  rewrite (bind_some _ _ _ _ _ (emit_some _ _)). simpl.
  set (tcl1 := set_term _ tcl).
  set (w1 := mkWorld (<[target := tcl1]> (clients w)) _).
  assert (H1 : clients w1 !! target = Some tcl1) by apply lookup_insert_eq.
  rewrite (bind_some _ _ _ _ _ (load_some _ _ _ H1)).
  assert (Hst : store target (set_Closed tcl1) w1 =
                Some (tt, mkWorld (<[target := set_Closed tcl1]> (clients w)) (trace w1))).
  { unfold store, w1. simpl. rewrite insert_insert_eq. reflexivity. }
  rewrite (bind_some _ _ _ _ _ Hst).
  destruct (issuer_after_target op target w ocl tcl (set_Closed tcl1) Hocl Htcl eq_refl)
    as (ocl' & Hocl' & Hname).
  set (w2 := mkWorld (<[target := set_Closed tcl1]> (clients w)) (trace w1)).
  assert (H2 : clients w2 !! op = Some ocl') by exact Hocl'.
  rewrite (bind_some _ _ _ _ _ (load_some _ _ _ H2)).
  rewrite Hname. unfold emit, w2, w1. simpl.
  rewrite <- app_assoc. reflexivity.
Qed.

(** The tail of [/op], once the target is found. *)
Lemma op_then_tell (op target : nat) w
    (ocl tcl : Client Terminal) (tm : Terminal) (p : gmap string string) :
  clients w !! op = Some ocl ->
  clients w !! target = Some tcl ->
  term tcl = Some tm ->
  Permissions (Conn tcl) = Some p ->
  (fingerprint ← Fingerprint target;
   cl ← load op;
   Write target ("-> Made op by " +:+ Name cl +:+ ".") ;;
   emit (Server_Op fingerprint)) w =
    Some (tt, mkWorld
                (<[target := set_term (Some (term_Write tm (("-> Made op by " +:+ Name ocl
                                                             +:+ ".") +:+ CRLF))) tcl]>
                   (clients w))
                (trace w ++ [Server_Op (default EmptyString (p !! "fingerprint"%string))])).
Proof.
  intros Hocl Htcl Htm Hp.
  rewrite (bind_some _ _ _ _ _ (Fingerprint_some _ _ _ _ Htcl Hp)).
  rewrite (bind_some _ _ _ _ _ (load_some _ _ _ Hocl)).
  rewrite (bind_some _ _ _ _ _ (Write_some target _ w tcl tm Htcl Htm)).
  reflexivity.
Qed.

(** X6. [/ban NAME] by an operator on a client that the server knows:
    the target is told [-> Banned by <operator>.] on its terminal and its
    connection is closed, and two calls leave [client.go]: the ban of the
    target's fingerprint and, after it, the broadcast to all of the ban
    under the name that was typed. *)
Theorem ban_applied (op channel : nat) (srv : ServerView) (now : Time)
    (line name : string) (target : nat) w (ocl tcl : Client Terminal)
    (tm : Terminal) (p : gmap string string) :
  GoStrings.SplitN line " " 3 = ["/ban"; name]%string ->
  IsOp srv op = true ->
  Who srv name = Some target ->
  clients w !! op = Some ocl ->
  clients w !! target = Some tcl ->
  term tcl = Some tm ->
  Permissions (Conn tcl) = Some p ->
  exists w' tcl',
    handleShell_line op channel srv now line w = Some (tt, w')
    /\ trace w' = trace w ++ [Server_Ban (default EmptyString (p !! "fingerprint"%string));
                              Server_Broadcast
                                ("* " +:+ name +:+ " was banned by " +:+ Name ocl) None]
    /\ clients w' !! target = Some tcl'
    /\ term tcl' = Some (term_Write tm (("-> Banned by " +:+ Name ocl +:+ ".") +:+ CRLF))
    /\ Closed (Conn tcl') = true.
Proof.
  intros Hparts Hop Hwho Hocl Htcl Htm Hp.
  eexists; eexists. split.
  - unfold handleShell_line, index. rewrite Hparts. simpl. rewrite bind_ret.
    change (GoStrings.HasPrefix "/ban" "/") with true. simpl.
    rewrite Hop. simpl. rewrite bind_ret, Hwho.
    apply (ban_then_announce op target name w ocl tcl tm p Hocl Htcl Htm Hp).
  - simpl. split; [reflexivity|]. split; [apply lookup_insert_eq|]. split; reflexivity.
Qed.

(** X7. [/op NAME] by an operator on a client that the server knows: the
    target is told [-> Made op by <operator>.] on its terminal and the
    server is asked to make the target's fingerprint an operator. No
    mailbox changes, and the [Op] field of the target is not written. *)
Theorem op_applied (op channel : nat) (srv : ServerView) (now : Time)
    (line name : string) (target : nat) w (ocl tcl : Client Terminal)
    (tm : Terminal) (p : gmap string string) :
  GoStrings.SplitN line " " 3 = ["/op"; name]%string ->
  IsOp srv op = true ->
  Who srv name = Some target ->
  clients w !! op = Some ocl ->
  clients w !! target = Some tcl ->
  term tcl = Some tm ->
  Permissions (Conn tcl) = Some p ->
  let tcl' := set_term (Some (term_Write tm (("-> Made op by " +:+ Name ocl +:+ ".")
                                             +:+ CRLF))) tcl in
  handleShell_line op channel srv now line w =
    Some (tt, mkWorld (<[target := tcl']> (clients w))
                      (trace w ++ [Server_Op (default EmptyString
                                                (p !! "fingerprint"%string))]))
  /\ Op tcl' = Op tcl
  /\ Msg tcl' = Msg tcl.
Proof.
  intros Hparts Hop Hwho Hocl Htcl Htm Hp tcl'.
  split; [|split; reflexivity].
  unfold handleShell_line, index. rewrite Hparts. simpl. rewrite bind_ret.
  change (GoStrings.HasPrefix "/op" "/") with true. simpl.
  rewrite Hop. simpl. rewrite bind_ret, Hwho.
  apply (op_then_tell op target w ocl tcl tm p Hocl Htcl Htm Hp).
Qed.

(** *** What no line does *)

Lemma kept_refl cl : kept cl cl.
Proof. unfold kept. tauto. Qed.

Lemma frame_trace (c : nat) w (tr : list Event) :
  line_frame c w (mkWorld (clients w) tr).
Proof.
  split; [auto|]. intros c' cl0 H0. exists cl0. simpl.
  split; [exact H0|]. split; [apply kept_refl|]. auto.
Qed.

Lemma frame_update (c target : nat) w (tcl tcl' : Client Terminal) (tr : list Event) :
  clients w !! target = Some tcl ->
  kept tcl tcl' ->
  (target <> c -> Msg tcl' = Msg tcl) ->
  (Msg tcl' = Msg tcl \/ exists notice, Msg tcl' = Msg tcl ++ [notice]) ->
  line_frame c w (mkWorld (<[target := tcl']> (clients w)) tr).
Proof.
  intros Ht Hkept Hother Hown. split; simpl.
  - intros c' Hnone. rewrite lookup_insert_ne; [exact Hnone|].
    intros ->. rewrite Ht in Hnone. discriminate.
  - intros c' cl0 H0. destruct (decide (target = c')) as [<-|Hne].
    + rewrite lookup_insert_eq. rewrite Ht in H0. inversion H0; subst cl0.
      exists tcl'. auto.
    + rewrite lookup_insert_ne by exact Hne. exists cl0.
      split; [exact H0|]. split; [apply kept_refl|]. auto.
Qed.

Lemma frame_notified (c : nat) w cl (msg : string) :
  clients w !! c = Some cl -> line_frame c w (notified c cl msg w).
Proof.
  intros Hc. apply (frame_update c c w cl _ (trace w) Hc).
  - unfold kept. simpl. tauto.
  - intros Hne. contradiction.
  - right. exists msg. reflexivity.
Qed.

(** Every line has an outcome, and the outcome is within the frame. *)
Lemma line_outcome (c channel : nat) (srv : ServerView) (now : Time) (line : string) w cl :
  equipped w ->
  knows srv w ->
  clients w !! c = Some cl ->
  exists w', handleShell_line c channel srv now line w = Some (tt, w')
             /\ line_frame c w w'.
Proof.
  intros Heq Hknows Hc.
  assert (Hsend : forall msg, exists w', send c msg w = Some (tt, w') /\ line_frame c w w').
  { intros msg. eexists. split; [apply send_some, Hc|apply frame_notified, Hc]. }
  assert (Hemit : forall e, exists w', emit e w = Some (tt, w') /\ line_frame c w w').
  { intros e. eexists. split; [reflexivity|apply frame_trace]. }
  assert (Hgate : forall msg e,
            exists w', (reject ← rejected c now msg;
                        if (reject : bool) then send c "-> Message rejected."
                        else emit e) w = Some (tt, w') /\ line_frame c w w').
  { intros msg e. rewrite (bind_some _ _ _ _ _ (rejected_some _ now msg _ _ Hc)).
    destruct (_ || _); [apply Hsend|apply Hemit]. }
  assert (Hlines : forall lines,
            exists w', WriteLines c lines w = Some (tt, w') /\ line_frame c w w').
  { intros lines. destruct (Heq c cl Hc) as [[t Ht] _].
    eexists. split; [apply (WriteLines_some c lines w cl t Hc Ht)|].
    apply (frame_update c c w cl _ _ Hc); [|reflexivity|left; reflexivity].
    unfold kept. simpl. repeat split; eauto. }
  destruct (SplitN_verb line) as (verb & rest & Hparts & _).
  unfold handleShell_line. rewrite Hparts.
  change (index (verb :: rest) 0) with (mret (M := M Terminal) verb). rewrite bind_ret.
  destruct (GoStrings.HasPrefix verb "/").
  2: { rewrite (bind_some _ _ _ _ _ (load_some _ _ _ Hc)). apply Hgate. }
  destruct (String.eqb verb "/exit"); [apply Hemit|].
  destruct (String.eqb verb "/help"); [apply Hlines|].
  destruct (String.eqb verb "/about"); [apply Hlines|].
  destruct (String.eqb verb "/me").
  { rewrite (bind_some _ _ _ _ _ (load_some _ _ _ Hc)). apply Hgate. }
  assert (Hfound : forall name target,
            Who srv name = Some target ->
            exists tcl tm p, clients w !! target = Some tcl /\ term tcl = Some tm
                             /\ Permissions (Conn tcl) = Some p).
  { intros name target Hwho. destruct (Hknows name target Hwho) as [tcl Htcl].
    destruct (Heq target tcl Htcl) as [[tm Htm] [p Hp]]. exists tcl, tm, p. auto. }
  assert (Hwhois : forall a,
            exists w',
              match Who srv a with
              | Some client =>
                  target ← load client;
                  fingerprint ← Fingerprint client;
                  send c ("-> " +:+ Name target +:+ " is " +:+ fingerprint +:+ " via "
                          +:+ (if 100 <? Z.of_nat (String.length (ClientVersion (Conn target)))
                               then "Evil Jerk with a superlong string"%string
                               else ClientVersion (Conn target)))
              | None => send c ("-> No such name: " +:+ a)
              end w = Some (tt, w') /\ line_frame c w w').
  { intros a. destruct (Who srv a) as [target|] eqn:Hwho; [|apply Hsend].
    destruct (Hfound a target Hwho) as (tcl & tm & p & Htcl & Htm & Hp).
    rewrite (bind_some _ _ _ _ _ (load_some _ _ _ Htcl)).
    rewrite (bind_some _ _ _ _ _ (Fingerprint_some _ _ _ _ Htcl Hp)).
    apply Hsend. }
  assert (Htold : forall target (tcl : Client Terminal) text tr,
            clients w !! target = Some tcl ->
            line_frame c w (mkWorld (<[target := set_term (Some text) tcl]> (clients w)) tr)).
  { intros target tcl text tr Htcl.
    apply (frame_update c target w tcl _ _ Htcl); [|reflexivity|left; reflexivity].
    unfold kept. simpl. repeat split; eauto. }
  assert (Hban : forall a,
            exists w',
              match Who srv a with
              | Some client =>
                  fingerprint ← Fingerprint client;
                  cl ← load c;
                  Write client ("-> Banned by " +:+ Name cl +:+ ".") ;;
                  emit (Server_Ban fingerprint) ;;
                  found ← load client;
                  store client (set_Closed found) ;;
                  cl ← load c;
                  emit (Server_Broadcast ("* " +:+ a +:+ " was banned by " +:+ Name cl) None)
              | None => send c ("-> No such name: " +:+ a)
              end w = Some (tt, w') /\ line_frame c w w').
  { intros a. destruct (Who srv a) as [target|] eqn:Hwho; [|apply Hsend].
    destruct (Hfound a target Hwho) as (tcl & tm & p & Htcl & Htm & Hp).
    eexists. split; [apply (ban_then_announce c target a w cl tcl tm p Hc Htcl Htm Hp)|].
    apply (frame_update c target w tcl _ _ Htcl); [|reflexivity|left; reflexivity].
    unfold kept. simpl. repeat split; eauto. }
  assert (Hop : forall a,
            exists w',
              match Who srv a with
              | Some client =>
                  fingerprint ← Fingerprint client;
                  cl ← load c;
                  Write client ("-> Made op by " +:+ Name cl +:+ ".") ;;
                  emit (Server_Op fingerprint)
              | None => send c ("-> No such name: " +:+ a)
              end w = Some (tt, w') /\ line_frame c w w').
  { intros a. destruct (Who srv a) as [target|] eqn:Hwho; [|apply Hsend].
    destruct (Hfound a target Hwho) as (tcl & tm & p & Htcl & Htm & Hp).
    eexists. split; [apply (op_then_tell c target w cl tcl tm p Hc Htcl Htm Hp)|].
    apply Htold, Htcl. }
  assert (Hsilence : forall a (d : Duration),
            exists w',
              match Who srv a with
              | Some client =>
                  Silence client d now ;;
                  cl ← load c;
                  Write client ("-> Silenced for " +:+ Duration_String d +:+ " by "
                                +:+ Name cl +:+ ".")
              | None => send c ("-> No such name: " +:+ a)
              end w = Some (tt, w') /\ line_frame c w w').
  { intros a d. destruct (Who srv a) as [target|] eqn:Hwho; [|apply Hsend].
    destruct (Hfound a target Hwho) as (tcl & tm & p & Htcl & Htm & Hp).
    eexists. split; [apply (silence_then_tell c target d now w cl tcl tm Hc Htcl Htm)|].
    apply (frame_update c target w tcl _ _ Htcl); [|reflexivity|left; reflexivity].
    unfold kept. simpl. repeat split; eauto. }
  destruct rest as [|a [|b r]];
    unfold index; cbn [lookup list_lookup length Nat.eqb Nat.leb Nat.ltb];
    rewrite ?bind_ret.
  all: destruct (String.eqb verb "/nick"); [first [apply Hsend|apply Hemit]|].
  all: destruct (String.eqb verb "/whois"); [first [apply Hsend|apply Hwhois]|].
  all: destruct (String.eqb verb "/list"); [apply Hsend|].
  all: destruct (String.eqb verb "/ban");
    [destruct (IsOp srv c); cbn [negb]; first [apply Hsend|apply Hban]|].
  all: destruct (String.eqb verb "/op");
    [destruct (IsOp srv c); cbn [negb]; first [apply Hsend|apply Hop]|].
  all: destruct (String.eqb verb "/silence"); [|apply Hsend].
  all: destruct (IsOp srv c); cbn [negb]; try (apply Hsend).
  all: try (destruct (ParseDuration b) as [parsed|]); rewrite ?bind_ret.
  all: apply Hsilence.
Qed.

Lemma frame_equipped (c : nat) w w' :
  line_frame c w w' -> equipped w -> equipped w'.
Proof.
  intros [Hnone Hsome] Heq c' cl' Hc'.
  destruct (clients w !! c') as [cl0|] eqn:H0.
  - destruct (Hsome c' cl0 H0) as (cl'' & Hc'' & Hkept & _).
    rewrite Hc' in Hc''. inversion Hc''; subst cl''.
    destruct (Heq c' cl0 H0) as [Hterm Hperm].
    destruct Hkept as (_ & _ & _ & _ & _ & _ & Hp & Ht).
    split; [apply Ht, Hterm|rewrite Hp; exact Hperm].
  - rewrite (Hnone c' H0) in Hc'. discriminate.
Qed.

Lemma frame_present (c c' : nat) w w' :
  line_frame c w w' -> is_Some (clients w !! c') -> is_Some (clients w' !! c').
Proof.
  intros [_ Hsome] [cl0 H0]. destruct (Hsome c' cl0 H0) as (cl' & Hc' & _). eauto.
Qed.

(** X8. Handling a line never panics in a world where every client has
    a terminal and permissions and the server names only clients of the
    store, whatever the line; and it leaves such a world. *)
Theorem line_never_panics (c channel : nat) (srv : ServerView) (now : Time)
    (line : string) w :
  equipped w ->
  knows srv w ->
  is_Some (clients w !! c) ->
  exists w', handleShell_line c channel srv now line w = Some (tt, w')
             /\ equipped w' /\ knows srv w' /\ is_Some (clients w' !! c).
Proof.
  intros Heq Hknows [cl Hc].
  destruct (line_outcome c channel srv now line w cl Heq Hknows Hc) as (w' & Hrun & Hframe).
  exists w'. split; [exact Hrun|]. split; [|split].
  - apply (frame_equipped c w w' Hframe Heq).
  - intros name target Hwho.
    apply (frame_present c target w w' Hframe), (Hknows name target Hwho).
  - apply (frame_present c c w w' Hframe). eauto.
Qed.


Lemma handleShell_loop_runs (c channel : nat) (turns : list (Turn (Terminal := Terminal))) :
  forall w,
  equipped w ->
  is_Some (clients w !! c) ->
  Forall (fun t => forall w0, equipped w0 -> is_Some (clients w0 !! c) ->
                     equipped (elsewhere t w0)
                     /\ is_Some (clients (elsewhere t w0) !! c)
                     /\ knows (answers t) (elsewhere t w0)) turns ->
  exists w', handleShell_loop c channel turns w = Some (tt, w')
             /\ equipped w' /\ is_Some (clients w' !! c).
Proof.
  induction turns as [|t turns IH]; intros w Heq Hc Hturns.
  - exists w. auto.
  - inversion Hturns as [|t' turns' Ht Hrest]; subst.
    destruct (Ht w Heq Hc) as (Heq1 & [cl1 Hc1] & Hknows1).
    destruct (line_outcome c channel (answers t) (clock t) (input t) (elsewhere t w) cl1
                Heq1 Hknows1 Hc1) as (w2 & Hrun & Hframe).
    destruct (IH w2 (frame_equipped c _ _ Hframe Heq1)
                 (frame_present c c _ _ Hframe (ex_intro _ cl1 Hc1)) Hrest)
      as (w' & Hloop & Heq' & Hc').
    exists w'. split; [|auto].
    simpl. unfold mbind at 1, M_bind at 1.
    rewrite (bind_some _ _ _ _ _ Hrun). exact Hloop.
Qed.

(** X10. The command loop as a whole: when what happens elsewhere
    between two lines leaves every client with a terminal and permissions,
    leaves the session in the store, and the server names only clients of
    the store, [handleShell] handles every line without a panic, and the
    last thing it does is to close its channel. *)
Theorem handleShell_runs_to_close (c channel : nat) (turns : list (Turn (Terminal := Terminal))) w :
  equipped w ->
  is_Some (clients w !! c) ->
  Forall (fun t => forall w0, equipped w0 -> is_Some (clients w0 !! c) ->
                     equipped (elsewhere t w0)
                     /\ is_Some (clients (elsewhere t w0) !! c)
                     /\ knows (answers t) (elsewhere t w0)) turns ->
  exists w' tr, handleShell c channel turns w = Some (tt, w')
                /\ trace w' = tr ++ [Channel_Close channel]
                /\ equipped w' /\ is_Some (clients w' !! c).
Proof.
  intros Heq Hc Hturns. unfold handleShell.
  rewrite !(bind_some _ _ _ _ _ (emit_some _ _)).
  match goal with |- context [(_ ≫= _) ?w0] => set (w1 := w0) end.
  destruct (handleShell_loop_runs c channel turns w1 Heq Hc Hturns)
    as (w2 & Hloop & Heq2 & Hc2).
  rewrite (bind_some _ _ _ _ _ Hloop).
  eexists; exists (trace w2). split; [reflexivity|]. simpl. auto.
Qed.

(** *** Chat, silence and names together *)

(** The outcome of a line of chat. *)
Lemma chat_outcome (c channel : nat) (srv : ServerView) (now : Time) (line : string) w cl :
  GoStrings.HasPrefix line "/" = false ->
  clients w !! c = Some cl ->
  handleShell_line c channel srv now line w =
    if Time_After (silencedUntil cl) now
       || (1000 <? Z.of_nat (String.length (Name cl +:+ ": " +:+ line)))
    then Some (tt, notified c cl "-> Message rejected." w)
    else Some (tt, mkWorld (clients w)
                           (trace w ++ [Server_Broadcast (Name cl +:+ ": " +:+ line) (Some c)])).
Proof.
  intros Hsigil Hc.
  destruct (SplitN_verb line) as (verb & rest & Hparts & Hverb).
  unfold handleShell_line, index. rewrite Hparts. simpl.
  rewrite bind_ret, Hverb, Hsigil.
  rewrite (bind_some _ _ _ _ _ (load_some _ _ _ Hc)).
  rewrite (bind_some _ _ _ _ _ (rejected_some _ now _ _ _ Hc)).
  destruct (_ || _); [apply send_some, Hc|reflexivity].
Qed.

Lemma length_append (a b : string) :
  String.length (a +:+ b) = (String.length a + String.length b)%nat.
Proof.
  induction a as [|x a IH]; [reflexivity|].
  rewrite append_cons. simpl. rewrite IH. reflexivity.
Qed.

(** X17. The cap of 1000 bytes is on the message with the name in front
    of it: a client who is not silenced gets a line of chat broadcast
    exactly when the length of its name and the length of the line add up
    to 998 at most, and gets it rejected otherwise. *)
Theorem chat_length_limit (c channel : nat) (srv : ServerView) (now : Time)
    (line : string) w cl :
  GoStrings.HasPrefix line "/" = false ->
  clients w !! c = Some cl ->
  Time_After (silencedUntil cl) now = false ->
  ((String.length (Name cl) + String.length line <= 998)%nat ->
   handleShell_line c channel srv now line w =
     Some (tt, mkWorld (clients w)
                       (trace w ++ [Server_Broadcast (Name cl +:+ ": " +:+ line) (Some c)])))
  /\ ((998 < String.length (Name cl) + String.length line)%nat ->
      handleShell_line c channel srv now line w =
        Some (tt, notified c cl "-> Message rejected." w)).
Proof.
  intros Hsigil Hc Hfree.
  rewrite (chat_outcome c channel srv now line w cl Hsigil Hc), Hfree.
  rewrite !length_append. change (String.length ": ") with 2%nat. simpl orb.
  split; intros Hlen;
    match goal with |- context [1000 <? ?x] => destruct (Z.ltb_spec 1000 x) end;
    first [reflexivity|lia].
Qed.

(** X18. Silence is checked when a line is sent, against the clock of
    that moment: after [Silence(d)] at [now], a line of chat of
    acceptable length is rejected at every instant before [now + d] and is
    broadcast again from the instant [now + d] on, with no further
    action. *)
Theorem silence_blocks_chat_until_expiry (c channel : nat) (srv : ServerView)
    (d : Duration) (now t : Time) (line : string) w cl :
  GoStrings.HasPrefix line "/" = false ->
  clients w !! c = Some cl ->
  (String.length (Name cl) + String.length line <= 998)%nat ->
  let cl1 := set_silencedUntil (now + d) cl in
  let w1 := mkWorld (<[c := cl1]> (clients w)) (trace w) in
  Silence c d now w = Some (tt, w1)
  /\ (t < now + d ->
      handleShell_line c channel srv t line w1 =
        Some (tt, notified c cl1 "-> Message rejected." w1))
  /\ (now + d <= t ->
      handleShell_line c channel srv t line w1 =
        Some (tt, mkWorld (clients w1)
                          (trace w1 ++ [Server_Broadcast (Name cl +:+ ": " +:+ line) (Some c)]))).
Proof.
  intros Hsigil Hc Hlen cl1 w1.
  assert (Hc1 : clients w1 !! c = Some cl1) by apply lookup_insert_eq.
  assert (Hshort : (1000 <? Z.of_nat (String.length (Name cl1 +:+ ": " +:+ line))) = false).
  { rewrite !length_append. change (String.length ": ") with 2%nat.
    change (Name cl1) with (Name cl).
    match goal with |- context [1000 <? ?x] => destruct (Z.ltb_spec 1000 x) end;
      [lia|reflexivity]. }
  split; [apply Silence_some, Hc|].
  rewrite (chat_outcome c channel srv t line w1 cl1 Hsigil Hc1), Hshort.
  change (silencedUntil cl1) with (now + d). unfold Time_After.
  split; intros Ht.
  - destruct (Z.ltb_spec t (now + d)); [reflexivity|lia].
  - destruct (Z.ltb_spec t (now + d)); [lia|reflexivity].
Qed.

(** X19. [Rename] needs a terminal: on a client without one it panics.
    On a client with one it changes the name and the prompt of the
    terminal and nothing else, and what the client says next goes out
    under the new name. *)
Theorem rename_then_chat (c channel : nat) (srv : ServerView) (now : Time)
    (name line : string) w cl :
  clients w !! c = Some cl ->
  (term cl = None -> Rename c name w = None)
  /\ (forall t : Terminal,
        term cl = Some t ->
        GoStrings.HasPrefix line "/" = false ->
        Time_After (silencedUntil cl) now = false ->
        (String.length name + String.length line <= 998)%nat ->
        let cl1 := set_term (Some (term_SetPrompt t ("[" +:+ name +:+ "] ")))
                            (set_Name name cl) in
        let w1 := mkWorld (<[c := cl1]> (clients w)) (trace w) in
        Rename c name w = Some (tt, w1)
        /\ handleShell_line c channel srv now line w1 =
             Some (tt, mkWorld (clients w1)
                               (trace w1
                                ++ [Server_Broadcast (name +:+ ": " +:+ line) (Some c)]))).
Proof.
  intros Hc.
  assert (Hstep : Rename c name w =
                  (cl' ← load c;
                   t ← deref (term cl');
                   store c (set_term (Some (term_SetPrompt t ("[" +:+ name +:+ "] "))) cl'))
                    (mkWorld (<[c := set_Name name cl]> (clients w)) (trace w))).
  { unfold Rename. rewrite (bind_some _ _ _ _ _ (load_some _ _ _ Hc)). reflexivity. }
  assert (H1 : clients (mkWorld (<[c := set_Name name cl]> (clients w)) (trace w)) !! c
               = Some (set_Name name cl)) by apply lookup_insert_eq.
  rewrite (bind_some _ _ _ _ _ (load_some _ _ _ H1)) in Hstep. simpl in Hstep.
  split.
  - intros Hnil. rewrite Hstep, Hnil. reflexivity.
  - intros t Ht Hsigil Hfree Hlen cl1 w1.
    assert (Hc1 : clients w1 !! c = Some cl1) by apply lookup_insert_eq.
    split.
    + rewrite Hstep, Ht. unfold deref. rewrite bind_ret.
      unfold store, w1. simpl. rewrite insert_insert_eq. reflexivity.
    + rewrite (chat_outcome c channel srv now line w1 cl1 Hsigil Hc1).
      change (silencedUntil cl1) with (silencedUntil cl). rewrite Hfree.
      change (Name cl1) with name.
      rewrite !length_append. change (String.length ": ") with 2%nat. simpl orb.
      match goal with |- context [1000 <? ?x] => destruct (Z.ltb_spec 1000 x) end;
        [lia|reflexivity].
Qed.

(** *** Who may moderate, and what a notice looks like *)

Lemma arrow_prefix (x : string) : GoStrings.HasPrefix ("-> " +:+ x) "-> " = true.
Proof. destruct x; reflexivity. Qed.

(** Every line ends in one of four ways: an event that is no ban and no
    op; one notice, which starts with the arrow, on the issuer's mailbox;
    text on the issuer's own terminal; or, for an operator alone, a change
    to a target that leaves the target's mailbox as it was. *)
Lemma line_cases (c channel : nat) (srv : ServerView) (now : Time) (line : string) w cl
    (Q : World Terminal -> Prop) :
  equipped w ->
  knows srv w ->
  clients w !! c = Some cl ->
  (forall e, plain e -> Q (mkWorld (clients w) (trace w ++ [e]))) ->
  (forall msg, GoStrings.HasPrefix msg "-> " = true -> Q (notified c cl msg w)) ->
  (forall t : Terminal, Q (mkWorld (<[c := set_term (Some t) cl]> (clients w)) (trace w))) ->
  (IsOp srv c = true ->
   forall target (tcl tcl' : Client Terminal) tr,
     clients w !! target = Some tcl -> kept tcl tcl' -> Msg tcl' = Msg tcl ->
     Q (mkWorld (<[target := tcl']> (clients w)) (trace w ++ tr))) ->
  exists w', handleShell_line c channel srv now line w = Some (tt, w') /\ Q w'.
Proof.
  intros Heq Hknows Hc Qevent Qnotice Qlines Qmod.
  assert (Hsend : forall msg, GoStrings.HasPrefix msg "-> " = true ->
            exists w', send c msg w = Some (tt, w') /\ Q w').
  { intros msg Hmsg. eexists. split; [apply send_some, Hc|apply Qnotice, Hmsg]. }
  assert (Hemit : forall e, plain e -> exists w', emit e w = Some (tt, w') /\ Q w').
  { intros e He. eexists. split; [reflexivity|apply Qevent, He]. }
  assert (Hgate : forall msg e, plain e ->
            exists w', (reject ← rejected c now msg;
                        if (reject : bool) then send c "-> Message rejected."
                        else emit e) w = Some (tt, w') /\ Q w').
  { intros msg e He. rewrite (bind_some _ _ _ _ _ (rejected_some _ now msg _ _ Hc)).
    destruct (_ || _); [apply Hsend; first [reflexivity|apply arrow_prefix]|apply Hemit, He]. }
  assert (Hlines : forall lines,
            exists w', WriteLines c lines w = Some (tt, w') /\ Q w').
  { intros lines. destruct (Heq c cl Hc) as [[t Ht] _].
    eexists. split; [apply (WriteLines_some c lines w cl t Hc Ht)|apply Qlines]. }
  assert (Hfound : forall name target,
            Who srv name = Some target ->
            exists tcl tm p, clients w !! target = Some tcl /\ term tcl = Some tm
                             /\ Permissions (Conn tcl) = Some p).
  { intros name target Hwho. destruct (Hknows name target Hwho) as [tcl Htcl].
    destruct (Heq target tcl Htcl) as [[tm Htm] [p Hp]]. exists tcl, tm, p. auto. }
  assert (Hwhois : forall a,
            exists w',
              match Who srv a with
              | Some client =>
                  target ← load client;
                  fingerprint ← Fingerprint client;
                  send c ("-> " +:+ Name target +:+ " is " +:+ fingerprint +:+ " via "
                          +:+ (if 100 <? Z.of_nat (String.length (ClientVersion (Conn target)))
                               then "Evil Jerk with a superlong string"%string
                               else ClientVersion (Conn target)))
              | None => send c ("-> No such name: " +:+ a)
              end w = Some (tt, w') /\ Q w').
  { intros a. destruct (Who srv a) as [target|] eqn:Hwho; [|apply Hsend; first [reflexivity|apply arrow_prefix]].
    destruct (Hfound a target Hwho) as (tcl & tm & p & Htcl & Htm & Hp).
    rewrite (bind_some _ _ _ _ _ (load_some _ _ _ Htcl)).
    rewrite (bind_some _ _ _ _ _ (Fingerprint_some _ _ _ _ Htcl Hp)).
    apply Hsend. apply arrow_prefix. }
  assert (Hban : IsOp srv c = true -> forall a,
            exists w',
              match Who srv a with
              | Some client =>
                  fingerprint ← Fingerprint client;
                  cl ← load c;
                  Write client ("-> Banned by " +:+ Name cl +:+ ".") ;;
                  emit (Server_Ban fingerprint) ;;
                  found ← load client;
                  store client (set_Closed found) ;;
                  cl ← load c;
                  emit (Server_Broadcast ("* " +:+ a +:+ " was banned by " +:+ Name cl) None)
              | None => send c ("-> No such name: " +:+ a)
              end w = Some (tt, w') /\ Q w').
  { intros Hisop a. destruct (Who srv a) as [target|] eqn:Hwho; [|apply Hsend; first [reflexivity|apply arrow_prefix]].
    destruct (Hfound a target Hwho) as (tcl & tm & p & Htcl & Htm & Hp).
    eexists. split; [apply (ban_then_announce c target a w cl tcl tm p Hc Htcl Htm Hp)|].
    apply (Qmod Hisop target tcl _ _ Htcl); [|reflexivity].
    unfold kept. simpl. repeat split; eauto. }
  assert (Hop : IsOp srv c = true -> forall a,
            exists w',
              match Who srv a with
              | Some client =>
                  fingerprint ← Fingerprint client;
                  cl ← load c;
                  Write client ("-> Made op by " +:+ Name cl +:+ ".") ;;
                  emit (Server_Op fingerprint)
              | None => send c ("-> No such name: " +:+ a)
              end w = Some (tt, w') /\ Q w').
  { intros Hisop a. destruct (Who srv a) as [target|] eqn:Hwho; [|apply Hsend; first [reflexivity|apply arrow_prefix]].
    destruct (Hfound a target Hwho) as (tcl & tm & p & Htcl & Htm & Hp).
    eexists. split; [apply (op_then_tell c target w cl tcl tm p Hc Htcl Htm Hp)|].
    apply (Qmod Hisop target tcl _ _ Htcl); [|reflexivity].
    unfold kept. simpl. repeat split; eauto. }
  assert (Hsilence : IsOp srv c = true -> forall a (d : Duration),
            exists w',
              match Who srv a with
              | Some client =>
                  Silence client d now ;;
                  cl ← load c;
                  Write client ("-> Silenced for " +:+ Duration_String d +:+ " by "
                                +:+ Name cl +:+ ".")
              | None => send c ("-> No such name: " +:+ a)
              end w = Some (tt, w') /\ Q w').
  { intros Hisop a d. destruct (Who srv a) as [target|] eqn:Hwho; [|apply Hsend; first [reflexivity|apply arrow_prefix]].
    destruct (Hfound a target Hwho) as (tcl & tm & p & Htcl & Htm & Hp).
    eexists. split; [apply (silence_then_tell c target d now w cl tcl tm Hc Htcl Htm)|].
    rewrite <- (app_nil_r (trace w)).
    apply (Qmod Hisop target tcl _ [] Htcl); [|reflexivity].
    unfold kept. simpl. repeat split; eauto. }
  destruct (SplitN_verb line) as (verb & rest & Hparts & _).
  unfold handleShell_line. rewrite Hparts.
  change (index (verb :: rest) 0) with (mret (M := M Terminal) verb). rewrite bind_ret.
  destruct (GoStrings.HasPrefix verb "/").
  2: { rewrite (bind_some _ _ _ _ _ (load_some _ _ _ Hc)). apply Hgate. exact I. }
  destruct (String.eqb verb "/exit"); [apply Hemit; exact I|].
  destruct (String.eqb verb "/help"); [apply Hlines|].
  destruct (String.eqb verb "/about"); [apply Hlines|].
  destruct (String.eqb verb "/me").
  { rewrite (bind_some _ _ _ _ _ (load_some _ _ _ Hc)). apply Hgate. exact I. }
  destruct rest as [|a [|b r]];
    unfold index; cbn [lookup list_lookup length Nat.eqb Nat.leb Nat.ltb];
    rewrite ?bind_ret.
  all: destruct (String.eqb verb "/nick");
    [first [apply Hsend; first [reflexivity|apply arrow_prefix]|apply Hemit; exact I]|].
  all: destruct (String.eqb verb "/whois"); [first [apply Hsend; first [reflexivity|apply arrow_prefix]|apply Hwhois]|].
  all: destruct (String.eqb verb "/list"); [apply Hsend; first [reflexivity|apply arrow_prefix]|].
  all: destruct (String.eqb verb "/ban");
    [destruct (IsOp srv c) eqn:Hisop; cbn [negb];
     first [apply Hsend; first [reflexivity|apply arrow_prefix]|apply (Hban eq_refl)]|].
  all: destruct (String.eqb verb "/op");
    [destruct (IsOp srv c) eqn:Hisop; cbn [negb];
     first [apply Hsend; first [reflexivity|apply arrow_prefix]|apply (Hop eq_refl)]|].
  all: destruct (String.eqb verb "/silence"); [|apply Hsend; first [reflexivity|apply arrow_prefix]].
  all: destruct (IsOp srv c) eqn:Hisop; cbn [negb]; try (apply Hsend; first [reflexivity|apply arrow_prefix]).
  all: try (destruct (ParseDuration b) as [parsed|]); rewrite ?bind_ret.
  all: apply (Hsilence eq_refl).
Qed.

(** X21. A client who is not an operator moderates nobody, whatever it
    types: no line of it asks the server for a ban or an op, and none
    changes until when anybody is silenced. *)
Theorem non_operator_cannot_moderate (c channel : nat) (srv : ServerView) (now : Time)
    (line : string) w :
  equipped w ->
  knows srv w ->
  is_Some (clients w !! c) ->
  IsOp srv c = false ->
  exists w', handleShell_line c channel srv now line w = Some (tt, w')
             /\ unmoderated w w'.
Proof.
  intros Heq Hknows [cl Hc] Hisop.
  assert (Hown : forall (cl' : Client Terminal) tr,
            moderations tr = moderations (trace w) ->
            silencedUntil cl' = silencedUntil cl ->
            unmoderated w (mkWorld (<[c := cl']> (clients w)) tr)).
  { intros cl' tr Htr Hsil. split; [exact Htr|].
    intros c' cl0 H0. simpl. destruct (decide (c = c')) as [<-|Hne].
    - rewrite lookup_insert_eq. rewrite Hc in H0. inversion H0; subst cl0.
      exists cl'. repeat split; auto.
    - rewrite lookup_insert_ne by exact Hne. exists cl0. auto. }
  apply (line_cases c channel srv now line w cl (unmoderated w) Heq Hknows Hc).
  - intros e He. split.
    + simpl. clear -He. induction (trace w) as [|x tr IH]; simpl.
      * destruct e; simpl in *; tauto.
      * destruct x; simpl; rewrite ?IH; reflexivity.
    + intros c' cl0 H0. exists cl0. simpl. auto.
  - intros msg _. apply Hown; reflexivity.
  - intros t. apply Hown; reflexivity.
  - intros Hyes. congruence.
Qed.

(** The trace only grows, by events that are all there is to say of the
    line beyond the store. *)
Lemma line_cases_trace (c channel : nat) (srv : ServerView) (now : Time) (line : string)
    w cl (P : World Terminal -> Prop) :
  equipped w ->
  knows srv w ->
  clients w !! c = Some cl ->
  (forall tr, P (mkWorld (clients w) tr)) ->
  (forall msg, GoStrings.HasPrefix msg "-> " = true -> P (notified c cl msg w)) ->
  (forall (t : Terminal) tr, P (mkWorld (<[c := set_term (Some t) cl]> (clients w)) tr)) ->
  (forall target (tcl tcl' : Client Terminal) tr,
     clients w !! target = Some tcl -> kept tcl tcl' -> Msg tcl' = Msg tcl ->
     P (mkWorld (<[target := tcl']> (clients w)) tr)) ->
  exists w' tr,
    handleShell_line c channel srv now line w = Some (tt, w')
    /\ trace w' = trace w ++ tr
    /\ (Forall stays tr -> P w').
Proof.
  intros Heq Hknows Hc Ptrace Pnotice Plines Pmod.
  enough (Hrun : exists w', handleShell_line c channel srv now line w = Some (tt, w')
                   /\ exists tr, trace w' = trace w ++ tr /\ (Forall stays tr -> P w')).
  { destruct Hrun as (w' & Hrun & tr & Htr & HP). exists w', tr. auto. }
  apply (line_cases c channel srv now line w cl
           (fun w' => exists tr, trace w' = trace w ++ tr /\ (Forall stays tr -> P w'))
           Heq Hknows Hc).
  - intros e _. exists [e]. split; [reflexivity|]. intros _. apply Ptrace.
  - intros msg Hmsg. exists []. split; [symmetry; apply app_nil_r|].
    intros _. apply Pnotice, Hmsg.
  - intros t. exists []. split; [symmetry; apply app_nil_r|]. intros _. apply Plines.
  - intros _ target tcl tcl' tr Htcl Hkept Hmsg. exists tr. split; [reflexivity|].
    intros _. apply (Pmod target tcl tcl' _ Htcl Hkept Hmsg).
Qed.

(** X9. Whatever the line, apart from the broadcasts and the renames
    that it hands to the server, its handling adds no client and removes
    none, changes nobody's name, operator flag, stored terminal size or
    connection identity, takes nobody's terminal away, leaves the mailbox
    of every other client as it was, and puts at most one notice on the
    issuer's own: a line that ends in no [Broadcast] and no [Rename]
    leaves the store within this frame. *)
Theorem line_touches_little (c channel : nat) (srv : ServerView) (now : Time)
    (line : string) w :
  equipped w ->
  knows srv w ->
  is_Some (clients w !! c) ->
  exists w' tr,
    handleShell_line c channel srv now line w = Some (tt, w')
    /\ trace w' = trace w ++ tr
    /\ (Forall stays tr -> line_frame c w w').
Proof.
  intros Heq Hknows [cl Hc].
  apply (line_cases_trace c channel srv now line w cl (line_frame c w) Heq Hknows Hc).
  - intros tr. apply frame_trace.
  - intros msg _. apply frame_notified, Hc.
  - intros t tr. apply (frame_update c c w cl _ _ Hc); [|reflexivity|left; reflexivity].
    unfold kept. simpl. repeat split; eauto.
  - intros target tcl tcl' tr Htcl Hkept Hmsg.
    apply (frame_update c target w tcl tcl' _ Htcl Hkept); auto.
Qed.

(** X22. Whatever the line, apart from what a broadcast that it hands
    to the server may bring back, the issuer finds in its mailbox
    afterwards what was there before and at most one more thing, a notice
    that starts with the arrow [-> ]: so it is after every line that ends
    in no [Broadcast] and no [Rename]. *)
Theorem notices_start_with_arrow (c channel : nat) (srv : ServerView) (now : Time)
    (line : string) w :
  equipped w ->
  knows srv w ->
  is_Some (clients w !! c) ->
  exists w' tr,
    handleShell_line c channel srv now line w = Some (tt, w')
    /\ trace w' = trace w ++ tr
    /\ (Forall stays tr -> answered c w w').
Proof.
  intros Heq Hknows [cl Hc].
  apply (line_cases_trace c channel srv now line w cl (answered c w) Heq Hknows Hc).
  - intros tr cl0 H0. exists cl0. simpl. auto.
  - intros msg Hmsg cl0 H0. rewrite Hc in H0. inversion H0; subst cl0.
    eexists. split; [apply lookup_insert_eq|]. right. exists msg. auto.
  - intros t tr cl0 H0. rewrite Hc in H0. inversion H0; subst cl0.
    eexists. split; [apply lookup_insert_eq|]. left. reflexivity.
  - intros target tcl tcl' tr Htcl _ Hmsg cl0 H0. simpl.
    destruct (decide (target = c)) as [->|Hne].
    + rewrite lookup_insert_eq. rewrite Htcl in H0. inversion H0; subst cl0.
      exists tcl'. auto.
    + rewrite lookup_insert_ne by exact Hne. exists cl0. auto.
Qed.

End Commands.

(** ** The dispatcher over a whole connection *)

Section Connection.
Context {Terminal : Type} `{!TerminalOps Terminal} `{!PtyOps}.
Implicit Types (w : World Terminal) (cl : Client Terminal).

Lemma closes_app (a b : list Event) : closes (a ++ b) = closes a ++ closes b.
Proof.
  induction a as [|e a IH]; [reflexivity|].
  destruct e; simpl; rewrite IH; reflexivity.
Qed.

Lemma rejections_app (a b : list Event) : rejections (a ++ b) = rejections a ++ rejections b.
Proof.
  induction a as [|e a IH]; [reflexivity|].
  destruct e; simpl; rewrite IH; reflexivity.
Qed.

Lemma session_kept_refl cl : session_kept cl cl.
Proof. unfold session_kept. tauto. Qed.

Lemma session_kept_trans cl0 cl1 cl2 :
  session_kept cl0 cl1 -> session_kept cl1 cl2 -> session_kept cl0 cl2.
Proof. unfold session_kept. intuition congruence. Qed.

(** What one request does and does not, in three steps. *)
Lemma resize_frame c (width height : Z) (hasShell wantReply : bool) w cl (t : Terminal) :
  clients w !! c = Some cl ->
  term cl = Some t ->
  exists w' cl',
    ((resized ← Resize c width height; mret (resized, hasShell)) ≫=
     (fun r : bool * bool =>
        (if wantReply then emit (Request_Reply (fst r)) else mret tt) ;; mret (snd r))) w
    = Some (hasShell, w')
    /\ clients w' = <[c := cl']> (clients w)
    /\ session_kept cl cl'
    /\ is_Some (term cl')
    /\ closes (trace w') = closes (trace w)
    /\ rejections (trace w') = rejections (trace w)
    /\ length (replies (trace w'))
       = (length (replies (trace w)) + (if wantReply then 1 else 0))%nat.
Proof.
  intros Hc Ht.
  pose proof (Resize_some c width height w cl t Hc Ht) as HR.
  unfold mbind, M_bind, mret, M_ret. rewrite HR.
  destruct (snd (term_SetSize t width height)); destruct wantReply; unfold emit; simpl;
    eexists; eexists;
    (split; [reflexivity|]); (split; [reflexivity|]); simpl;
    rewrite ?closes_app, ?rejections_app, ?replies_app, ?length_app; simpl;
    rewrite ?app_nil_r; unfold session_kept; simpl; repeat split; eauto; lia.
Qed.

Lemma refuse_frame (c : nat) (hasShell wantReply : bool) w cl :
  clients w !! c = Some cl ->
  exists w',
    (mret (M := M Terminal) (false, hasShell) ≫=
     (fun r : bool * bool =>
        (if wantReply then emit (Request_Reply (fst r)) else mret tt) ;; mret (snd r))) w
    = Some (hasShell, w')
    /\ clients w' = clients w
    /\ closes (trace w') = closes (trace w)
    /\ rejections (trace w') = rejections (trace w)
    /\ replies (trace w') = replies (trace w) ++ (if wantReply then [false] else []).
Proof.
  intros Hc. destruct wantReply; unfold mbind, M_bind, emit, mret, M_ret; simpl;
    eexists; (split; [reflexivity|]); simpl;
    rewrite ?closes_app, ?rejections_app, ?replies_app; simpl;
    rewrite ?app_nil_r; auto.
Qed.

Lemma handleRequest_frame (c channel : nat) (hasShell : bool) (req : Request)
    w cl (t : Terminal) :
  clients w !! c = Some cl ->
  term cl = Some t ->
  exists hasShell' w' cl',
    handleRequest c channel hasShell req w = Some (hasShell', w')
    /\ clients w' = <[c := cl']> (clients w)
    /\ session_kept cl cl'
    /\ is_Some (term cl')
    /\ closes (trace w') = closes (trace w)
    /\ rejections (trace w') = rejections (trace w)
    /\ length (replies (trace w'))
       = (length (replies (trace w)) + (if WantReply req then 1 else 0))%nat.
Proof.
  intros Hc Ht.
  assert (Hid : clients w = <[c := cl]> (clients w)) by (symmetry; apply insert_id, Hc).
  assert (Hrefuse : exists hasShell' w' cl',
            (mret (M := M Terminal) (false, hasShell) ≫=
             (fun r : bool * bool =>
                (if WantReply req then emit (Request_Reply (fst r)) else mret tt) ;;
                mret (snd r))) w = Some (hasShell', w')
            /\ clients w' = <[c := cl']> (clients w)
            /\ session_kept cl cl'
            /\ is_Some (term cl')
            /\ closes (trace w') = closes (trace w)
            /\ rejections (trace w') = rejections (trace w)
            /\ length (replies (trace w'))
               = (length (replies (trace w)) + (if WantReply req then 1 else 0))%nat).
  { destruct (refuse_frame c hasShell (WantReply req) w cl Hc)
      as (w' & Hrun & Hcl & Hclose & Hrej & Hrep).
    exists hasShell, w', cl. rewrite Hcl, Hclose, Hrej, Hrep, length_app, Ht.
    split; [exact Hrun|]. split; [exact Hid|]. split; [apply session_kept_refl|].
    repeat split; eauto. destruct (WantReply req); reflexivity. }
  assert (Hresize : forall width height : Z, exists hasShell' w' cl',
            ((resized ← Resize c width height; mret (resized, hasShell)) ≫=
             (fun r : bool * bool =>
                (if WantReply req then emit (Request_Reply (fst r)) else mret tt) ;;
                mret (snd r))) w = Some (hasShell', w')
            /\ clients w' = <[c := cl']> (clients w)
            /\ session_kept cl cl'
            /\ is_Some (term cl')
            /\ closes (trace w') = closes (trace w)
            /\ rejections (trace w') = rejections (trace w)
            /\ length (replies (trace w'))
               = (length (replies (trace w)) + (if WantReply req then 1 else 0))%nat).
  { intros width height.
    destruct (resize_frame c width height hasShell (WantReply req) w cl t Hc Ht)
      as (w' & cl' & H'). exists hasShell, w', cl'. exact H'. }
  unfold handleRequest.
  destruct (String.eqb (Type_ req) "shell").
  { unfold mbind, M_bind, load. rewrite Hc, Ht. simpl.
    destruct hasShell, (WantReply req); unfold emit, mret, M_ret; simpl;
      eexists; eexists; exists cl; (split; [reflexivity|]); simpl;
      rewrite ?closes_app, ?rejections_app, ?replies_app, ?length_app, ?Ht; simpl;
      rewrite ?app_nil_r; (split; [exact Hid|]); (split; [apply session_kept_refl|]);
      repeat split; eauto; lia. }
  destruct (String.eqb (Type_ req) "pty-req").
  { destruct (parsePtyRequest (Payload req)) as [[width height] [|]];
      [apply Hresize|apply Hrefuse]. }
  destruct (String.eqb (Type_ req) "window-change").
  { destruct (parseWinchRequest (Payload req)) as [[width height] [|]];
      [apply Hresize|apply Hrefuse]. }
  apply Hrefuse.
Qed.

Lemma handleRequests_frame (c channel : nat) (requests : list Request) :
  forall (hasShell : bool) w cl (t : Terminal),
  clients w !! c = Some cl ->
  term cl = Some t ->
  exists hasShell' w' cl',
    handleRequests c channel hasShell requests w = Some (hasShell', w')
    /\ clients w' = <[c := cl']> (clients w)
    /\ session_kept cl cl'
    /\ is_Some (term cl')
    /\ closes (trace w') = closes (trace w)
    /\ rejections (trace w') = rejections (trace w)
    /\ length (replies (trace w')) = (length (replies (trace w)) + wanted requests)%nat.
Proof.
  induction requests as [|req requests IH]; intros hasShell w cl t Hc Ht.
  - exists hasShell, w, cl. simpl. rewrite Ht, Nat.add_0_r.
    split; [reflexivity|]. split; [symmetry; apply insert_id, Hc|].
    split; [apply session_kept_refl|]. repeat split; eauto.
  - destruct (handleRequest_frame c channel hasShell req w cl t Hc Ht)
      as (hs1 & w1 & cl1 & Hrun1 & Hcl1 & Hkept1 & [t1 Ht1] & Hclose1 & Hrej1 & Hrep1).
    assert (Hc1 : clients w1 !! c = Some cl1) by (rewrite Hcl1; apply lookup_insert_eq).
    destruct (IH hs1 w1 cl1 t1 Hc1 Ht1)
      as (hs2 & w2 & cl2 & Hrun2 & Hcl2 & Hkept2 & Hterm2 & Hclose2 & Hrej2 & Hrep2).
    exists hs2, w2, cl2.
    split.
    { change (handleRequests c channel hasShell (req :: requests))
        with (hasShell' ← handleRequest c channel hasShell req;
              handleRequests c channel hasShell' requests).
      rewrite (bind_some _ _ _ _ _ Hrun1). exact Hrun2. }
    split; [rewrite Hcl2, Hcl1; apply insert_insert_eq|].
    split; [apply (session_kept_trans _ _ _ Hkept1 Hkept2)|].
    split; [exact Hterm2|].
    split; [congruence|]. split; [congruence|].
    rewrite Hrep2, Hrep1. simpl. lia.
Qed.

Lemma handleChannel_frame (c : nat) (prompt : string) (hasShell : bool) (ch : NewChannel)
    w cl :
  clients w !! c = Some cl ->
  exists r w' cl',
    handleChannel c prompt hasShell ch w = Some (r, w')
    /\ snd r = fst <$> accepts ch
    /\ clients w' = <[c := cl']> (clients w)
    /\ session_kept cl cl'
    /\ (accepts ch = None -> cl' = cl)
    /\ (is_Some (accepts ch) -> is_Some (term cl'))
    /\ closes (trace w') = closes (trace w)
    /\ rejections (trace w')
       = rejections (trace w)
         ++ (if String.eqb (ChannelType ch) "session" then []
             else ["unknown channel type: " +:+ ChannelType ch])
    /\ length (replies (trace w'))
       = (length (replies (trace w))
          + match accepts ch with Some (_, requests) => wanted requests | None => 0 end)%nat.
Proof.
  intros Hc.
  assert (Hid : clients w = <[c := cl]> (clients w)) by (symmetry; apply insert_id, Hc).
  unfold handleChannel, accepts.
  destruct (String.eqb (ChannelType ch) "session"); simpl.
  - destruct (Accept ch) as [err|[channel requests]].
    + eexists; eexists; exists cl. split; [reflexivity|]. simpl.
      rewrite closes_app, rejections_app, replies_app. simpl.
      rewrite !app_nil_r, Nat.add_0_r.
      split; [reflexivity|]. split; [exact Hid|]. split; [apply session_kept_refl|].
      repeat split; auto. intros [x Hx]. discriminate.
    + rewrite (bind_some _ _ _ _ _ (load_some _ _ _ Hc)).
      set (cl0 := set_term (Some (NewTerminal channel prompt)) cl).
      set (w0 := mkWorld (<[c := cl0]> (clients w)) (trace w)).
      assert (Hc0 : clients w0 !! c = Some cl0) by apply lookup_insert_eq.
      destruct (handleRequests_frame c channel requests hasShell w0 cl0 _ Hc0 eq_refl)
        as (hs' & w' & cl' & Hrun & Hcl' & Hkept & Hterm & Hclose & Hrej & Hrep).
      exists (hs', Some channel), w', cl'.
      assert (Hstore : store c cl0 w = Some (tt, w0)) by reflexivity.
      rewrite (bind_some _ _ _ _ _ Hstore).
      rewrite (bind_some _ _ _ _ _ Hrun). simpl.
      split; [reflexivity|]. split; [reflexivity|].
      split; [rewrite Hcl'; unfold w0; simpl; apply insert_insert_eq|].
      split; [apply (session_kept_trans cl cl0 cl'); [|exact Hkept];
              unfold session_kept; simpl; tauto|].
      split; [discriminate|]. split; [auto|].
      rewrite app_nil_r. auto.
  - eexists; eexists; exists cl. split; [reflexivity|]. simpl.
    rewrite closes_app, rejections_app, replies_app. simpl.
    rewrite !app_nil_r, Nat.add_0_r.
    split; [reflexivity|]. split; [exact Hid|]. split; [apply session_kept_refl|].
    repeat split; auto. intros [x Hx]. discriminate.
Qed.

Lemma handleChannels_loop_frame (c : nat) (prompt : string) (channels : list NewChannel) :
  forall (hasShell : bool) (deferred : list nat) w cl,
  clients w !! c = Some cl ->
  exists r w' cl',
    handleChannels_loop c prompt hasShell deferred channels w = Some (r, w')
    /\ snd r = rev (accepted channels) ++ deferred
    /\ clients w' = <[c := cl']> (clients w)
    /\ session_kept cl cl'
    /\ (accepted channels = [] -> cl' = cl)
    /\ (accepted channels <> [] -> is_Some (term cl'))
    /\ closes (trace w') = closes (trace w)
    /\ rejections (trace w') = rejections (trace w) ++ refused channels
    /\ length (replies (trace w'))
       = (length (replies (trace w)) + wanted_all channels)%nat.
Proof.
  induction channels as [|ch channels IH]; intros hasShell deferred w cl Hc.
  - exists (hasShell, deferred), w, cl. simpl. rewrite app_nil_r, Nat.add_0_r.
    split; [reflexivity|]. split; [reflexivity|].
    split; [symmetry; apply insert_id, Hc|]. split; [apply session_kept_refl|].
    repeat split; auto. intros Hne; contradiction.
  - destruct (handleChannel_frame c prompt hasShell ch w cl Hc)
      as (r1 & w1 & cl1 & Hrun1 & Hacc1 & Hcl1 & Hkept1 & Hsame1 & Hterm1
          & Hclose1 & Hrej1 & Hrep1).
    assert (Hc1 : clients w1 !! c = Some cl1) by (rewrite Hcl1; apply lookup_insert_eq).
    destruct (IH (fst r1)
                 (match snd r1 with Some channel => channel :: deferred | None => deferred end)
                 w1 cl1 Hc1)
      as (r2 & w2 & cl2 & Hrun2 & Hdef2 & Hcl2 & Hkept2 & Hsame2 & Hterm2
          & Hclose2 & Hrej2 & Hrep2).
    exists r2, w2, cl2.
    split; [simpl; rewrite (bind_some _ _ _ _ _ Hrun1); exact Hrun2|].
    split.
    { rewrite Hdef2, Hacc1. simpl. unfold refused.
      destruct (accepts ch) as [[channel requests]|]; simpl; [|reflexivity].
      rewrite <- app_assoc. reflexivity. }
    split; [rewrite Hcl2, Hcl1; apply insert_insert_eq|].
    split; [apply (session_kept_trans _ _ _ Hkept1 Hkept2)|].
    split.
    { simpl. destruct (accepts ch) as [[channel requests]|]; [discriminate|].
      intros Hnone. rewrite (Hsame2 Hnone). apply Hsame1. reflexivity. }
    split.
    { simpl. intros Hsome.
      destruct (accepted channels) as [|x l] eqn:Hacc.
      - rewrite (Hsame2 eq_refl). apply Hterm1.
        destruct (accepts ch) as [[channel requests]|]; [eauto|contradiction].
      - apply Hterm2. discriminate. }
    split; [congruence|].
    split.
    { rewrite Hrej2, Hrej1, <- app_assoc. f_equal. simpl. unfold accepts.
      destruct (String.eqb (ChannelType ch) "session"); reflexivity. }
    rewrite Hrep2, Hrep1. simpl.
    destruct (accepts ch) as [[channel requests]|]; lia.
Qed.

Lemma closeAll_trace (deferred : list nat) :
  forall w, closeAll (Terminal := Terminal) deferred w
            = Some (tt, mkWorld (clients w) (trace w ++ map Channel_Close deferred)).
Proof.
  induction deferred as [|channel deferred IH]; intros w.
  - simpl. rewrite app_nil_r. destruct w; reflexivity.
  - change (closeAll (channel :: deferred))
      with (emit (Channel_Close channel) ;; closeAll (Terminal := Terminal) deferred).
    rewrite (bind_some _ _ _ _ _ (emit_some _ _)), IH. simpl.
    rewrite <- app_assoc. reflexivity.
Qed.

Lemma closes_map (l : list nat) : closes (map Channel_Close l) = l.
Proof. induction l as [|x l IH]; simpl; congruence. Qed.

Lemma replies_map (l : list nat) : replies (map Channel_Close l) = [].
Proof. induction l as [|x l IH]; simpl; congruence. Qed.

Lemma rejections_map (l : list nat) : rejections (map Channel_Close l) = [].
Proof. induction l as [|x l IH]; simpl; congruence. Qed.

(** The whole run of the dispatcher. *)
Lemma handleChannels_frame (c : nat) (channels : list NewChannel) w cl :
  clients w !! c = Some cl ->
  exists w' cl' tr,
    handleChannels c channels w = Some (tt, w')
    /\ clients w' = <[c := cl']> (clients w)
    /\ session_kept cl cl'
    /\ (accepted channels = [] -> cl' = cl)
    /\ (accepted channels <> [] -> is_Some (term cl'))
    /\ trace w' = tr ++ map Channel_Close (rev (accepted channels))
    /\ closes tr = closes (trace w)
    /\ rejections tr = rejections (trace w) ++ refused channels
    /\ length (replies tr) = (length (replies (trace w)) + wanted_all channels)%nat.
Proof.
  intros Hc. unfold handleChannels.
  rewrite (bind_some _ _ _ _ _ (load_some _ _ _ Hc)).
  destruct (handleChannels_loop_frame c ("[" +:+ Name cl +:+ "] ") channels false [] w cl Hc)
    as (r & w1 & cl1 & Hrun & Hdef & Hcl1 & Hkept & Hsame & Hterm & Hclose & Hrej & Hrep).
  rewrite (bind_some _ _ _ _ _ Hrun), closeAll_trace.
  rewrite Hdef, app_nil_r.
  eexists; exists cl1, (trace w1). split; [reflexivity|]. simpl. auto 10.
Qed.

(** X11. When [handleChannels] returns, its last actions are to close
    the channels that it accepted, each once, the latest first; it closes
    nothing before that, and never a channel that it rejected or could not
    accept. *)
Theorem accepted_channels_closed_last (c : nat) (channels : list NewChannel) w cl :
  clients w !! c = Some cl ->
  exists w' tr,
    handleChannels c channels w = Some (tt, w')
    /\ trace w' = tr ++ map Channel_Close (rev (accepted channels))
    /\ closes tr = closes (trace w)
    /\ closes (trace w') = closes (trace w) ++ rev (accepted channels).
Proof.
  intros Hc.
  destruct (handleChannels_frame c channels w cl Hc)
    as (w' & cl' & tr & Hrun & _ & _ & _ & _ & Htrace & Hclose & _).
  exists w', tr. repeat split; auto.
  rewrite Htrace, closes_app, closes_map, Hclose. reflexivity.
Qed.

(** X12. Over a whole run of [handleChannels], the requests that want a
    reply and arrive on an accepted session channel get one reply each,
    whatever their type and payload, and no other reply is sent. *)
Theorem every_wanted_reply_sent (c : nat) (channels : list NewChannel) w cl :
  clients w !! c = Some cl ->
  exists w',
    handleChannels c channels w = Some (tt, w')
    /\ length (replies (trace w'))
       = (length (replies (trace w)) + wanted_all channels)%nat.
Proof.
  intros Hc.
  destruct (handleChannels_frame c channels w cl Hc)
    as (w' & cl' & tr & Hrun & _ & _ & _ & _ & Htrace & _ & _ & Hrep).
  exists w'. split; [exact Hrun|].
  rewrite Htrace, replies_app, replies_map, app_nil_r. exact Hrep.
Qed.

(** X13. Every channel whose type is not [session] is rejected with a
    message that names its type, in order of arrival, and no other
    rejection is sent; a connection of which no channel is accepted
    leaves the store as it was. *)
Theorem other_channel_types_rejected (c : nat) (channels : list NewChannel) w cl :
  clients w !! c = Some cl ->
  exists w',
    handleChannels c channels w = Some (tt, w')
    /\ rejections (trace w') = rejections (trace w) ++ refused channels
    /\ (accepted channels = [] -> clients w' = clients w).
Proof.
  intros Hc.
  destruct (handleChannels_frame c channels w cl Hc)
    as (w' & cl' & tr & Hrun & Hcl' & _ & Hsame & _ & Htrace & _ & Hrej & _).
  exists w'. split; [exact Hrun|]. split.
  - rewrite Htrace, rejections_app, rejections_map, app_nil_r. exact Hrej.
  - intros Hnone. rewrite Hcl', (Hsame Hnone). apply insert_id, Hc.
Qed.

(** X14. [handleChannels] changes the session's terminal and the stored
    size of it, and nothing else: every other client is as it was, and the
    session keeps its connection, mailbox, name, flag and silence. Once a
    channel was accepted the session has a terminal. *)
Theorem dispatcher_keeps_session (c : nat) (channels : list NewChannel) w cl :
  clients w !! c = Some cl ->
  exists w' cl',
    handleChannels c channels w = Some (tt, w')
    /\ clients w' !! c = Some cl'
    /\ (forall c', c' <> c -> clients w' !! c' = clients w !! c')
    /\ session_kept cl cl'
    /\ (accepted channels <> [] -> is_Some (term cl')).
Proof.
  intros Hc.
  destruct (handleChannels_frame c channels w cl Hc)
    as (w' & cl' & tr & Hrun & Hcl' & Hkept & _ & Hterm & _).
  exists w', cl'. split; [exact Hrun|]. rewrite Hcl'.
  split; [apply lookup_insert_eq|].
  split; [intros c' Hne; apply lookup_insert_ne; congruence|]. auto.
Qed.

(** X15. A request of any other type than [shell], [pty-req] and
    [window-change] is refused: a negative reply when it wants one, and
    nothing else, whatever its payload. *)
Theorem unknown_request_refused (c channel : nat) (hasShell : bool) (req : Request) w :
  ~ In (Type_ req) ["shell"; "pty-req"; "window-change"]%string ->
  handleRequest c channel hasShell req w =
    Some (hasShell,
          mkWorld (clients w)
                  (trace w ++ (if WantReply req then [Request_Reply false] else []))).
Proof.
  intros Hnot. unfold handleRequest.
  repeat match goal with
  | |- context [String.eqb (Type_ req) ?v] =>
      destruct (String.eqb_spec (Type_ req) v) as [E|_];
        [exfalso; apply Hnot; rewrite E; simpl; tauto|]
  end.
  rewrite bind_ret. simpl.
  destruct (WantReply req); unfold mbind, M_bind, emit, mret, M_ret; simpl;
    rewrite ?app_nil_r; [reflexivity|destruct w; reflexivity].
Qed.

(** X16. A client fresh from [NewClient] is named after the user of its
    connection, has nothing in its mailbox and is silenced at no instant
    from the zero time on; it has no terminal, so that [Write] and
    [Resize] panic on it. Once [handleChannels] has accepted a channel for
    it, it has a terminal and [Write] succeeds, and it is still the same
    session. *)
Theorem fresh_client_needs_channel (c : nat) (conn : ServerConn) w :
  clients w !! c = Some (NewClient conn) ->
  (forall t : Time, 0 <= t -> IsSilenced c t w = Some (false, w))
  /\ (forall msg, Write c msg w = None)
  /\ (forall width height, Resize c width height w = None)
  /\ (forall channels, accepted channels <> [] ->
        exists w' cl',
          handleChannels c channels w = Some (tt, w')
          /\ clients w' !! c = Some cl'
          /\ Name cl' = User conn /\ Msg cl' = [] /\ Conn cl' = conn
          /\ forall msg, is_Some (Write c msg w')).
Proof.
  intros Hc. split; [|split; [|split]].
  - intros t Ht. rewrite (IsSilenced_some c t w _ Hc). simpl.
    unfold Time_After. destruct (Z.ltb_spec t 0); [lia|reflexivity].
  - intros msg. unfold Write.
    rewrite (bind_some _ _ _ _ _ (load_some _ _ _ Hc)). reflexivity.
  - intros width height. unfold Resize.
    rewrite (bind_some _ _ _ _ _ (load_some _ _ _ Hc)). reflexivity.
  - intros channels Hacc.
    destruct (handleChannels_frame c channels w _ Hc)
      as (w' & cl' & tr & Hrun & Hcl' & Hkept & _ & Hterm & _).
    assert (Hc' : clients w' !! c = Some cl') by (rewrite Hcl'; apply lookup_insert_eq).
    destruct Hkept as (Hconn & Hmsg & Hname & _).
    destruct (Hterm Hacc) as [t Ht].
    exists w', cl'. repeat split; auto.
    intros msg. rewrite (Write_some c msg w' cl' t Hc' Ht). eauto.
Qed.

(** *** The terminal follows the latest channel *)

Lemma handleChannels_loop_app (c : nat) (prompt : string) (l1 l2 : list NewChannel) :
  forall (hasShell : bool) (deferred : list nat) w,
  handleChannels_loop c prompt hasShell deferred (l1 ++ l2) w =
    (r ← handleChannels_loop c prompt hasShell deferred l1;
     handleChannels_loop c prompt (fst (r : bool * list nat)) (snd r) l2) w.
Proof.
  induction l1 as [|ch l1 IH]; intros hasShell deferred w; [reflexivity|].
  simpl. unfold mbind, M_bind.
  destruct (handleChannel c prompt hasShell ch w) as [[r w1]|]; [|reflexivity].
  apply IH.
Qed.

(** A request that is no resize leaves the store as it is. *)
Lemma handleRequest_no_resize (c channel : nat) (hasShell : bool) (req : Request)
    w cl (t : Terminal) :
  clients w !! c = Some cl ->
  term cl = Some t ->
  ~ In (Type_ req) ["pty-req"; "window-change"]%string ->
  exists hasShell' w',
    handleRequest c channel hasShell req w = Some (hasShell', w')
    /\ clients w' = clients w.
Proof.
  intros Hc Ht Hnot. unfold handleRequest.
  destruct (String.eqb (Type_ req) "shell").
  - unfold mbind, M_bind, load. rewrite Hc, Ht. simpl.
    destruct hasShell, (WantReply req); unfold emit, mret, M_ret; simpl; eauto.
  - repeat match goal with
    | |- context [String.eqb (Type_ req) ?v] =>
        destruct (String.eqb_spec (Type_ req) v) as [E|_];
          [exfalso; apply Hnot; rewrite E; simpl; tauto|]
    end.
    destruct (refuse_frame c hasShell (WantReply req) w cl Hc) as (w' & Hrun & Hcl & _).
    eauto.
Qed.

Lemma handleRequests_no_resize (c channel : nat) (requests : list Request) :
  forall (hasShell : bool) w cl (t : Terminal),
  clients w !! c = Some cl ->
  term cl = Some t ->
  Forall (fun req => ~ In (Type_ req) ["pty-req"; "window-change"]%string) requests ->
  exists hasShell' w',
    handleRequests c channel hasShell requests w = Some (hasShell', w')
    /\ clients w' = clients w.
Proof.
  induction requests as [|req requests IH]; intros hasShell w cl t Hc Ht Hall.
  - exists hasShell, w. split; reflexivity.
  - inversion Hall as [|req' requests' Hreq Hrest]; subst.
    destruct (handleRequest_no_resize c channel hasShell req w cl t Hc Ht Hreq)
      as (hs1 & w1 & Hrun1 & Hcl1).
    assert (Hc1 : clients w1 !! c = Some cl) by (rewrite Hcl1; exact Hc).
    destruct (IH hs1 w1 cl t Hc1 Ht Hrest) as (hs2 & w2 & Hrun2 & Hcl2).
    exists hs2, w2. split; [|congruence].
    change (handleRequests c channel hasShell (req :: requests))
      with (hasShell' ← handleRequest c channel hasShell req;
            handleRequests c channel hasShell' requests).
    rewrite (bind_some _ _ _ _ _ Hrun1). exact Hrun2.
Qed.

(** X23. Every session channel that is accepted takes the terminal of
    the session over: whatever channels came before, and whether a shell
    runs on one of them or not, after a last accepted channel that asks
    for no resize the session's terminal is a fresh one on that channel,
    with the prompt made of the name that the session had when
    [handleChannels] started. *)
Theorem latest_channel_takes_terminal (c : nat) (before : list NewChannel)
    (channel : nat) (requests : list Request) w cl :
  clients w !! c = Some cl ->
  Forall (fun req => ~ In (Type_ req) ["pty-req"; "window-change"]%string) requests ->
  exists w' cl',
    handleChannels c (before ++ [mkNewChannel "session" (inr (channel, requests))]) w
      = Some (tt, w')
    /\ clients w' !! c = Some cl'
    /\ term cl' = Some (NewTerminal channel ("[" +:+ Name cl +:+ "] ")).
Proof.
  intros Hc Hall. unfold handleChannels.
  rewrite (bind_some _ _ _ _ _ (load_some _ _ _ Hc)).
  set (prompt := "[" +:+ Name cl +:+ "] ").
  destruct (handleChannels_loop_frame c prompt before false [] w cl Hc)
    as (r1 & w1 & cl1 & Hrun1 & _ & Hcl1 & _).
  assert (Hc1 : clients w1 !! c = Some cl1) by (rewrite Hcl1; apply lookup_insert_eq).
  set (cl2 := set_term (Some (NewTerminal channel prompt)) cl1).
  set (w2 := mkWorld (<[c := cl2]> (clients w1)) (trace w1)).
  assert (Hc2 : clients w2 !! c = Some cl2) by apply lookup_insert_eq.
  destruct (handleRequests_no_resize c channel requests (fst r1) w2 cl2 _ Hc2 eq_refl Hall)
    as (hs3 & w3 & Hrun3 & Hcl3).
  assert (Hloop : handleChannels_loop c prompt false []
                    (before ++ [mkNewChannel "session" (inr (channel, requests))]) w
                  = Some ((hs3, channel :: snd r1), w3)).
  { assert (Hlast : handleChannel c prompt (fst r1)
                       (mkNewChannel "session" (inr (channel, requests))) w1
                     = Some ((hs3, Some channel), w3)).
    { unfold handleChannel. simpl.
      rewrite (bind_some _ _ _ _ _ (load_some _ _ _ Hc1)).
      assert (Hstore : store c cl2 w1 = Some (tt, w2)) by reflexivity.
      rewrite (bind_some _ _ _ _ _ Hstore), (bind_some _ _ _ _ _ Hrun3). reflexivity. }
    rewrite handleChannels_loop_app, (bind_some _ _ _ _ _ Hrun1).
    change (handleChannels_loop c prompt (fst r1) (snd r1)
              [mkNewChannel "session" (inr (channel, requests))])
      with (r ← handleChannel c prompt (fst r1)
                  (mkNewChannel "session" (inr (channel, requests)));
            handleChannels_loop c prompt (fst (r : bool * option nat))
              (match snd r with Some channel0 => channel0 :: snd r1 | None => snd r1 end)
              []).
    rewrite (bind_some _ _ _ _ _ Hlast). reflexivity. }
  rewrite (bind_some _ _ _ _ _ Hloop), closeAll_trace.
  eexists; exists cl2. split; [reflexivity|]. simpl.
  rewrite Hcl3. split; [exact Hc2|reflexivity].
Qed.

(** *** The first shell request of a connection *)

Lemma spawns_closes (l : list nat) : spawns (map Channel_Close l) = 0%nat.
Proof. induction l as [|x l IH]; simpl; congruence. Qed.

(** A request that is no shell request, or that finds the guard set,
    starts nothing and leaves the guard as it is. *)
Lemma handleRequest_quiet (c channel : nat) (hasShell : bool) (req : Request)
    w cl (t : Terminal) :
  clients w !! c = Some cl ->
  term cl = Some t ->
  Type_ req <> "shell"%string \/ hasShell = true ->
  exists w' cl' t' tr,
    handleRequest c channel hasShell req w = Some (hasShell, w')
    /\ clients w' !! c = Some cl'
    /\ term cl' = Some t'
    /\ trace w' = trace w ++ tr
    /\ spawns tr = 0%nat.
Proof.
  intros Hc Ht Hquiet.
  assert (Hrefuse : exists w' cl' t' tr,
            (mret (M := M Terminal) (false, hasShell) ≫=
             (fun r : bool * bool =>
                (if WantReply req then emit (Request_Reply (fst r)) else mret tt) ;;
                mret (snd r))) w = Some (hasShell, w')
            /\ clients w' !! c = Some cl' /\ term cl' = Some t'
            /\ trace w' = trace w ++ tr /\ spawns tr = 0%nat).
  { destruct (WantReply req); unfold mbind, M_bind, emit, mret, M_ret; simpl.
    - eexists; exists cl, t; eexists. repeat split; eauto.
    - exists w, cl, t, []. rewrite app_nil_r. repeat split; auto. }
  assert (Hresize : forall width height : Z, exists w' cl' t' tr,
            ((resized ← Resize c width height; mret (resized, hasShell)) ≫=
             (fun r : bool * bool =>
                (if WantReply req then emit (Request_Reply (fst r)) else mret tt) ;;
                mret (snd r))) w = Some (hasShell, w')
            /\ clients w' !! c = Some cl' /\ term cl' = Some t'
            /\ trace w' = trace w ++ tr /\ spawns tr = 0%nat).
  { intros width height.
    pose proof (Resize_some c width height w cl t Hc Ht) as HR.
    unfold mbind, M_bind, mret, M_ret. rewrite HR.
    destruct (snd (term_SetSize t width height)); destruct (WantReply req);
      unfold emit; simpl;
      eexists; eexists; eexists; eexists;
      (split; [reflexivity|]); simpl;
      (split; [apply lookup_insert_eq|]); simpl;
      (split; [reflexivity|]);
      rewrite <- ?app_assoc;
      first [ (split; [reflexivity|reflexivity])
            | (split; [symmetry; apply app_nil_r|reflexivity]) ]. }
  unfold handleRequest.
  destruct (String.eqb_spec (Type_ req) "shell") as [Eshell|_].
  { destruct Hquiet as [Hne| ->]; [contradiction|].
    unfold mbind, M_bind, load. rewrite Hc, Ht. simpl.
    destruct (WantReply req); unfold emit, mret, M_ret; simpl.
    - eexists; exists cl, t; eexists. repeat split; eauto.
    - exists w, cl, t, []. rewrite app_nil_r. repeat split; auto. }
  destruct (String.eqb (Type_ req) "pty-req").
  { destruct (parsePtyRequest (Payload req)) as [[width height] [|]];
      [apply Hresize|apply Hrefuse]. }
  destruct (String.eqb (Type_ req) "window-change").
  { destruct (parseWinchRequest (Payload req)) as [[width height] [|]];
      [apply Hresize|apply Hrefuse]. }
  apply Hrefuse.
Qed.

Lemma handleRequests_quiet (c channel : nat) (requests : list Request) :
  forall (hasShell : bool) w cl (t : Terminal),
  clients w !! c = Some cl ->
  term cl = Some t ->
  Forall (fun req => Type_ req <> "shell"%string) requests \/ hasShell = true ->
  exists w' cl' t' tr,
    handleRequests c channel hasShell requests w = Some (hasShell, w')
    /\ clients w' !! c = Some cl'
    /\ term cl' = Some t'
    /\ trace w' = trace w ++ tr
    /\ spawns tr = 0%nat.
Proof.
  induction requests as [|req requests IH]; intros hasShell w cl t Hc Ht Hquiet.
  - exists w, cl, t, []. rewrite app_nil_r. repeat split; auto.
  - assert (Hreq : Type_ req <> "shell"%string \/ hasShell = true).
    { destruct Hquiet as [Hall|Hset]; [|auto]. inversion Hall; auto. }
    assert (Hrest : Forall (fun req => Type_ req <> "shell"%string) requests
                    \/ hasShell = true).
    { destruct Hquiet as [Hall|Hset]; [|auto]. inversion Hall; auto. }
    destruct (handleRequest_quiet c channel hasShell req w cl t Hc Ht Hreq)
      as (w1 & cl1 & t1 & tr1 & Hrun1 & Hc1 & Ht1 & Htr1 & Hsp1).
    destruct (IH hasShell w1 cl1 t1 Hc1 Ht1 Hrest)
      as (w2 & cl2 & t2 & tr2 & Hrun2 & Hc2 & Ht2 & Htr2 & Hsp2).
    exists w2, cl2, t2, (tr1 ++ tr2).
    split.
    { change (handleRequests c channel hasShell (req :: requests))
        with (hasShell' ← handleRequest c channel hasShell req;
              handleRequests c channel hasShell' requests).
      rewrite (bind_some _ _ _ _ _ Hrun1). exact Hrun2. }
    repeat split; auto.
    + rewrite Htr2, Htr1, app_assoc. reflexivity.
    + rewrite spawns_app, Hsp1, Hsp2. reflexivity.
Qed.

Lemma handleRequests_app (c channel : nat) (l1 l2 : list Request) :
  forall (hasShell : bool) w,
  handleRequests c channel hasShell (l1 ++ l2) w =
    (hasShell' ← handleRequests c channel hasShell l1;
     handleRequests c channel hasShell' l2) w.
Proof.
  induction l1 as [|req l1 IH]; intros hasShell w; [reflexivity|].
  simpl. unfold mbind, M_bind.
  destruct (handleRequest c channel hasShell req w) as [[hs1 w1]|]; [|reflexivity].
  apply IH.
Qed.

Lemma handleChannel_quiet (c : nat) (prompt : string) (hasShell : bool) (ch : NewChannel)
    w cl :
  clients w !! c = Some cl ->
  brings_no_shell ch \/ hasShell = true ->
  exists r w' cl' tr,
    handleChannel c prompt hasShell ch w = Some (r, w')
    /\ fst r = hasShell
    /\ clients w' !! c = Some cl'
    /\ trace w' = trace w ++ tr
    /\ spawns tr = 0%nat.
Proof.
  intros Hc Hquiet. unfold brings_no_shell, accepts in Hquiet. unfold handleChannel.
  destruct (String.eqb (ChannelType ch) "session"); simpl.
  - destruct (Accept ch) as [err|[channel requests]].
    + eexists; eexists; exists cl; eexists. split; [reflexivity|]. simpl. auto.
    + rewrite (bind_some _ _ _ _ _ (load_some _ _ _ Hc)).
      set (cl0 := set_term (Some (NewTerminal channel prompt)) cl).
      set (w0 := mkWorld (<[c := cl0]> (clients w)) (trace w)).
      assert (Hc0 : clients w0 !! c = Some cl0) by apply lookup_insert_eq.
      destruct (handleRequests_quiet c channel requests hasShell w0 cl0 _ Hc0 eq_refl Hquiet)
        as (w' & cl' & t' & tr & Hrun & Hc' & _ & Htr & Hsp).
      exists (hasShell, Some channel), w', cl', tr.
      assert (Hstore : store c cl0 w = Some (tt, w0)) by reflexivity.
      rewrite (bind_some _ _ _ _ _ Hstore), (bind_some _ _ _ _ _ Hrun).
      repeat split; auto.
  - eexists; eexists; exists cl; eexists. split; [reflexivity|]. simpl. auto.
Qed.

Lemma handleChannels_loop_quiet (c : nat) (prompt : string) (channels : list NewChannel) :
  forall (hasShell : bool) (deferred : list nat) w cl,
  clients w !! c = Some cl ->
  Forall brings_no_shell channels \/ hasShell = true ->
  exists r w' cl' tr,
    handleChannels_loop c prompt hasShell deferred channels w = Some (r, w')
    /\ fst r = hasShell
    /\ clients w' !! c = Some cl'
    /\ trace w' = trace w ++ tr
    /\ spawns tr = 0%nat.
Proof.
  induction channels as [|ch channels IH]; intros hasShell deferred w cl Hc Hquiet.
  - exists (hasShell, deferred), w, cl, []. rewrite app_nil_r. repeat split; auto.
  - assert (Hch : brings_no_shell ch \/ hasShell = true).
    { destruct Hquiet as [Hall|Hset]; [|auto]. inversion Hall; auto. }
    assert (Hrest : Forall brings_no_shell channels \/ hasShell = true).
    { destruct Hquiet as [Hall|Hset]; [|auto]. inversion Hall; auto. }
    destruct (handleChannel_quiet c prompt hasShell ch w cl Hc Hch)
      as (r1 & w1 & cl1 & tr1 & Hrun1 & Hhs1 & Hc1 & Htr1 & Hsp1).
    rewrite <- Hhs1 in Hrest.
    destruct (IH (fst r1)
                 (match snd r1 with Some channel => channel :: deferred | None => deferred end)
                 w1 cl1 Hc1 Hrest)
      as (r2 & w2 & cl2 & tr2 & Hrun2 & Hhs2 & Hc2 & Htr2 & Hsp2).
    exists r2, w2, cl2, (tr1 ++ tr2).
    split; [simpl; rewrite (bind_some _ _ _ _ _ Hrun1); exact Hrun2|].
    repeat split; auto.
    + congruence.
    + rewrite Htr2, Htr1, app_assoc. reflexivity.
    + rewrite spawns_app, Hsp1, Hsp2. reflexivity.
Qed.

(** The run of [handleChannels] around the first shell request of the
    connection. *)
Lemma first_shell_starts (c : nat) (before after : list NewChannel) (channel : nat)
    (requests1 requests2 : list Request) (req : Request) w cl :
  clients w !! c = Some cl ->
  Forall brings_no_shell before ->
  Forall (fun req => Type_ req <> "shell"%string) requests1 ->
  Type_ req = "shell"%string ->
  exists w' tr1 tr2,
    handleChannels c
      (before ++ mkNewChannel "session" (inr (channel, requests1 ++ req :: requests2)) :: after)
      w = Some (tt, w')
    /\ trace w' = trace w ++ tr1 ++ [Go_handleShell c channel]
                  ++ (if WantReply req then [Request_Reply true] else []) ++ tr2
    /\ spawns tr1 = 0%nat
    /\ spawns tr2 = 0%nat.
Proof.
  intros Hc Hbefore Hreqs1 Hshell. unfold handleChannels.
  rewrite (bind_some _ _ _ _ _ (load_some _ _ _ Hc)).
  set (prompt := "[" +:+ Name cl +:+ "] ").
  set (ch := mkNewChannel "session" (inr (channel, requests1 ++ req :: requests2))).
  (* the channels before *)
  destruct (handleChannels_loop_quiet c prompt before false [] w cl Hc (or_introl Hbefore))
    as (r1 & w1 & cl1 & trA & Hrun1 & Hhs1 & Hc1 & HtrA & HspA).
  (* the channel of the shell, up to the request *)
  set (cl2 := set_term (Some (NewTerminal channel prompt)) cl1).
  set (w2 := mkWorld (<[c := cl2]> (clients w1)) (trace w1)).
  assert (Hc2 : clients w2 !! c = Some cl2) by apply lookup_insert_eq.
  destruct (handleRequests_quiet c channel requests1 false w2 cl2 _ Hc2 eq_refl
              (or_introl Hreqs1))
    as (w3 & cl3 & t3 & trB & Hrun3 & Hc3 & Ht3 & HtrB & HspB).
  (* the request *)
  set (trS := [Go_handleShell c channel]
              ++ (if WantReply req then [Request_Reply true] else [])).
  set (w4 := mkWorld (clients w3) (trace w3 ++ trS)).
  assert (Hrun4 : handleRequest c channel false req w3 = Some (true, w4)).
  { unfold handleRequest. rewrite Hshell. simpl.
    unfold mbind, M_bind, load. rewrite Hc3, Ht3. simpl.
    unfold w4, trS. destruct (WantReply req); unfold emit, mret, M_ret; simpl;
      rewrite <- ?app_assoc; reflexivity. }
  assert (Hc4 : clients w4 !! c = Some cl3) by exact Hc3.
  (* the rest of the channel, and the channels after *)
  destruct (handleRequests_quiet c channel requests2 true w4 cl3 t3 Hc4 Ht3
              (or_intror eq_refl))
    as (w5 & cl5 & t5 & trC & Hrun5 & Hc5 & _ & HtrC & HspC).
  destruct (handleChannels_loop_quiet c prompt after true (channel :: snd r1) w5 cl5 Hc5
              (or_intror eq_refl))
    as (r6 & w6 & cl6 & trD & Hrun6 & _ & _ & HtrD & HspD).
  assert (Hch : handleChannel c prompt false ch w1 = Some ((true, Some channel), w5)).
  { unfold handleChannel, ch. simpl.
    rewrite (bind_some _ _ _ _ _ (load_some _ _ _ Hc1)).
    assert (Hstore : store c cl2 w1 = Some (tt, w2)) by reflexivity.
    rewrite (bind_some _ _ _ _ _ Hstore).
    assert (Hreqs : handleRequests c channel false (requests1 ++ req :: requests2) w2
                    = Some (true, w5)).
    { rewrite handleRequests_app, (bind_some _ _ _ _ _ Hrun3).
      change (handleRequests c channel false (req :: requests2))
        with (hasShell' ← handleRequest c channel false req;
              handleRequests c channel hasShell' requests2).
      rewrite (bind_some _ _ _ _ _ Hrun4). exact Hrun5. }
    rewrite (bind_some _ _ _ _ _ Hreqs). reflexivity. }
  assert (Hloop : handleChannels_loop c prompt false [] (before ++ ch :: after) w
                  = Some (r6, w6)).
  { rewrite handleChannels_loop_app, (bind_some _ _ _ _ _ Hrun1), Hhs1.
    change (handleChannels_loop c prompt false (snd r1) (ch :: after))
      with (r ← handleChannel c prompt false ch;
            handleChannels_loop c prompt (fst (r : bool * option nat))
              (match snd r with Some channel0 => channel0 :: snd r1 | None => snd r1 end)
              after).
    rewrite (bind_some _ _ _ _ _ Hch). exact Hrun6. }
  rewrite (bind_some _ _ _ _ _ Hloop), closeAll_trace.
  eexists; exists (trA ++ trB), (trC ++ trD ++ map Channel_Close (snd r6)).
  split; [reflexivity|]. simpl trace.
  split.
  { rewrite HtrD, HtrC. unfold w4, trS. simpl trace. rewrite HtrB. unfold w2. simpl trace.
    rewrite HtrA. rewrite <- !app_assoc. reflexivity. }
  split; rewrite ?spawns_app, ?spawns_closes; lia.
Qed.

(** C2, as the code has it. The guard [hasShell] is a variable of
    [handleChannels], unset when the call starts and shared by all the
    channels of the connection that the call serves. A [shell] request
    that finds it unset starts the command loop, sets it and is answered
    with success; a [shell] request that finds it set, on the same channel
    or on a later one, is ignored and answered with failure, when it wants
    an answer. The guard is never unset: once set, no channel of the
    connection starts a command loop, and a whole run of [handleChannels]
    starts one at most, whatever the number of channels. In a run, the
    first [shell] request on an accepted session channel does start the
    command loop, on its channel, and is answered with success, and
    nothing else in the run starts one. *)
Theorem shell_guard_per_connection (c : nat) w cl :
  clients w !! c = Some cl ->
  (forall (channel : nat) (hasShell : bool) (req : Request) (t : Terminal),
     Type_ req = "shell"%string ->
     term cl = Some t ->
     handleRequest c channel hasShell req w =
       Some (true,
             mkWorld (clients w)
                     (trace w ++ (if hasShell then [] else [Go_handleShell c channel])
                              ++ (if WantReply req then [Request_Reply (negb hasShell)]
                                  else []))))
  /\ (forall (prompt : string) (deferred : list nat) (channels : list NewChannel),
        exists r w',
          handleChannels_loop c prompt true deferred channels w = Some (r, w')
          /\ fst r = true
          /\ spawns (trace w') = spawns (trace w))
  /\ (forall channels : list NewChannel,
        exists w',
          handleChannels c channels w = Some (tt, w')
          /\ (spawns (trace w') <= spawns (trace w) + 1)%nat)
  /\ (forall (before after : list NewChannel) (channel : nat)
             (requests1 requests2 : list Request) (req : Request),
        Forall brings_no_shell before ->
        Forall (fun r => Type_ r <> "shell"%string) requests1 ->
        Type_ req = "shell"%string ->
        exists w' tr1 tr2,
          handleChannels c
            (before
             ++ mkNewChannel "session" (inr (channel, requests1 ++ req :: requests2))
             :: after) w = Some (tt, w')
          /\ trace w' = trace w ++ tr1 ++ [Go_handleShell c channel]
                        ++ (if WantReply req then [Request_Reply true] else []) ++ tr2
          /\ spawns tr1 = 0%nat
          /\ spawns tr2 = 0%nat).
Proof.
  intros Hc. split; [|split; [|split]].
  - intros channel hasShell req t Hshell Ht.
    unfold handleRequest. rewrite Hshell. simpl.
    unfold mbind, M_bind, load. rewrite Hc, Ht. simpl.
    destruct hasShell, (WantReply req); unfold emit, mret, M_ret; simpl;
      rewrite <- ?app_assoc, ?app_nil_r; try reflexivity.
    destruct w; reflexivity.
  - intros prompt deferred channels.
    destruct (handleChannels_loop_guard c prompt channels true deferred w cl Hc)
      as (r & w' & Hrun & Hmono & Hsp).
    exists r, w'. rewrite (Hmono eq_refl) in Hsp. repeat split; auto; lia.
  - intros channels. unfold handleChannels.
    rewrite (bind_some _ _ _ _ _ (load_some _ _ _ Hc)).
    destruct (handleChannels_loop_guard c ("[" +:+ Name cl +:+ "] ") channels false [] w cl Hc)
      as (r & w1 & Hrun & _ & Hsp).
    rewrite (bind_some _ _ _ _ _ Hrun).
    destruct (closeAll_some (snd r) w1) as (w' & Hclose & Hsp').
    exists w'. split; [exact Hclose|].
    rewrite Hsp'. destruct (fst r); lia.
  - intros before after channel requests1 requests2 req Hbefore Hreqs1 Hshell.
    apply (first_shell_starts c before after channel requests1 requests2 req w cl
             Hc Hbefore Hreqs1 Hshell).
Qed.

End Connection.

(** ** The model at work *)

Section Concrete.
#[local] Existing Instance SimTerminal_ops.
#[local] Existing Instance GoTime_ops.
#[local] Existing Instance Pty_ops.
Import Sample.

(** Bob says hello: broadcast to the others when he is free to speak,
    rejected when he is silenced. *)
Lemma chat_line_gate_witness :
  handleShell_line 2 8 server 1000 "hello" world =
    Some (tt, mkWorld (clients world) [Server_Broadcast "bob: hello" (Some 2%nat)])
  /\ handleShell_line 2 8 server 1000 "hello" world_silenced =
       Some (tt, notified 2 bob_silenced "-> Message rejected." world_silenced)
  /\ handleShell_line 2 8 server 1000 (letters 995) world =
       Some (tt, mkWorld (clients world)
                         [Server_Broadcast ("bob: " +:+ letters 995) (Some 2%nat)])
  /\ handleShell_line 2 8 server 1000 (letters 996) world =
       Some (tt, notified 2 bob "-> Message rejected." world).
Proof.
  split; [|split; [|split]].
  - apply (chat_line_gate 2 8 server 1000 "hello" world bob); reflexivity.
  - apply (chat_line_gate 2 8 server 1000 "hello" world_silenced bob_silenced); reflexivity.
  - apply (chat_line_gate 2 8 server 1000 (letters 995) world bob); reflexivity.
  - apply (chat_line_gate 2 8 server 1000 (letters 996) world bob); reflexivity.
Defined.

(** C1, the claim as it is written, fails: bob, who is not silenced,
    sends 333 euro signs. The message has 338 characters, fewer than 1000,
    but 1004 bytes, and is rejected. *)
Lemma chat_in_characters_rejected :
  characters ("bob: " +:+ euros) = 338%nat
  /\ String.length ("bob: " +:+ euros) = 1004%nat
  /\ IsSilenced 2 1000 world = Some (false, world)
  /\ GoStrings.HasPrefix euros "/" = false
  /\ handleShell_line 2 8 server 1000 euros world =
       Some (tt, notified 2 bob "-> Message rejected." world).
Proof.
  repeat split; vm_compute; reflexivity.
Qed.

(** Bob waves, then is at a loss for words, then waves while silenced. *)
Lemma me_action_line_witness :
  handleShell_line 2 8 server 1000 "/me waves" world =
    Some (tt, mkWorld (clients world) [Server_Broadcast "** bob waves" None])
  /\ handleShell_line 2 8 server 1000 "/me" world =
       Some (tt, mkWorld (clients world)
                         [Server_Broadcast "** bob is at a loss for words." None])
  /\ handleShell_line 2 8 server 1000 "/me waves" world_silenced =
       Some (tt, notified 2 bob_silenced "-> Message rejected." world_silenced).
Proof.
  split; [|split].
  - apply (me_action_line 2 8 server 1000 " waves" world bob);
      [right; exists "waves"%string; reflexivity|reflexivity].
  - apply (me_action_line 2 8 server 1000 "" world bob);
      [left; reflexivity|reflexivity].
  - apply (me_action_line 2 8 server 1000 " waves" world_silenced bob_silenced);
      [right; exists "waves"%string; reflexivity|reflexivity].
Defined.

(** Bob asks for help: eight lines reach his terminal. *)
Lemma help_about_written_witness :
  handleShell_line 2 8 server 1000 "/help" world =
    Some (tt, mkWorld
                (<[2%nat := set_term
                     (Some (mkSimTerminal 8 "[bob] " (80, 24)
                              (map (fun l => l +:+ CRLF)
                                   ["-> Available commands:"; "   /about"; "   /exit";
                                    "   /help"; "   /list"; "   /nick $NAME";
                                    "   /whois $NAME"; ""]%string)))
                     bob]> (clients world))
                []).
Proof.
  exact (proj1 (help_about_written 2 8 server 1000 "/help" "/help" HELP_TEXT world bob
                  bob_term (or_introl (conj eq_refl eq_refl)) eq_refl eq_refl eq_refl)).
Defined.

(** C4, the claim as it is written, fails: after [/help] the mailbox of
    the session holds nothing, the text went to the terminal. *)
Lemma help_not_enqueued :
  exists w' cl' t',
    handleShell_line 2 8 server 1000 "/help" world = Some (tt, w')
    /\ clients w' !! 2%nat = Some cl'
    /\ Msg cl' = []
    /\ term cl' = Some t'
    /\ length (sim_written t') = 8%nat.
Proof.
  eexists; eexists; eexists.
  split; [vm_compute; reflexivity|].
  split; [vm_compute; reflexivity|].
  repeat split.
Qed.

(** Alice silences bob for ten seconds. *)
Lemma silence_command_effect_witness :
  handleShell_line 1 7 server 1000 "/silence bob 10s" world =
    Some (tt, mkWorld
                (<[2%nat := set_term
                     (Some (mkSimTerminal 8 "[bob] " (80, 24)
                              ["-> Silenced for 10s by alice." +:+ CRLF]))
                     (set_silencedUntil (1000 + 10 * Second) bob)]> (clients world))
                []).
Proof.
  exact (proj1 (silence_command_effect 1 7 server 1000 "/silence bob 10s" "bob" "10s"
                  (10 * Second) 2 world alice bob bob_term
                  eq_refl eq_refl eq_refl eq_refl eq_refl eq_refl eq_refl)).
Defined.

(** C3, the claim as it is written, fails: after [/silence bob 10s] the
    mailbox of bob holds nothing; the notice went to his terminal. *)
Lemma silence_notice_not_enqueued :
  exists w' cl' t',
    handleShell_line 1 7 server 1000 "/silence bob 10s" world = Some (tt, w')
    /\ clients w' !! 2%nat = Some cl'
    /\ Msg cl' = []
    /\ silencedUntil cl' = 1000 + 10 * Second
    /\ term cl' = Some t'
    /\ sim_written t' = ["-> Silenced for 10s by alice." +:+ CRLF].
Proof.
  eexists; eexists; eexists.
  split; [vm_compute; reflexivity|].
  split; [vm_compute; reflexivity|].
  repeat split.
Qed.

(** Bob is no operator; alice forgets the name; alice names a stranger. *)
Lemma moderation_check_order_witness :
  handleShell_line 2 8 server 1000 "/ban alice" world =
    Some (tt, notified 2 bob "-> You're not an admin." world)
  /\ handleShell_line 1 7 server 1000 "/op" world =
       Some (tt, notified 1 alice "-> Missing $NAME from: /op $NAME" world)
  /\ handleShell_line 1 7 server 1000 "/silence carol 1m" world =
       Some (tt, notified 1 alice "-> No such name: carol" world).
Proof.
  split; [|split].
  - exact (proj1 (moderation_check_order 2 8 server 1000 "/ban alice" "/ban" world bob
                    (or_introl eq_refl) eq_refl eq_refl) eq_refl).
  - exact (proj1 (proj2 (moderation_check_order 1 7 server 1000 "/op" "/op" world alice
                           (or_intror (or_introl eq_refl)) eq_refl eq_refl))
                 eq_refl eq_refl).
  - exact (proj1 (proj2 (proj2
             (moderation_check_order 1 7 server 1000 "/silence carol 1m" "/silence"
                world alice
                (or_intror (or_intror (or_introl eq_refl))) eq_refl eq_refl)))
             eq_refl eq_refl "carol"%string eq_refl eq_refl).
Defined.

(** Ten minutes, then one second: one second it is. *)
Lemma Silence_overwrites_witness :
  (Silence 2 (10 * Minute) 1000 ;; Silence 2 Second 2000) world =
    Some (tt, mkWorld (<[2%nat := set_silencedUntil (2000 + Second) bob]> (clients world)) []).
Proof.
  exact (proj1 (proj2 (Silence_overwrites 2 (10 * Minute) Second 1000 2000 world bob
                         eq_refl))).
Defined.

(** [abc123] is no duration: five minutes, as without a token. *)
Lemma silence_unparsable_is_default_witness :
  handleShell_line 1 7 server 1000 "/silence bob abc123" world =
    handleShell_line 1 7 server 1000 "/silence bob" world
  /\ handleShell_line 1 7 server 1000 "/silence bob" world =
       Some (tt, mkWorld
                   (<[2%nat := set_term
                        (Some (mkSimTerminal 8 "[bob] " (80, 24)
                                 ["-> Silenced for 5m0s by alice." +:+ CRLF]))
                        (set_silencedUntil (1000 + 300000000000) bob)]> (clients world))
                   []).
Proof.
  destruct (silence_unparsable_is_default 1 7 server 1000 "bob" "abc123" world
              ltac:(reflexivity) ltac:(reflexivity)) as [Hsame Hdefault].
  split; [exact Hsame|].
  exact (Hdefault 2%nat alice bob bob_term eq_refl eq_refl eq_refl eq_refl eq_refl).
Defined.

(** Bob is silenced; alice silences him for minus five minutes; he is
    silenced no more. *)
Lemma nonpositive_silence_lifts_witness :
  IsSilenced 2 1000 world_silenced = Some (true, world_silenced)
  /\ exists w',
       handleShell_line 1 7 server 1000 "/silence bob -5m" world_silenced = Some (tt, w')
       /\ IsSilenced 2 1000 w' = Some (false, w').
Proof.
  split; [reflexivity|].
  apply (proj2 (nonpositive_silence_lifts 2 (- (5 * Minute)) 1000 1000 world_silenced
                  bob_silenced ltac:(vm_compute; discriminate) ltac:(lia) eq_refl)
               1%nat 7%nat server "/silence bob -5m"%string "bob"%string "-5m"%string
               alice bob_term);
    reflexivity.
Defined.

(** A window change that succeeds, and a [pty-req] cut short. *)
Lemma resize_request_reply_witness :
  (exists w' cl',
     handleRequest 2 8 false winch world = Some (false, w')
     /\ clients w' !! 2%nat = Some cl'
     /\ replies (trace w') = [true]
     /\ (termWidth cl', termHeight cl') = (100, 40))
  /\ (exists w' cl',
        handleRequest 2 8 false truncated world = Some (false, w')
        /\ clients w' !! 2%nat = Some cl'
        /\ replies (trace w') = [false]
        /\ (termWidth cl', termHeight cl') = (80, 24)).
Proof.
  split.
  - exact (resize_request_reply 2 8 false winch parseWinchRequest world bob bob_term
             (or_intror (conj eq_refl eq_refl)) eq_refl eq_refl).
  - exact (resize_request_reply 2 8 false truncated parsePtyRequest world bob bob_term
             (or_introl (conj eq_refl eq_refl)) eq_refl eq_refl).
Defined.

(** Two channels, each asking for a shell: the request on the first
    starts the command loop, and nothing else does. *)
Lemma shell_guard_per_connection_witness :
  (exists w',
     handleChannels 1 two_channels world = Some (tt, w')
     /\ (spawns (trace w') <= 1)%nat)
  /\ (exists w' tr1 tr2,
        handleChannels 1 two_channels world = Some (tt, w')
        /\ trace w' = tr1 ++ Go_handleShell 1 7 :: Request_Reply true :: tr2
        /\ spawns tr1 = 0%nat
        /\ spawns tr2 = 0%nat).
Proof.
  destruct (shell_guard_per_connection 1 world alice eq_refl) as (_ & _ & Hone & Hfirst).
  split; [exact (Hone two_channels)|].
  exact (Hfirst [] [mkNewChannel "session" (inr (9%nat, [shell]))] 7%nat [] [] shell
           ltac:(constructor) ltac:(constructor) eq_refl).
Defined.

(** C2, the claim as it is written, fails: a connection opens two
    session channels and asks for a shell on each. The first [shell]
    request of the second channel is answered with failure and starts
    no command loop. *)
Lemma second_channel_shell_refused :
  exists w',
    handleChannels 1 two_channels world = Some (tt, w')
    /\ trace w' = [Go_handleShell 1 7; Request_Reply true; Request_Reply false;
                   Channel_Close 9; Channel_Close 7].
Proof.
  eexists. split; vm_compute; reflexivity.
Qed.

(** *** The other commands and the whole connection, at work *)

(** Bob leaves. *)
Lemma exit_closes_channel_witness :
  handleShell_line 2 8 server 1000 "/exit now" world =
    Some (tt, mkWorld (clients world) [Channel_Close 8]).
Proof.
  exact (exit_closes_channel 2 8 server 1000 "/exit now" world eq_refl).
Defined.

(** Bob takes a new name, then forgets to give one, then gives two. *)
Lemma nick_delegates_witness :
  (exists w', handleShell_line 2 8 server 1000 "/nick robert" world = Some (tt, w')
              /\ trace w' = [Server_Rename 2 "robert"])
  /\ handleShell_line 2 8 server 1000 "/nick" world =
       Some (tt, notified 2 bob "-> Missing $NAME from: /nick $NAME" world)
  /\ handleShell_line 2 8 server 1000 "/nick robert the first" world =
       Some (tt, notified 2 bob "-> Missing $NAME from: /nick $NAME" world).
Proof.
  split; [|split].
  - exact (proj1 (nick_delegates 2 8 server 1000 "/nick robert" world eq_refl)
                 "robert"%string eq_refl).
  - exact (proj2 (nick_delegates 2 8 server 1000 "/nick" world eq_refl)
                 ltac:(vm_compute; discriminate) bob eq_refl).
  - exact (proj2 (nick_delegates 2 8 server 1000 "/nick robert the first" world eq_refl)
                 ltac:(vm_compute; discriminate) bob eq_refl).
Defined.

(** Bob asks who is there. *)
Lemma list_reply_witness :
  handleShell_line 2 8 server 1000 "/list" world =
    Some (tt, notified 2 bob "-> 2 connected: alice, bob" world).
Proof.
  exact (list_reply 2 8 server 1000 "/list" world bob eq_refl eq_refl).
Defined.

(** Verbs are matched with their case. *)
Lemma unknown_command_echoed_witness :
  handleShell_line 2 8 server 1000 "/Help me" world =
    Some (tt, notified 2 bob "-> Invalid command: /Help me" world).
Proof.
  apply (unknown_command_echoed 2 8 server 1000 "/Help me" "/Help" world bob);
    [reflexivity|reflexivity| |reflexivity].
  simpl. intros Hin.
  repeat (destruct Hin as [Hin|Hin]; [discriminate Hin|]). exact Hin.
Defined.

(** Bob asks about alice, then about eve, whose version is too long to
    show, then about a stranger. *)
Lemma whois_reply_witness :
  handleShell_line 2 8 server_eve 1000 "/whois alice" world_eve =
    Some (tt, notified 2 bob "-> alice is aa:aa via SSH-2.0-OpenSSH_6.6" world_eve)
  /\ handleShell_line 2 8 server_eve 1000 "/whois eve" world_eve =
       Some (tt, notified 2 bob "-> eve is  via Evil Jerk with a superlong string" world_eve)
  /\ handleShell_line 2 8 server_eve 1000 "/whois carol" world_eve =
       Some (tt, notified 2 bob "-> No such name: carol" world_eve).
Proof.
  split; [|split].
  - exact (proj1 (whois_reply 2 8 server_eve 1000 "/whois alice" world_eve bob
                    eq_refl eq_refl)
                 "alice"%string 1%nat alice {[ "fingerprint"%string := "aa:aa"%string ]}
                 eq_refl eq_refl eq_refl eq_refl).
  - exact (proj1 (whois_reply 2 8 server_eve 1000 "/whois eve" world_eve bob
                    eq_refl eq_refl)
                 "eve"%string 3%nat eve ∅ eq_refl eq_refl eq_refl eq_refl).
  - exact (proj1 (proj2 (whois_reply 2 8 server_eve 1000 "/whois carol" world_eve bob
                           eq_refl eq_refl))
                 "carol"%string eq_refl eq_refl).
Defined.

(** Alice bans bob. *)
Lemma ban_applied_witness :
  exists w' bob',
    handleShell_line 1 7 server 1000 "/ban bob" world = Some (tt, w')
    /\ trace w' = [Server_Ban "bb:bb"; Server_Broadcast "* bob was banned by alice" None]
    /\ clients w' !! 2%nat = Some bob'
    /\ term bob' = Some (mkSimTerminal 8 "[bob] " (80, 24) ["-> Banned by alice." +:+ CRLF])
    /\ Closed (Conn bob') = true.
Proof.
  exact (ban_applied 1 7 server 1000 "/ban bob" "bob" 2 world alice bob bob_term
           {[ "fingerprint"%string := "bb:bb"%string ]}
           eq_refl eq_refl eq_refl eq_refl eq_refl eq_refl eq_refl).
Defined.

(** Alice makes bob an operator. *)
Lemma op_applied_witness :
  handleShell_line 1 7 server 1000 "/op bob" world =
    Some (tt, mkWorld
                (<[2%nat := set_term (Some (mkSimTerminal 8 "[bob] " (80, 24)
                                              ["-> Made op by alice." +:+ CRLF])) bob]>
                   (clients world))
                [Server_Op "bb:bb"]).
Proof.
  exact (proj1 (op_applied 1 7 server 1000 "/op bob" "bob" 2 world alice bob bob_term
                  {[ "fingerprint"%string := "bb:bb"%string ]}
                  eq_refl eq_refl eq_refl eq_refl eq_refl eq_refl eq_refl)).
Defined.

Lemma world_equipped : equipped world.
Proof.
  intros c cl Hc. unfold world in Hc. simpl in Hc.
  apply lookup_insert_Some in Hc as [[_ <-]|[_ Hc]]; [split; eauto|].
  apply lookup_insert_Some in Hc as [[_ <-]|[_ Hc]]; [split; eauto|].
  rewrite lookup_empty in Hc. discriminate.
Qed.

Lemma server_knows_world : knows server world.
Proof.
  intros name target Hwho. unfold server in Hwho. simpl in Hwho.
  destruct (String.eqb name "alice"); [inversion Hwho; subst; eexists; reflexivity|].
  destruct (String.eqb name "bob"); [inversion Hwho; subst; eexists; reflexivity|].
  discriminate.
Qed.

(** Bob tries to ban alice. *)
Lemma line_never_panics_witness :
  exists w', handleShell_line 2 8 server 1000 "/ban alice" world = Some (tt, w')
             /\ equipped w' /\ knows server w' /\ is_Some (clients w' !! 2%nat).
Proof.
  exact (line_never_panics 2 8 server 1000 "/ban alice" world world_equipped
           server_knows_world (ex_intro _ bob eq_refl)).
Defined.

(** Alice makes bob an operator: no broadcast and no rename, so the
    store is within the frame. *)
Lemma line_touches_little_witness :
  exists w', handleShell_line 1 7 server 1000 "/op bob" world = Some (tt, w')
             /\ trace w' = [Server_Op "bb:bb"]
             /\ line_frame 1 world w'.
Proof.
  destruct (line_touches_little 1 7 server 1000 "/op bob" world world_equipped
              server_knows_world (ex_intro _ alice eq_refl))
    as (w' & tr & Hrun & Htr & Hframe).
  assert (Hop : tr = [Server_Op "bb:bb"]).
  { assert (Hval : exists cs, handleShell_line 1 7 server 1000 "/op bob" world =
                              Some (tt, mkWorld cs [Server_Op "bb:bb"]))
      by (eexists; vm_compute; reflexivity).
    destruct Hval as (cs & Hval). rewrite Hval in Hrun.
    injection Hrun as <-. symmetry. exact Htr. }
  exists w'. split; [exact Hrun|]. split.
  - rewrite Htr, Hop. reflexivity.
  - apply Hframe. rewrite Hop. repeat constructor.
Defined.

Lemma bob_turns_fair :
  Forall (fun t : Turn (Terminal := SimTerminal) =>
            forall w0, equipped w0 -> is_Some (clients w0 !! 2%nat) ->
              equipped (elsewhere t w0)
              /\ is_Some (clients (elsewhere t w0) !! 2%nat)
              /\ knows (answers t) (elsewhere t w0)) bob_turns.
Proof.
  assert (Hknows : forall w0 : World SimTerminal,
            is_Some (clients w0 !! 2%nat) -> knows server_bob w0).
  { intros w0 Hbob name target Hwho. unfold server_bob in Hwho. simpl in Hwho.
    destruct (String.eqb name "bob"); [inversion Hwho; subst; exact Hbob|discriminate]. }
  unfold bob_turns.
  repeat (constructor; [intros w0 Heq Hbob; simpl; auto|]). constructor.
Qed.

(** Bob says hello, asks about himself and leaves. *)
Lemma handleShell_runs_to_close_witness :
  exists w' tr, handleShell 2 8 bob_turns world = Some (tt, w')
                /\ trace w' = tr ++ [Channel_Close 8]
                /\ equipped w' /\ is_Some (clients w' !! 2%nat).
Proof.
  exact (handleShell_runs_to_close 2 8 bob_turns world world_equipped
           (ex_intro _ bob eq_refl) bob_turns_fair).
Defined.

(** The trace of these three lines. *)
Example handleShell_bob_trace :
  (trace ∘ snd) <$> handleShell 2 8 bob_turns world =
  Some [Server_Add 2; Go_waitThenRemove 2; Go_pump 2;
        Server_Broadcast "bob: hello" (Some 2%nat); Channel_Close 8; Channel_Close 8].
Proof. vm_compute. reflexivity. Qed.

(** Three channels, of which one is accepted. *)
Lemma accepted_channels_closed_last_witness :
  exists w' tr,
    handleChannels 1 mixed_channels world = Some (tt, w')
    /\ trace w' = tr ++ [Channel_Close 7]
    /\ closes tr = []
    /\ closes (trace w') = [7%nat].
Proof.
  exact (accepted_channels_closed_last 1 mixed_channels world alice eq_refl).
Defined.

Lemma every_wanted_reply_sent_witness :
  exists w',
    handleChannels 1 mixed_channels world = Some (tt, w')
    /\ length (replies (trace w')) = 4%nat.
Proof.
  exact (every_wanted_reply_sent 1 mixed_channels world alice eq_refl).
Defined.

Lemma other_channel_types_rejected_witness :
  exists w',
    handleChannels 1 mixed_channels world = Some (tt, w')
    /\ rejections (trace w') = ["unknown channel type: x11"]%string
    /\ (accepted mixed_channels = [] -> clients w' = clients world).
Proof.
  exact (other_channel_types_rejected 1 mixed_channels world alice eq_refl).
Defined.

Lemma dispatcher_keeps_session_witness :
  exists w' cl',
    handleChannels 1 mixed_channels world = Some (tt, w')
    /\ clients w' !! 1%nat = Some cl'
    /\ (forall c', c' <> 1%nat -> clients w' !! c' = clients world !! c')
    /\ session_kept alice cl'
    /\ (accepted mixed_channels <> [] -> is_Some (term cl')).
Proof.
  exact (dispatcher_keeps_session 1 mixed_channels world alice eq_refl).
Defined.

(** The trace of this connection. *)
Example handleChannels_mixed_trace :
  (trace ∘ snd) <$> handleChannels 1 mixed_channels world =
  Some [Channel_Reject "unknown channel type: x11";
        Logger_Errorf "Could not accept channel: EOF";
        Go_handleShell 1 7; Request_Reply true; Request_Reply true;
        Request_Reply false; Request_Reply false; Channel_Close 7].
Proof. vm_compute. reflexivity. Qed.

Lemma unknown_request_refused_witness :
  handleRequest 2 8 false env world =
    Some (false, mkWorld (clients world) [Request_Reply false]).
Proof.
  apply (unknown_request_refused 2 8 false env world).
  simpl. intros Hin.
  repeat (destruct Hin as [Hin|Hin]; [discriminate Hin|]). exact Hin.
Defined.

(** Carol before and after her first channel. *)
Lemma fresh_client_needs_channel_witness :
  Write 5 "hello" world_carol = None
  /\ exists w' cl',
       handleChannels 5 two_channels world_carol = Some (tt, w')
       /\ clients w' !! 5%nat = Some cl'
       /\ Name cl' = "carol"%string /\ Msg cl' = [] /\ Conn cl' = conn "carol" "cc:cc"
       /\ forall msg, is_Some (Write 5 msg w').
Proof.
  destruct (fresh_client_needs_channel 5 (conn "carol" "cc:cc") world_carol eq_refl)
    as (_ & Hwrite & _ & Hafter).
  split; [apply Hwrite|].
  apply (Hafter two_channels). discriminate.
Defined.

(** Bob may type 995 bytes and no more. *)
Lemma chat_length_limit_witness :
  handleShell_line 2 8 server 1000 "hello" world =
    Some (tt, mkWorld (clients world) [Server_Broadcast "bob: hello" (Some 2%nat)]).
Proof.
  exact (proj1 (chat_length_limit 2 8 server 1000 "hello" world bob eq_refl eq_refl eq_refl)
               ltac:(vm_compute; lia)).
Defined.

(** Bob is silenced for a second at the instant 1000. *)
Lemma silence_blocks_chat_until_expiry_witness :
  let bob1 := set_silencedUntil (1000 + Second) bob in
  let w1 := mkWorld (<[2%nat := bob1]> (clients world)) [] in
  Silence 2 Second 1000 world = Some (tt, w1)
  /\ handleShell_line 2 8 server (1000 + Second - 1) "hello" w1 =
       Some (tt, notified 2 bob1 "-> Message rejected." w1)
  /\ handleShell_line 2 8 server (1000 + Second) "hello" w1 =
       Some (tt, mkWorld (clients w1) [Server_Broadcast "bob: hello" (Some 2%nat)]).
Proof.
  intros bob1 w1. split; [|split].
  - exact (proj1 (silence_blocks_chat_until_expiry 2 8 server Second 1000 0 "hello" world bob
                    eq_refl eq_refl ltac:(vm_compute; lia))).
  - exact (proj1 (proj2 (silence_blocks_chat_until_expiry 2 8 server Second 1000
                           (1000 + Second - 1) "hello" world bob
                           eq_refl eq_refl ltac:(vm_compute; lia)))
                 ltac:(vm_compute; reflexivity)).
  - exact (proj2 (proj2 (silence_blocks_chat_until_expiry 2 8 server Second 1000
                           (1000 + Second) "hello" world bob
                           eq_refl eq_refl ltac:(vm_compute; lia)))
                 ltac:(vm_compute; discriminate)).
Defined.

(** Carol has no terminal yet; bob becomes robert and says hello. *)
Lemma rename_then_chat_witness :
  let robert := set_term (Some (mkSimTerminal 8 "[robert] " (80, 24) []))
                         (set_Name "robert" bob) in
  let w1 := mkWorld (<[2%nat := robert]> (clients world)) [] in
  Rename 5 "carla" world_carol = None
  /\ Rename 2 "robert" world = Some (tt, w1)
  /\ handleShell_line 2 8 server 1000 "hello" w1 =
       Some (tt, mkWorld (clients w1) [Server_Broadcast "robert: hello" (Some 2%nat)]).
Proof.
  intros robert w1. split.
  - exact (proj1 (rename_then_chat 5 7 server 1000 "carla" "hello" world_carol carol
                    eq_refl) eq_refl).
  - exact (proj2 (rename_then_chat 2 8 server 1000 "robert" "hello" world bob eq_refl)
                 bob_term eq_refl eq_refl eq_refl ltac:(vm_compute; lia)).
Defined.

Lemma SplitN_roundtrip_witness :
  GoStrings.Join (GoStrings.SplitN "/silence bob 10s  now" " " 3) " "
  = "/silence bob 10s  now"%string.
Proof.
  exact (proj1 (SplitN_roundtrip "/silence bob 10s  now")).
Defined.

(** Bob, who is no operator, tries to silence alice. *)
Lemma non_operator_cannot_moderate_witness :
  exists w', handleShell_line 2 8 server 1000 "/silence alice 1h" world = Some (tt, w')
             /\ unmoderated world w'.
Proof.
  exact (non_operator_cannot_moderate 2 8 server 1000 "/silence alice 1h" world
           world_equipped server_knows_world (ex_intro _ bob eq_refl) eq_refl).
Defined.

(** Bob asks about alice: no call to the server, and one notice. *)
Lemma notices_start_with_arrow_witness :
  exists w', handleShell_line 2 8 server 1000 "/whois alice" world = Some (tt, w')
             /\ trace w' = []
             /\ answered 2 world w'.
Proof.
  destruct (notices_start_with_arrow 2 8 server 1000 "/whois alice" world
              world_equipped server_knows_world (ex_intro _ bob eq_refl))
    as (w' & tr & Hrun & Htr & Hanswered).
  assert (Hnil : tr = []).
  { assert (Hval : exists cs, handleShell_line 2 8 server 1000 "/whois alice" world =
                              Some (tt, mkWorld cs []))
      by (eexists; vm_compute; reflexivity).
    destruct Hval as (cs & Hval). rewrite Hval in Hrun.
    injection Hrun as <-. symmetry. exact Htr. }
  exists w'. split; [exact Hrun|]. split.
  - rewrite Htr, Hnil. reflexivity.
  - apply Hanswered. rewrite Hnil. constructor.
Defined.

Lemma shell_is_no_resize :
  Forall (fun req => ~ In (Type_ req) ["pty-req"; "window-change"]%string) [shell].
Proof.
  constructor; [|constructor]. simpl. intros Hin.
  repeat (destruct Hin as [Hin|Hin]; [discriminate Hin|]). exact Hin.
Qed.

(** The shell runs on channel [7]; the terminal is on channel [9]. *)
Lemma latest_channel_takes_terminal_witness :
  exists w' cl',
    handleChannels 1 two_channels world = Some (tt, w')
    /\ clients w' !! 1%nat = Some cl'
    /\ term cl' = Some (mkSimTerminal 9 "[alice] " (0, 0) []).
Proof.
  exact (latest_channel_takes_terminal 1 [mkNewChannel "session" (inr (7%nat, [shell]))]
           9 [shell] world alice eq_refl shell_is_no_resize).
Defined.

End Concrete.
